(** * University scraper: a shallow embedding and its verified properties

    The development follows the three Python sources of the repository:
    [university_scraper.py] (base scraper, Bologna and LSE scrapers,
    [DatabaseManager], the orchestrator [main]), [fix_lse_scraper.py] (the
    enhanced LSE scraper and the patch script that installs it) and
    [run_scraper.py] (command line).

    Conventions of the embedding.
    - A Python [str] is a Rocq [string]; one character is one code point.
      Case mapping and white space follow Python on the ASCII range; a
      character above 127 is kept as it is (neither cased nor white space).
      Literals of the source that are not ASCII appear as their UTF-8 bytes;
      no modelled function inspects them.
    - A Python [dict] with a fixed set of keys is a record; a table of the
      SQLite store is a [gmap] from its primary key to the row.
    - What the program reads from the outside world (the wall clock, the
      network, the browser, the HTML parser, [urllib.parse.urljoin]) is an
      explicit argument of the function that reads it.
    - A Python call that may raise returns a [result]. *)

From Stdlib Require Import String Ascii ZArith NArith Lia Bool List DecimalString.
From Stdlib Require Import DecimalPos DecimalN.
From stdpp Require Import gmap strings list fin_maps.

(** ** Python strings *)

Module PyStr.

(** [str.isspace] on one ASCII character: TAB, LF, VT, FF, CR, the four
    separators 28-31 and the space. *)
Definition is_space (c : ascii) : bool :=
  let n := N_of_ascii c in
  ((9 <=? n) && (n <=? 13) || (28 <=? n) && (n <=? 32))%N.

Definition is_lower (c : ascii) : bool :=
  let n := N_of_ascii c in ((97 <=? n) && (n <=? 122))%N.

Definition is_upper (c : ascii) : bool :=
  let n := N_of_ascii c in ((65 <=? n) && (n <=? 90))%N.

(** [\d] on one ASCII character *)
Definition is_digit (c : ascii) : bool :=
  let n := N_of_ascii c in ((48 <=? n) && (n <=? 57))%N.

Definition upper_char (c : ascii) : ascii :=
  if is_lower c then ascii_of_N (N_of_ascii c - 32) else c.

(** [s.upper()] *)
Fixpoint upper (s : string) : string :=
  match s with
  | EmptyString => EmptyString
  | String c s' => String (upper_char c) (upper s')
  end.

(** [s.startswith(p)] *)
Fixpoint startswith (s p : string) {struct p} : bool :=
  match p, s with
  | EmptyString, _ => true
  | String _ _, EmptyString => false
  | String a p', String b s' => if decide (a = b) then startswith s' p' else false
  end.

(** [sub in s] *)
Fixpoint contains (sub s : string) : bool :=
  startswith s sub ||
  match s with
  | EmptyString => false
  | String _ s' => contains sub s'
  end.

(** [any(x in s for x in xs)] *)
Definition any_in (xs : list string) (s : string) : bool :=
  existsb (fun x => contains x s) xs.

(** [s[:n]] *)
Fixpoint take (n : nat) (s : string) : string :=
  match n, s with
  | S n', String c s' => String c (take n' s')
  | _, _ => EmptyString
  end.

(** [s.replace(' ', '')] *)
Fixpoint remove_spaces (s : string) : string :=
  match s with
  | EmptyString => EmptyString
  | String c s' =>
      if decide (c = " "%char) then remove_spaces s' else String c (remove_spaces s')
  end.

(** [s.split()]: the maximal runs of characters that are not white space,
    in order. A character that is not white space opens a word when the
    next character is white space or the end, and extends the first word
    of the rest otherwise. *)
Fixpoint split (s : string) : list string :=
  match s with
  | EmptyString => []
  | String c s' =>
      if is_space c then split s'
      else match s' with
           | EmptyString => [String c EmptyString]
           | String d _ =>
               if is_space d then String c EmptyString :: split s'
               else match split s' with
                    | w :: ws => String c w :: ws
                    | [] => [String c EmptyString]
                    end
           end
  end.

(** [sep.join(ws)] *)
Fixpoint join (sep : string) (ws : list string) : string :=
  match ws with
  | [] => EmptyString
  | [w] => w
  | w :: ws' => w +:+ sep +:+ join sep ws'
  end.

(** [s.isupper()]: some cased character, and no lower-case one. *)
Fixpoint has_upper (s : string) : bool :=
  match s with
  | EmptyString => false
  | String c s' => is_upper c || has_upper s'
  end.

Fixpoint has_lower (s : string) : bool :=
  match s with
  | EmptyString => false
  | String c s' => is_lower c || has_lower s'
  end.

Definition isupper (s : string) : bool := has_upper s && negb (has_lower s).

(** Python truthiness of a string: [bool(s)]. *)
Definition truthy (s : string) : bool :=
  match s with EmptyString => false | String _ _ => true end.

(** [str(n)] for a natural number, as an f-string prints it. *)
Definition of_N (n : N) : string := NilEmpty.string_of_uint (N.to_uint n).

(** No character of [s] is white space. *)
Fixpoint no_space (s : string) : bool :=
  match s with
  | EmptyString => true
  | String c s' => negb (is_space c) && no_space s'
  end.

End PyStr.

(** ** Exceptions and results *)

(** The exceptions the modelled calls can raise. [KeyboardInterrupt] derives
    from [BaseException] only, so [except Exception] does not catch it. *)
Inductive exn : Type :=
  | ConnectionError (msg : string)      (* requests: DNS failure, refused connection *)
  | Timeout (msg : string)              (* requests: the 30 s timeout expired *)
  | HTTPError (status : Z)              (* Response.raise_for_status *)
  | WebDriverException (msg : string)   (* selenium *)
  | OtherException (msg : string)       (* any other subclass of Exception *)
  | KeyboardInterrupt.

Definition is_Exception (e : exn) : bool :=
  match e with
  | KeyboardInterrupt => false
  | _ => true
  end.

Inductive result (A : Type) : Type :=
  | Return (a : A)
  | Raise (e : exn).
Arguments Return {A} a.
Arguments Raise {A} e.

(** ** Records *)

(** The dictionary built by the course constructors and read by
    [DatabaseManager.save_courses]. *)
Module Course.
Record t : Type := mk {
  degree_course_code : string;
  degree_course_name : string;
  degree_course_language : string;
  degree_course_period_years : Z;
  degree_course_type : string;
  programme_access : string;
  academic_year : string;
  course_area : string;
  remote_mode : string;
  tuition_fees : string;
  website_university : string;
  website_course : string;
  university_id : string
}.
End Course.

(** The dictionary returned by [get_university_info]. The last four keys are
    read with [dict.get] and may be missing. *)
Module University.
Record t : Type := mk {
  university_id : string;
  university_name : string;
  university_city : string;
  university_region : string;
  university_website : string;
  university_email : option string;
  university_phone : option string;
  university_ranking_national : option Z;
  university_ranking_world : option Z
}.
End University.

(** ** Parsed pages *)

(** What the program reads of one tag: its name, its [.text] and its [href]
    attribute when it has one. *)
Record tag : Type := mk_tag {
  tag_name : string;
  tag_text : string;
  tag_href : option string
}.

(** An element of a page: its own tag and its descendants in document
    order. *)
Record element : Type := mk_element {
  el_tag : tag;
  el_descendants : list tag
}.

(** [element.find(names)]: the first descendant whose name is one of
    [names]. *)
Definition el_find (names : list string) (e : element) : option tag :=
  List.find (fun t => bool_decide (tag_name t ∈ names)) (el_descendants e).

(** [element.find('a', href=True)] *)
Definition el_find_a_href (e : element) : option tag :=
  List.find (fun t => bool_decide (tag_name t = "a") && bool_decide (is_Some (tag_href t)))
            (el_descendants e).

(** [t.get('href', '')] *)
Definition get_href (t : tag) : string := default "" (tag_href t).

(** A parsed document, given by its answers to the queries of the program. *)
Record soup : Type := mk_soup {
  (* soup.find_all('a', href=True) *)
  find_all_a_href : list tag;
  (* soup.select(selector) *)
  select : string -> list element;
  (* soup.find_all(name, class_=cls) *)
  find_all_class : string -> string -> list element;
  (* soup.find_all('a', href=re.compile(r'/en/study/.*degree')) *)
  find_all_a_study_degree : list element
}.

(** ** Effects

    The scrapers read the clock and send requests. The state threaded
    through them counts the clock readings made so far and records the
    requests sent so far; a computation returns a [result] and the new
    state. *)

Inductive request : Type :=
  | SessionGet (url : string)    (* self.session.get(url, timeout=30) *)
  | DriverGet (url : string).    (* self.driver.get(url) *)

Record effects : Type := mk_effects {
  clock_reads : nat;
  requests : list request
}.

(** A computation over a state [S]: it returns or raises, and leaves a new
    state either way. *)
Definition St (S A : Type) : Type := S -> result A * S.

Definition ret {S A : Type} (a : A) : St S A := fun s => (Return a, s).

Definition raise {S A : Type} (e : exn) : St S A := fun s => (Raise e, s).

Definition bind {S A B : Type} (m : St S A) (f : A -> St S B) : St S B :=
  fun s =>
    match m s with
    | (Return a, s') => f a s'
    | (Raise e, s') => (Raise e, s')
    end.

#[global] Instance St_ret (S : Type) : MRet (St S) := @ret S.
#[global] Instance St_bind (S : Type) : MBind (St S) := fun A B f m => bind m f.

(** [try: m except Exception as e: handler]. *)
Definition try_except {S A : Type} (m : St S A) (handler : exn -> St S A) : St S A :=
  fun s =>
    match m s with
    | (Return a, s') => (Return a, s')
    | (Raise e, s') => if is_Exception e then handler e s' else (Raise e, s')
    end.

(** Lifting the outcome of an outside call. *)
Definition lift {S A : Type} (r : result A) : St S A := fun s => (r, s).

(** The computations of the scrapers. *)
Abbreviation M := (St effects).

Definition send (r : request) : M unit :=
  fun s => (Return tt, {| clock_reads := clock_reads s; requests := requests s ++ [r] |}).

(** [for x in xs: acc = body(x, acc)] *)
Fixpoint for_each {W A S : Type} (xs : list A) (body : A -> S -> St W S) (acc : S)
  : St W S :=
  match xs with
  | [] => ret acc
  | x :: xs' => acc' ← body x acc; for_each xs' body acc'
  end.

(** A loop body that may [break]. *)
Inductive flow (S : Type) : Type :=
  | Continue (acc : S)
  | Break (acc : S).
Arguments Continue {S} acc.
Arguments Break {S} acc.

Fixpoint for_each_break {W A S : Type} (xs : list A) (body : A -> S -> St W (flow S))
  (acc : S) : St W S :=
  match xs with
  | [] => ret acc
  | x :: xs' =>
      r ← body x acc;
      match r with
      | Continue acc' => for_each_break xs' body acc'
      | Break acc' => ret acc'
      end
  end.

(** [datetime.now().microsecond]: [microsecond k] is the value of reading
    number [k]. *)
Definition now_microsecond (microsecond : nat -> N) : M N :=
  fun s => (Return (microsecond (clock_reads s)),
            {| clock_reads := S (clock_reads s); requests := requests s |}).

(** [urljoin(base, url)] on a URL read from a page. [urllib.parse] rejects
    some texts with [ValueError] (an unbalanced bracket in the host part,
    as in '//['): [invalid_url] tells which. [urljoin] itself gives the
    result for the others; on the fixed listing paths of the scrapers,
    which are among them, it is used as it is. *)
Definition urljoin_href (urljoin : string -> string -> string) (invalid_url : string -> bool)
  (base url : string) : M string :=
  if invalid_url url then raise (OtherException "ValueError")
  else ret (urljoin base url).

(** [courses.append(c)] when [c] is not [None]. *)
Definition append_if {A : Type} (l : list A) (o : option A) : list A :=
  match o with
  | Some a => l ++ [a]
  | None => l
  end.

(** A scrape that appends to its list [courses] in place: the list is part
    of the state, so that the handler of a [try] finds what was appended
    before the exception. *)
Abbreviation ML := (St (effects * list Course.t)).

Definition on_effects {A : Type} (m : M A) : ML A :=
  fun st =>
    let '(r, s') := m st.1 in
    (r, (s', st.2)).

(** [if course: courses.append(course)] *)
Definition courses_append (course : option Course.t) : ML unit :=
  fun st => (Return tt, (st.1, append_if st.2 course)).

(** The list [courses] as it is now. *)
Definition courses_now : ML (list Course.t) :=
  fun st => (Return st.2, st).

(** [a or b] on lists. *)
Definition list_or {A : Type} (a b : list A) : list A :=
  match a with
  | [] => b
  | _ :: _ => a
  end.

(** The loop of [_determine_area]: the areas of the table in insertion
    order, the first one with a keyword whose upper-case form occurs in the
    upper-case course name. *)
Fixpoint scan_areas (areas : list (string * list string)) (course_upper : string) : string :=
  match areas with
  | [] => "Other"
  | (area, keywords) :: rest =>
      if existsb (fun keyword => PyStr.contains (PyStr.upper keyword) course_upper) keywords
      then area
      else scan_areas rest course_upper
  end.

(** ** Base scraper: [UniversityScraper] *)

Module UniversityScraper.

(** [clean_text]: [' '.join(text.strip().split())], and the empty string
    for a falsy argument. *)
Definition clean_text (text : string) : string :=
  if negb (PyStr.truthy text) then ""
  else PyStr.join " " (PyStr.split text).

(** [match.group()] for [\d+] matched at the start of [s]: the longest run
    of digits there. *)
Fixpoint leading_digits (s : string) : string :=
  match s with
  | EmptyString => EmptyString
  | String c s' => if PyStr.is_digit c then String c (leading_digits s') else EmptyString
  end.

(** The value of a run of decimal digits, read from the left. *)
Fixpoint int_of_digits (acc : Z) (s : string) : Z :=
  match s with
  | EmptyString => acc
  | String c s' => int_of_digits (10 * acc + (Z.of_N (N_of_ascii c) - 48)) s'
  end.

(** [sys.get_int_max_str_digits()], as Python sets it. *)
Definition int_max_str_digits : nat := 4300.

(** [int] on a run of decimal digits: [ValueError] for a run of more
    digits than the limit. *)
Definition int (s : string) : result Z :=
  if int_max_str_digits <? String.length s then Raise (OtherException "ValueError")
  else Return (int_of_digits 0 s).

(** [extract_number] with its default pattern [\d+]: [re.search] finds the
    leftmost match, which starts at the first digit of [text] and takes the
    whole run, and [int] reads it; [None] when [text] has no digit. *)
Fixpoint extract_number (text : string) : result (option Z) :=
  match text with
  | EmptyString => Return None
  | String c rest =>
      if PyStr.is_digit c then
        match int (leading_digits text) with
        | Return n => Return (Some n)
        | Raise e => Raise e
        end
      else extract_number rest
  end.

Record response : Type := mk_response {
  status_code : Z;
  content : string
}.

(** [Response.raise_for_status] of requests: raises for a 4xx or a 5xx
    status and returns otherwise. *)
Definition raise_for_status (r : response) : M unit :=
  if ((400 <=? status_code r) && (status_code r <? 600))%Z
  then raise (HTTPError (status_code r))
  else ret tt.

Section Fetch.
(** [self.session.get(url, timeout=30)] *)
Variable session_get : string -> result response.
(** [self.driver.get(url)] followed by [self.driver.page_source] *)
Variable driver_get : string -> result string.
(** [BeautifulSoup(markup, 'lxml')] *)
Variable BeautifulSoup : string -> result soup.
(** [self.use_selenium and self.driver] *)
Variable selenium_ready : bool.

Definition fetch_page (url : string) : M (option soup) :=
  try_except
    (if selenium_ready then
       send (DriverGet url);;
       html ← lift (driver_get url);
       page ← lift (BeautifulSoup html);
       ret (Some page)
     else
       send (SessionGet url);;
       response ← lift (session_get url);
       raise_for_status response;;
       page ← lift (BeautifulSoup (content response));
       ret (Some page))
    (fun e => ret None).
End Fetch.

End UniversityScraper.

(** ** Original LSE scraper ([university_scraper.py]) *)

Module LSEScraper.
Import UniversityScraper.

Definition base_url : string := "https://www.lse.ac.uk".
Definition university_id : string := "LSE".

Definition get_university_info : University.t :=
  {| University.university_id := university_id;
     University.university_name := "London School of Economics and Political Science";
     University.university_city := "London";
     University.university_region := "Greater London";
     University.university_website := base_url;
     University.university_email := Some "admissions@lse.ac.uk";
     University.university_phone := Some "+44 (0)20 7405 7686";
     University.university_ranking_national := Some 1%Z;
     University.university_ranking_world := Some 50%Z |}.

Definition areas : list (string * list string) :=
  [ ("Economics", ["Economics"; "Econometrics"; "Economic"]);
    ("Finance", ["Finance"; "Accounting"; "Actuarial"]);
    ("Politics", ["Politics"; "Government"; "International Relations"]);
    ("Social Sciences", ["Sociology"; "Anthropology"; "Social"]);
    ("Management", ["Management"; "Business"]);
    ("Data Science", ["Data"; "Statistics"]);
    ("Law", ["Law"; "Legal"]) ].

Definition _determine_area (course_name : string) : string :=
  let course_upper := PyStr.upper course_name in
  scan_areas areas course_upper.

Section Scrape.
Variable urljoin : string -> string -> string.
Variable invalid_url : string -> bool.
Variable microsecond : nat -> N.
Variable session_get : string -> result response.
Variable driver_get : string -> result string.
Variable BeautifulSoup : string -> result soup.
Variable selenium_ready : bool.

Definition _parse_course_item (item : element) : M (option Course.t) :=
  try_except
    (match el_find ["h2"; "h3"; "h4"] item with
     | None => ret None
     | Some title_elem =>
         let name := clean_text (tag_text title_elem) in
         url ← match el_find ["a"] item with
               | Some link => urljoin_href urljoin invalid_url base_url (get_href link)
               | None => ret ""
               end;
         let '(course_type, years) :=
           if PyStr.contains "BSc" name || PyStr.contains "BA" name
           then ("Bachelor's Degree", 3%Z)
           else if PyStr.contains "MSc" name || PyStr.contains "MA" name
           then ("Master's Degree", 1%Z)
           else ("Other", 1%Z) in
         us ← now_microsecond microsecond;
         let code := university_id +:+ "_" +:+ PyStr.upper (PyStr.take 4 name)
                     +:+ "_" +:+ PyStr.of_N us in
         ret (Some
           {| Course.degree_course_code := code;
              Course.degree_course_name := name;
              Course.degree_course_language := "English";
              Course.degree_course_period_years := years;
              Course.degree_course_type := course_type;
              Course.programme_access := "Competitive selection";
              Course.academic_year := "2025/2026";
              Course.course_area := _determine_area name;
              Course.remote_mode := "In-person";
              Course.tuition_fees := "£9,250 (UK), £26,328 (International)";
              Course.website_university := base_url;
              Course.website_course := url;
              Course.university_id := university_id |})
     end)
    (fun e => ret None).

Definition get_courses : M (list Course.t) :=
  let courses := [] in
  let url := urljoin base_url "/programmes/search-courses" in
  page ← fetch_page session_get driver_get BeautifulSoup selenium_ready url;
  match page with
  | None => ret courses
  | Some page =>
      let course_items :=
        list_or (find_all_class page "div" "programme-item")
                (find_all_class page "article" "course") in
      for_each (firstn 10 course_items)
        (fun item courses =>
           course_data ← _parse_course_item item;
           ret (append_if courses course_data))
        courses
  end.
End Scrape.

End LSEScraper.

(** ** Bologna scraper ([university_scraper.py]) *)

Module BolognaScraper.
Import UniversityScraper.

Definition base_url : string := "https://www.unibo.it".
Definition university_id : string := "UNIBO".

Definition get_university_info : University.t :=
  {| University.university_id := university_id;
     University.university_name := "Università di Bologna";
     University.university_city := "Bologna";
     University.university_region := "Emilia-Romagna";
     University.university_website := base_url;
     University.university_email := Some "internationaldesk@unibo.it";
     University.university_phone := Some "+39 051 2099111";
     University.university_ranking_national := Some 1%Z;
     University.university_ranking_world := Some 133%Z |}.

Definition areas : list (string * list string) :=
  [ ("Engineering", ["Engineering"; "Computer"; "Electronic"; "Mechanical"]);
    ("Medicine", ["Medicine"; "Medical"; "Health"; "Pharmaceutical"]);
    ("Economics", ["Economics"; "Business"; "Finance"; "Management"]);
    ("Sciences", ["Physics"; "Chemistry"; "Biology"; "Mathematics"]);
    ("Humanities", ["History"; "Philosophy"; "Literature"; "Languages"]);
    ("Law", ["Law"; "Legal"; "Juridical"]) ].

Definition _determine_area (course_name : string) : string :=
  let course_upper := PyStr.upper course_name in
  scan_areas areas course_upper.

(** The [urls] dictionary of [get_courses], in insertion order. *)
Definition urls : list (string * string) :=
  [ ("first_cycle", "/en/study/first-and-single-cycle-degree");
    ("second_cycle", "/en/study/second-cycle-degree") ].

Section Scrape.
Variable urljoin : string -> string -> string.
Variable invalid_url : string -> bool.
Variable microsecond : nat -> N.
Variable session_get : string -> result response.
Variable driver_get : string -> result string.
Variable BeautifulSoup : string -> result soup.
Variable selenium_ready : bool.

Definition _parse_course_item (item : element) (degree_type : string)
  : M (option Course.t) :=
  try_except
    (name_url ←
       (if bool_decide (tag_name (el_tag item) = "a") then
          let name := clean_text (tag_text (el_tag item)) in
          url ← urljoin_href urljoin invalid_url base_url (get_href (el_tag item));
          ret (Some (name, url))
        else
          match el_find ["a"] item with
          | None => ret None
          | Some link =>
              let name := clean_text (tag_text link) in
              url ← urljoin_href urljoin invalid_url base_url (get_href link);
              ret (Some (name, url))
          end);
     match name_url with
     | None => ret None
     | Some (name, url) =>
         us ← now_microsecond microsecond;
         let code := university_id +:+ "_" +:+ PyStr.upper (PyStr.take 3 name)
                     +:+ "_" +:+ PyStr.of_N us in
         let '(course_type, years) :=
           if bool_decide (degree_type = "first_cycle")
           then ("Bachelor's Degree", 3%Z)
           else ("Master's Degree", 2%Z) in
         ret (Some
           {| Course.degree_course_code := code;
              Course.degree_course_name := name;
              Course.degree_course_language := "English";
              Course.degree_course_period_years := years;
              Course.degree_course_type := course_type;
              Course.programme_access := "Open access";
              Course.academic_year := "2025/2026";
              Course.course_area := _determine_area name;
              Course.remote_mode := "In-person";
              Course.tuition_fees := "€2,925 - €3,295";
              Course.website_university := base_url;
              Course.website_course := url;
              Course.university_id := university_id |})
     end)
    (fun e => ret None).

Definition get_courses : M (list Course.t) :=
  for_each urls
    (fun '(degree_type, url_path) courses =>
       let url := urljoin base_url url_path in
       page ← fetch_page session_get driver_get BeautifulSoup selenium_ready url;
       match page with
       | None => ret courses
       | Some page =>
           let course_items :=
             list_or (find_all_class page "div" "course-item")
                     (find_all_a_study_degree page) in
           for_each (firstn 10 course_items)
             (fun item courses =>
                course_data ← _parse_course_item item degree_type;
                ret (append_if courses course_data))
             courses
       end)
    [].
End Scrape.

End BolognaScraper.

(** ** Enhanced LSE scraper ([fix_lse_scraper.py])

    The class text that the patch script holds: [LSEScraper], derived from
    [UniversityScraper], with the six methods [__init__], [get_courses],
    [_extract_course_from_element], [_fallback_extraction],
    [_create_course_from_text] and [_is_valid_course_name]. It calls
    [clean_text] of the base class, and [self._determine_area], which
    neither the class text nor the base class defines. *)

Module LSEScraperFix.
Import UniversityScraper.

Definition base_url : string := "https://www.lse.ac.uk".
Definition university_id : string := "LSE".

(** [self._determine_area(text)]: the attribute is looked up on the class
    and on [UniversityScraper], and is on neither. *)
Definition _determine_area (text : string) : M string :=
  raise (OtherException "AttributeError").

Record url_info : Type := mk_url_info {
  url : string;
  type : string;
  selectors : list string
}.

(** The double quote character, as a string. *)
Definition dquote : string := String (ascii_of_N 34) EmptyString.

Definition urls_to_try : list url_info :=
  [ {| url := "/study-at-lse/undergraduate/degree-programmes-2025";
       type := "undergraduate";
       selectors := [ "a[href*=" +:+ dquote +:+ "/study-at-lse/undergraduate/offer-holder" +:+ dquote +:+ "]";
                      "div.contentSectionCTA a";
                      "a.cta__link" ] |};
    {| url := "/study-at-lse/graduate/taught-programmes-2025";
       type := "graduate";
       selectors := [ "a[href*=" +:+ dquote +:+ "/study-at-lse/graduate/degree-programmes" +:+ dquote +:+ "]";
                      "div.contentSectionCTA a";
                      "a.cta__link" ] |};
    {| url := "/programmes/search-courses";
       type := "search";
       selectors := [ "div.programme-item"; "article.course"; "div.search-result" ] |} ].

Definition known_programmes : list (string * string) :=
  [ ("BSc Economics", "undergraduate");
    ("BSc Finance", "undergraduate");
    ("BSc Accounting and Finance", "undergraduate");
    ("BSc Management", "undergraduate");
    ("BSc International Relations", "undergraduate");
    ("BSc Government", "undergraduate");
    ("BSc Social Policy", "undergraduate");
    ("BSc Sociology", "undergraduate");
    ("BSc Geography and Economics", "undergraduate");
    ("BSc Mathematics and Economics", "undergraduate");
    ("BSc Econometrics and Mathematical Economics", "undergraduate");
    ("BSc Data Science", "undergraduate");
    ("BA History", "undergraduate");
    ("BA Anthropology and Law", "undergraduate");
    ("LLB Laws", "undergraduate");
    ("MSc Economics", "graduate");
    ("MSc Finance", "graduate");
    ("MSc Accounting and Finance", "graduate");
    ("MSc Management and Strategy", "graduate");
    ("MSc Data Science", "graduate");
    ("MSc International Relations", "graduate");
    ("MSc Public Policy", "graduate");
    ("MSc Development Economics", "graduate");
    ("MSc Risk and Finance", "graduate");
    ("MSc Marketing", "graduate") ].

Definition _is_valid_course_name (text : string) : bool :=
  if negb (PyStr.truthy text) || (String.length text <? 5) || (150 <? String.length text)
  then false
  else
    let indicators := ["BSc"; "BA"; "MSc"; "MA"; "LLB"; "LLM"; "PhD"; "MPhil"; "MRes"] in
    let subjects := ["Economics"; "Finance"; "Management"; "Politics"; "Law"; "Sociology"] in
    let has_indicator := PyStr.any_in indicators text in
    let has_subject := PyStr.any_in subjects text in
    let exclude := ["Cookie"; "Menu"; "Search"; "Apply"; "More"; "Click here"; "Read more"] in
    let has_exclude := PyStr.any_in exclude text in
    (has_indicator || has_subject) && negb has_exclude && negb (PyStr.isupper text).

(** The degree level and the duration chosen by
    [_create_course_from_text] for the cleaned text. *)
Definition course_type_years (text prog_type : string) : string * Z :=
  if bool_decide (prog_type = "graduate")
     || PyStr.any_in ["MSc"; "MA"; "MRes"; "MPhil"] text
  then ("Master's Degree", 1%Z)
  else if PyStr.contains "LLM" text then ("Master's Degree", 1%Z)
  else if PyStr.contains "PhD" text then ("Doctoral Degree", 4%Z)
  else ("Bachelor's Degree", 3%Z).

(** The loop over the heading tags in [_extract_course_from_element]: the
    cleaned text of the first tag found that is a valid course name. *)
Fixpoint find_name (tags : list string) (elem : element) : option string :=
  match tags with
  | [] => None
  | t :: rest =>
      match el_find [t] elem with
      | Some name_elem =>
          let name := clean_text (tag_text name_elem) in
          if _is_valid_course_name name then Some name else find_name rest elem
      | None => find_name rest elem
      end
  end.

(** The duplicate filter at the end of [get_courses]: the state of the
    loop is the set [seen] and the list [unique_courses]. *)
Definition remove_duplicates_step (st : gset string * list Course.t) (course : Course.t)
  : gset string * list Course.t :=
  let '(seen, unique_courses) := st in
  let name := Course.degree_course_name course in
  if PyStr.truthy name && bool_decide (name ∉ seen)
  then ({[name]} ∪ seen, unique_courses ++ [course])
  else (seen, unique_courses).

Definition remove_duplicates (courses : list Course.t) : list Course.t :=
  snd (foldl remove_duplicates_step (∅, []) courses).

Section Scrape.
Variable urljoin : string -> string -> string.
Variable invalid_url : string -> bool.
Variable microsecond : nat -> N.
Variable driver_get : string -> result string.
Variable BeautifulSoup : string -> result soup.
Variable selenium_ready : bool.

(** The values of the dictionary are computed in the order of its keys:
    the clock has been read for the code when the subject area is asked
    for. *)
Definition _create_course_from_text (text link prog_type : string)
  : M (option Course.t) :=
  if negb (PyStr.truthy text) then ret None
  else
    let text := clean_text text in
    link ← (if PyStr.truthy link && negb (PyStr.startswith link "http")
            then urljoin_href urljoin invalid_url base_url link
            else ret link);
    let '(course_type, years) := course_type_years text prog_type in
    us ← now_microsecond microsecond;
    let code := "LSE_" +:+ PyStr.remove_spaces (PyStr.upper (PyStr.take 4 text))
                +:+ "_" +:+ PyStr.of_N us in
    course_area ← _determine_area text;
    ret (Some
      {| Course.degree_course_code := code;
         Course.degree_course_name := text;
         Course.degree_course_language := "English";
         Course.degree_course_period_years := years;
         Course.degree_course_type := course_type;
         Course.programme_access := "Competitive selection";
         Course.academic_year := "2025/2026";
         Course.course_area := course_area;
         Course.remote_mode := "In-person";
         Course.tuition_fees := "£9,250 (UK), £26,328 (International)";
         Course.website_university := base_url;
         Course.website_course := if PyStr.truthy link then link else base_url;
         Course.university_id := university_id |}).

Definition _extract_course_from_element (elem : element) : M (option Course.t) :=
  try_except
    (match find_name ["h3"; "h2"; "h4"; "a"] elem with
     | None => ret None
     | Some name =>
         if negb (PyStr.truthy name) then ret None
         else
           let link := match el_find_a_href elem with
                       | Some link_elem => get_href link_elem
                       | None => ""
                       end in
           _create_course_from_text name link "general"
     end)
    (fun e => ret None).

(** The list of [_fallback_extraction] is its own: nothing of it is left
    when the constructor raises. *)
Definition _fallback_extraction : M (list Course.t) :=
  for_each known_programmes
    (fun '(programme_name, prog_type) courses =>
       course ← _create_course_from_text programme_name "" prog_type;
       ret (append_if courses course))
    [].

(** The programme links of an undergraduate or graduate listing page. *)
Definition scan_links (page : soup) (prog_type : string) : ML unit :=
  for_each (find_all_a_href page)
    (fun link _ =>
       let href := get_href link in
       let text := clean_text (tag_text link) in
       if (PyStr.contains "/offer-holder/" href || PyStr.contains "/degree-programmes/" href)
          && (10 <? String.length text)
       then
         if PyStr.any_in ["BSc"; "BA"; "MSc"; "MA"; "LLB"] text
         then
           course ← on_effects (_create_course_from_text text href prog_type);
           courses_append course
         else ret tt
       else ret tt)
    tt.

(** The selectors of the search page, tried in order until [courses] is
    not empty. *)
Definition scan_selectors (page : soup) (sels : list string) : ML unit :=
  for_each_break sels
    (fun selector _ =>
       let elements := select page selector in
       for_each (firstn 20 elements)
         (fun elem _ =>
            course ← on_effects (_extract_course_from_element elem);
            courses_append course)
         tt;;
       courses ← courses_now;
       match courses with
       | _ :: _ => ret (Break tt)
       | [] => ret (Continue tt)
       end)
    tt.

(** The loop over [urls_to_try]: the [try] block of a page, whose handler
    only logs, then the test on the length of [courses]. *)
Definition scan_urls : ML unit :=
  for_each_break urls_to_try
    (fun url_info _ =>
       let url := urljoin base_url (url url_info) in
       (if selenium_ready then
          try_except
            (on_effects (send (DriverGet url));;
             html ← on_effects (lift (driver_get url));
             page ← on_effects (lift (BeautifulSoup html));
             if bool_decide (type url_info ∈ ["undergraduate"; "graduate"])
             then scan_links page (type url_info)
             else scan_selectors page (selectors url_info))
            (fun e => ret tt)
        else ret tt);;
       courses ← courses_now;
       if 5 <=? length courses then ret (Break tt) else ret (Continue tt))
    tt.

(** [get_courses]: the scan, then the fallback, outside any [try], when
    [courses] is empty, then the duplicate filter and the cap. *)
Definition get_courses : M (list Course.t) :=
  fun s =>
    match scan_urls (s, []) with
    | (Raise e, st) => (Raise e, st.1)
    | (Return _, st) =>
        (courses ← match st.2 with
                   | [] => _fallback_extraction
                   | _ :: _ => ret st.2
                   end;
         let unique_courses := remove_duplicates courses in
         ret (firstn 30 unique_courses)) st.1
    end.
End Scrape.

End LSEScraperFix.

(** ** The store: [DatabaseManager]

    One SQLite file with four tables. A table is the finite map from its
    primary key to the row; a row lists the columns of [CREATE TABLE] in
    order. [last_updated] is filled by the store with [CURRENT_TIMESTAMP]
    whenever a row is inserted. The statements themselves are taken to
    succeed. *)

Module DatabaseManager.

Record university_row : Type := mk_university_row {
  u_columns : University.t;
  u_last_updated : string
}.

Record course_row : Type := mk_course_row {
  c_columns : Course.t;
  c_last_updated : string
}.

Record module_row : Type := mk_module_row {
  learning_code : string;
  learning_ssd : option string;
  learning_cfu : option Z;
  learning_hour : option Z;
  learning_language : option string;
  learning_ref : option string;
  m_degree_course_code : option string;
  m_university_id : option string;
  semester : option string
}.

Record requirement_row : Type := mk_requirement_row {
  requirement_id : string;
  requirement_type : option string;
  requirement_description : option string;
  is_mandatory : option bool;
  r_degree_course_code : option string
}.

Record database : Type := mk_database {
  universities : gmap string university_row;
  degree_courses : gmap string course_row;
  learning_modules : gmap string module_row;
  admission_requirements : gmap string requirement_row
}.

(** A file that does not exist yet: [sqlite3.connect] creates it empty. *)
Definition empty_database : database :=
  {| universities := ∅; degree_courses := ∅;
     learning_modules := ∅; admission_requirements := ∅ |}.

(** [init_database]: four [CREATE TABLE IF NOT EXISTS]; the rows of a
    table that exists stay. *)
Definition init_database (db : database) : database := db.

(** [save_university]: one [INSERT OR REPLACE] executed at [now]. *)
Definition save_university (now : string) (university_data : University.t)
  (db : database) : database :=
  {| universities :=
       <[University.university_id university_data :=
           {| u_columns := university_data; u_last_updated := now |}]>
         (universities db);
     degree_courses := degree_courses db;
     learning_modules := learning_modules db;
     admission_requirements := admission_requirements db |}.

(** The loop of [save_courses]: insert number [i] is executed at [now i]. *)
Fixpoint insert_courses (now : nat -> string) (i : nat) (courses : list Course.t)
  (table : gmap string course_row) : gmap string course_row :=
  match courses with
  | [] => table
  | course :: rest =>
      insert_courses now (S i) rest
        (<[Course.degree_course_code course :=
             {| c_columns := course; c_last_updated := now i |}]> table)
  end.

Definition save_courses (now : nat -> string) (courses : list Course.t)
  (db : database) : database :=
  {| universities := universities db;
     degree_courses := insert_courses now 0 courses (degree_courses db);
     learning_modules := learning_modules db;
     admission_requirements := admission_requirements db |}.

(** [dict(rows)] on a list of pairs: a later pair replaces an earlier one
    with the same key. *)
Definition dict {V : Type} (rows : list (string * V)) : gmap string V :=
  foldl (fun d kv => <[kv.1 := kv.2]> d) ∅ rows.

(** [SELECT * FROM table]: the rows. SQL leaves their order open; the model
    fixes one order for each content of the table. *)
Definition select_all {V : Type} (table : gmap string V) : list V :=
  (map_to_list table).*2.

Record statistics : Type := mk_statistics {
  stat_universities : nat;
  stat_courses : nat;
  by_university : gmap string nat;
  by_area : gmap string nat
}.

(** [COUNT(c.degree_course_code)] over the rows of [degree_courses] joined
    to the institution [uid]. *)
Definition course_count (db : database) (uid : string) : nat :=
  length (filter (fun c => Course.university_id (c_columns c) = uid)
                 (select_all (degree_courses db))).

(** [COUNT] per [course_area], one group per area that occurs. *)
Definition area_counts (rows : list course_row) : list (string * nat) :=
  let areas := remove_dups ((fun c => Course.course_area (c_columns c)) <$> rows) in
  (fun a => (a, length (filter (fun c => Course.course_area (c_columns c) = a) rows)))
    <$> areas.

Definition get_statistics (db : database) : statistics :=
  {| stat_universities := length (select_all (universities db));
     stat_courses := length (select_all (degree_courses db));
     by_university :=
       dict ((fun u => (University.university_name (u_columns u),
                        course_count db (University.university_id (u_columns u))))
               <$> select_all (universities db));
     by_area := dict (area_counts (select_all (degree_courses db))) |}.

(** *** Export to JSON *)

#[warnings="-register-all"]
Inductive json : Type :=
  | JNull
  | JBool (b : bool)
  | JInt (n : Z)
  | JString (s : string)
  | JList (items : list json)
  | JObject (members : list (string * json)).

Definition jtext (o : option string) : json :=
  match o with Some s => JString s | None => JNull end.
Definition jint (o : option Z) : json :=
  match o with Some n => JInt n | None => JNull end.
Definition jbool (o : option bool) : json :=
  match o with Some b => JBool b | None => JNull end.

(** [dict(row)] for a row of each table. *)
Definition university_json (r : university_row) : json :=
  let u := u_columns r in
  JObject
    [ ("university_id", JString (University.university_id u));
      ("university_name", JString (University.university_name u));
      ("university_city", JString (University.university_city u));
      ("university_region", JString (University.university_region u));
      ("university_website", JString (University.university_website u));
      ("university_email", jtext (University.university_email u));
      ("university_phone", jtext (University.university_phone u));
      ("university_ranking_national", jint (University.university_ranking_national u));
      ("university_ranking_world", jint (University.university_ranking_world u));
      ("last_updated", JString (u_last_updated r)) ].

Definition course_json (r : course_row) : json :=
  let c := c_columns r in
  JObject
    [ ("degree_course_code", JString (Course.degree_course_code c));
      ("degree_course_name", JString (Course.degree_course_name c));
      ("degree_course_language", JString (Course.degree_course_language c));
      ("degree_course_period_years", JInt (Course.degree_course_period_years c));
      ("degree_course_type", JString (Course.degree_course_type c));
      ("programme_access", JString (Course.programme_access c));
      ("academic_year", JString (Course.academic_year c));
      ("course_area", JString (Course.course_area c));
      ("remote_mode", JString (Course.remote_mode c));
      ("tuition_fees", JString (Course.tuition_fees c));
      ("website_university", JString (Course.website_university c));
      ("website_course", JString (Course.website_course c));
      ("university_id", JString (Course.university_id c));
      ("last_updated", JString (c_last_updated r)) ].

Definition module_json (r : module_row) : json :=
  JObject
    [ ("learning_code", JString (learning_code r));
      ("learning_ssd", jtext (learning_ssd r));
      ("learning_cfu", jint (learning_cfu r));
      ("learning_hour", jint (learning_hour r));
      ("learning_language", jtext (learning_language r));
      ("learning_ref", jtext (learning_ref r));
      ("degree_course_code", jtext (m_degree_course_code r));
      ("university_id", jtext (m_university_id r));
      ("semester", jtext (semester r)) ].

Definition requirement_json (r : requirement_row) : json :=
  JObject
    [ ("requirement_id", JString (requirement_id r));
      ("requirement_type", jtext (requirement_type r));
      ("requirement_description", jtext (requirement_description r));
      ("is_mandatory", jbool (is_mandatory r));
      ("degree_course_code", jtext (r_degree_course_code r)) ].

(** The [data] dictionary of [export_to_json]; [export_date] is
    [datetime.now().isoformat()]. *)
Definition export_data (export_date : string) (db : database) : json :=
  JObject
    [ ("export_date", JString export_date);
      ("universities", JList (university_json <$> select_all (universities db)));
      ("courses", JList (course_json <$> select_all (degree_courses db)));
      ("modules", JList (module_json <$> select_all (learning_modules db)));
      ("requirements", JList (requirement_json <$> select_all (admission_requirements db))) ].

(** The files written by the exporter: a path holds the document that
    [json.dump] wrote there, which is the document [json.load] reads
    back. *)
Definition export_to_json (export_date : string) (output_file : string) (db : database)
  (files : gmap string json) : gmap string json :=
  <[output_file := export_data export_date db]> files.

(** [json.load(open(path))] *)
Definition json_load (path : string) (files : gmap string json) : option json :=
  files !! path.

(** [data[key]] on a loaded document. *)
Definition member (key : string) (doc : json) : option json :=
  match doc with
  | JObject members => snd <$> List.find (fun kv => bool_decide (kv.1 = key)) members
  | _ => None
  end.

(** [len(data[key])] when [data[key]] is a list. *)
Definition member_length (key : string) (doc : json) : option nat :=
  match member key doc with
  | Some (JList items) => Some (length items)
  | _ => None
  end.

End DatabaseManager.

(** ** The orchestrator: [main] *)

(** A scraper object as [main] uses it: the three methods it calls. The
    methods run over the effects of the scrapers and have no access to the
    store. *)
Record scraper : Type := mk_scraper {
  setup_selenium : M unit;
  get_university_info : University.t;
  get_courses : M (list Course.t)
}.

(** The state of a run: the effects of the scrapers, the content of the
    store, and the number of calls made to SQLite so far (connections,
    statements and commits). *)
Record world : Type := mk_world {
  eff : effects;
  store : DatabaseManager.database;
  sqlite_calls : nat
}.

Abbreviation W := (St world).

(** A scraper method called from [main]. *)
Definition call {A : Type} (m : M A) : W A :=
  fun w =>
    let '(r, e) := m (eff w) in
    (r, {| eff := e; store := store w; sqlite_calls := sqlite_calls w |}).

Section Main.
(** [CURRENT_TIMESTAMP] of the store at each reading of the clock. *)
Variable CURRENT_TIMESTAMP : nat -> string.
(** The error, if any, that [sqlite3] raises at call number [n] of the
    run. *)
Variable sqlite3_error : nat -> option exn.

(** One call to SQLite: [sqlite3.connect], [cursor.execute] or
    [conn.commit]. *)
Definition sqlite_call : W unit :=
  fun w =>
    let w' := {| eff := eff w; store := store w; sqlite_calls := S (sqlite_calls w) |} in
    match sqlite3_error (sqlite_calls w) with
    | Some e => (Raise e, w')
    | None => (Return tt, w')
    end.

(** [with sqlite3.connect(self.db_path) as conn: body]: the connection is
    opened, and what the body has not committed when it raises is rolled
    back. Every body of [DatabaseManager] ends with its commit. *)
Definition with_connection {A : Type} (body : W A) : W A :=
  fun w =>
    match (sqlite_call;; body) w with
    | (Return a, w') => (Return a, w')
    | (Raise e, w') =>
        (Raise e, {| eff := eff w'; store := store w; sqlite_calls := sqlite_calls w' |})
    end.

(** What a statement that SQLite executes does to the store: an insert
    reads the clock for [last_updated]. *)
Definition upsert_university (university_data : University.t) : W unit :=
  fun w =>
    let k := clock_reads (eff w) in
    (Return tt,
     {| eff := {| clock_reads := S k; requests := requests (eff w) |};
        store := DatabaseManager.save_university (CURRENT_TIMESTAMP k) university_data
                   (store w);
        sqlite_calls := sqlite_calls w |}).

Definition upsert_course (course : Course.t) : W unit :=
  fun w =>
    let k := clock_reads (eff w) in
    (Return tt,
     {| eff := {| clock_reads := S k; requests := requests (eff w) |};
        store := DatabaseManager.save_courses (fun _ => CURRENT_TIMESTAMP k) [course]
                   (store w);
        sqlite_calls := sqlite_calls w |}).

Definition create_tables : W unit :=
  fun w =>
    (Return tt,
     {| eff := eff w;
        store := DatabaseManager.init_database (store w);
        sqlite_calls := sqlite_calls w |}).

Definition select_statistics : W DatabaseManager.statistics :=
  fun w => (Return (DatabaseManager.get_statistics (store w)), w).

(** [cursor.execute('INSERT OR REPLACE INTO universities ...')] *)
Definition execute_insert_university (university_data : University.t) : W unit :=
  sqlite_call;;
  upsert_university university_data.

(** [cursor.execute('INSERT OR REPLACE INTO degree_courses ...')] *)
Definition execute_insert_course (course : Course.t) : W unit :=
  sqlite_call;;
  upsert_course course.

(** [db.save_university(uni_info)] *)
Definition db_save_university (uni_info : University.t) : W unit :=
  with_connection
    (execute_insert_university uni_info;;
     sqlite_call).

(** [db.save_courses(courses)]: one statement per programme, then the
    commit. *)
Definition db_save_courses (courses : list Course.t) : W unit :=
  with_connection
    (for_each courses (fun course _ => execute_insert_course course) tt;;
     sqlite_call).

(** The [try] block of the loop of [main]. *)
Definition scrape_body (sc : scraper) : W unit :=
  call (setup_selenium sc);;
  let uni_info := get_university_info sc in
  db_save_university uni_info;;
  courses ← call (get_courses sc);
  match courses with
  | _ :: _ => db_save_courses courses
  | [] => ret tt
  end.

(** The [try] block and its handler, which logs and goes on. *)
Definition scrape_university (sc : scraper) : W unit :=
  try_except (scrape_body sc) (fun e => ret tt).

(** The loop of [main] over the [scrapers] dictionary; [universities] is
    [config.get('universities', [])]. *)
Definition main_loop (universities : list string) (scrapers : list (string * scraper))
  : W unit :=
  for_each scrapers
    (fun '(uni_name, sc) _ =>
       if bool_decide (uni_name ∉ universities) then ret tt
       else scrape_university sc)
    tt.

(** [db.get_statistics()]: four queries on one connection. *)
Definition db_get_statistics : W DatabaseManager.statistics :=
  with_connection
    (sqlite_call;; sqlite_call;; sqlite_call;; sqlite_call;;
     select_statistics).

(** [DatabaseManager(config['database'])]: [KeyError] without the key;
    [init_database] creates the four tables that are not there yet and
    commits. *)
Definition db_open (database : option string) : W unit :=
  match database with
  | None => raise (OtherException "KeyError")
  | Some db_path =>
      with_connection
        (sqlite_call;; sqlite_call;; sqlite_call;; sqlite_call;;
         create_tables;;
         sqlite_call)
  end.

(** [main]: the store is opened, each configured institution is scraped,
    and the statistics are computed for the log. [database] is
    [config['database']] when the configuration has the key. *)
Definition main (database : option string) (universities : list string)
  (scrapers : list (string * scraper)) : W DatabaseManager.statistics :=
  db_open database;;
  main_loop universities scrapers;;
  db_get_statistics.
End Main.

(** The [scrapers] dictionary of [main]: the two scraper classes of
    [university_scraper.py] over the outside world they talk to. *)
Section Scrapers.
Variable urljoin : string -> string -> string.
Variable invalid_url : string -> bool.
Variable microsecond : nat -> N.
Variable session_get : string -> result UniversityScraper.response.
Variable driver_get : string -> result string.
Variable BeautifulSoup : string -> result soup.
(** [webdriver.Chrome(...)] in [setup_selenium]: whether the driver
    starts. *)
Variable use_selenium : bool.
Variable chrome_starts : bool.

Definition selenium_ready : bool := use_selenium && chrome_starts.

Definition bologna : scraper :=
  {| setup_selenium := ret tt;
     get_university_info := BolognaScraper.get_university_info;
     get_courses := BolognaScraper.get_courses urljoin invalid_url microsecond session_get
                      driver_get BeautifulSoup selenium_ready |}.

Definition lse : scraper :=
  {| setup_selenium := ret tt;
     get_university_info := LSEScraper.get_university_info;
     get_courses := LSEScraper.get_courses urljoin invalid_url microsecond session_get
                      driver_get BeautifulSoup selenium_ready |}.

Definition scrapers : list (string * scraper) := [("bologna", bologna); ("lse", lse)].
End Scrapers.

(** ** The patch script: [fix_lse_scraper.py]

    [apply_lse_fix] replaces the text of the class [LSEScraper] in
    [university_scraper.py] by the text of the enhanced class, with one
    call of [re.sub]. *)

Module FixLSEScraper.

(** The text that [class LSEScraper\(UniversityScraper\):] matches. *)
Definition class_header : string := "class LSEScraper(UniversityScraper):".

(** [s] without the prefix [p], when [s] starts with [p]. *)
Fixpoint strip_prefix (p s : string) {struct p} : option string :=
  match p, s with
  | EmptyString, _ => Some s
  | String _ _, EmptyString => None
  | String a p', String b s' => if decide (a = b) then strip_prefix p' s' else None
  end.

(** [.*?(?=class|\Z)] with [re.DOTALL], matched at the start of [s]: the
    shortest run of characters that is followed by [class] or by the end of
    the text. The result is what follows the run. *)
Fixpoint after_lazy_body (s : string) : string :=
  match s with
  | EmptyString => EmptyString
  | String _ rest => if PyStr.startswith s "class" then s else after_lazy_body rest
  end.

(** [re.sub(pattern, repl, content, flags=re.DOTALL)] for the pattern
    [class LSEScraper\(UniversityScraper\):.*?(?=class|\Z)]: the matches are
    found from left to right and do not overlap, the text between them is
    copied, and each match is replaced by [repl], which is inserted as it
    is since it has no backslash. Every step consumes a character of
    [content], so its length is enough fuel. *)
Fixpoint re_sub_fuel (fuel : nat) (repl content : string) : string :=
  match fuel with
  | 0 => content
  | S fuel =>
      match content with
      | EmptyString => EmptyString
      | String c rest =>
          match strip_prefix class_header content with
          | Some body => repl +:+ re_sub_fuel fuel repl (after_lazy_body body)
          | None => String c (re_sub_fuel fuel repl rest)
          end
      end
  end.

Definition re_sub (repl content : string) : string :=
  re_sub_fuel (String.length content) repl content.

End FixLSEScraper.

(** ** Vocabulary of the specification *)

(** [sub] occurs in [s]: the specification's reading of [sub in s]. *)
Definition occurs_in (sub s : string) : Prop :=
  exists pre post : string, s = pre +:+ sub +:+ post.

(** [kw] is a case-insensitive substring of [name]: some substring of
    [name] has the same upper-case form as [kw]. *)
Definition ci_substring (kw name : string) : Prop :=
  exists pre mid post : string,
    name = pre +:+ mid +:+ post /\ PyStr.upper mid = PyStr.upper kw.

(** One of the keywords of an area matches the course name. *)
Definition area_matches (keywords : list string) (name : string) : Prop :=
  exists kw : string, kw ∈ keywords /\ ci_substring kw name.

(** [r] is the first area of [areas], in table order, with a matching
    keyword, and 'Other' when no area has one. *)
Definition first_match (areas : list (string * list string)) (name r : string) : Prop :=
  (exists (i : nat) (area : string) (keywords : list string),
      areas !! i = Some (area, keywords) /\
      area_matches keywords name /\
      (forall j a k, j < i -> areas !! j = Some (a, k) -> ~ area_matches k name) /\
      r = area)
  \/ ((forall a k, (a, k) ∈ areas -> ~ area_matches k name) /\ r = "Other").

(** When two areas of the table both match, the one later in table order is
    not the answer [r]. *)
Definition earlier_wins (areas : list (string * list string)) (name r : string) : Prop :=
  forall (i j : nat) (a b : string) (ki kj : list string),
    i < j ->
    areas !! i = Some (a, ki) -> areas !! j = Some (b, kj) ->
    area_matches ki name -> area_matches kj name ->
    r <> b.

(** The outcome of a course constructor is a record of the given degree
    level and duration. *)
Definition classified (out : result (option Course.t) * effects)
  (course_type : string) (years : Z) : Prop :=
  exists (c : Course.t) (s' : effects),
    out = (Return (Some c), s') /\
    Course.degree_course_type c = course_type /\
    Course.degree_course_period_years c = years.

(** The names of a list of course records. *)
Definition names (courses : list Course.t) : list string :=
  Course.degree_course_name <$> courses.

(** A computation propagates no exception that [except Exception] would
    catch: when it raises, the exception is not derived from [Exception]. *)
Definition propagates_no_Exception {S A : Type} (m : St S A) : Prop :=
  forall (s s' : S) (e : exn), m s = (Raise e, s') -> is_Exception e = false.

(** A computation always returns. *)
Definition always_returns {S A : Type} (m : St S A) : Prop :=
  forall s : S, exists (a : A) (s' : S), m s = (Return a, s').

(** The outcome of running [m] from [s]: [Post] of the value and the state
    when it returns, [Exc] of the exception and the state when it raises. *)
Definition outcome {S A : Type} (Post : A -> S -> Prop) (Exc : exn -> S -> Prop)
  (m : St S A) (s : S) : Prop :=
  match m s with
  | (Return a, s') => Post a s'
  | (Raise e, s') => Exc e s'
  end.

(** The rows of a table stored under the primary key [k]. *)
Definition rows_with_key {V : Type} (k : string) (table : gmap string V) : list V :=
  (filter (fun kv => kv.1 = k) (map_to_list table)).*2.

(** Stand-ins for the outside world, used to run the model on concrete
    inputs: a resolver that appends the reference to the base URL, as
    [urljoin] does for an absolute path against a bare host, and a clock
    that reads 0, 1, 2, ... *)
Definition sample_urljoin (base url : string) : string := base +:+ url.
Definition sample_clock (k : nat) : N := N.of_nat k.
Definition initial_effects : effects := {| clock_reads := 0; requests := [] |}.

(** A listing page of the Bologna site with two links that carry the same
    text, served for the first listing URL only; the second request
    fails. *)
Definition duplicate_links_page : soup :=
  {| find_all_a_href := [];
     select := fun _ => [];
     find_all_class := fun _ _ => [];
     find_all_a_study_degree :=
       [ {| el_tag := {| tag_name := "a"; tag_text := "Economics and Finance";
                         tag_href := Some "/en/study/economics-degree" |};
            el_descendants := [] |};
         {| el_tag := {| tag_name := "a"; tag_text := "Economics and Finance";
                         tag_href := Some "/en/study/economics-finance-degree" |};
            el_descendants := [] |} ] |}.

Definition first_page_only (url : string) : result UniversityScraper.response :=
  if bool_decide (url = "https://www.unibo.it/en/study/first-and-single-cycle-degree")
  then Return {| UniversityScraper.status_code := 200; UniversityScraper.content := "<html>" |}
  else Raise (ConnectionError "unreachable").

Definition no_driver (url : string) : result string :=
  Raise (WebDriverException "no driver").

Definition parse_duplicate_links (markup : string) : result soup :=
  Return duplicate_links_page.




(** An undergraduate listing page of the LSE site: three programme links,
    one of them twice, and a navigation link. *)
Definition programme_links_page : soup :=
  {| find_all_a_href :=
       [ {| tag_name := "a"; tag_text := "BSc  Economics";
            tag_href := Some "/study-at-lse/undergraduate/degree-programmes/bsc-economics" |};
         {| tag_name := "a"; tag_text := "Search";
            tag_href := Some "/search" |};
         {| tag_name := "a"; tag_text := "BSc Accounting and Finance";
            tag_href := Some "/study-at-lse/undergraduate/degree-programmes/bsc-accfin" |};
         {| tag_name := "a"; tag_text := "BSc Economics";
            tag_href := Some "https://www.lse.ac.uk/offer-holder/bsc-economics" |};
         {| tag_name := "a"; tag_text := "LLB Bachelor of Laws";
            tag_href := Some "/study-at-lse/undergraduate/degree-programmes/llb" |} ];
     select := fun _ => [];
     find_all_class := fun _ _ => [];
     find_all_a_study_degree := [] |}.

Definition browser_ok (url : string) : result string := Return "<html>".

Definition parse_programme_links (markup : string) : result soup :=
  Return programme_links_page.

(** A second institution record that carries the display name of the LSE
    under another identifier. *)
Definition lse_namesake : University.t :=
  {| University.university_id := "LSE2";
     University.university_name := "London School of Economics and Political Science";
     University.university_city := "London";
     University.university_region := "Greater London";
     University.university_website := "https://www.lse.ac.uk";
     University.university_email := None;
     University.university_phone := None;
     University.university_ranking_national := None;
     University.university_ranking_world := None |}.


(** An item of a search page with one heading. *)
Definition heading_item (title : string) : element :=
  {| el_tag := {| tag_name := "div"; tag_text := title; tag_href := None |};
     el_descendants := [ {| tag_name := "h3"; tag_text := title; tag_href := None |} ] |}.

(** The clock of the store: second [k] of one minute. *)
Definition sample_timestamp (k : nat) : string :=
  "2025-09-01 12:00:" +:+ (if k <? 10 then "0" else "") +:+ PyStr.of_N (N.of_nat k).

(** A run that starts on a store that does not exist yet. *)
Definition initial_world : world :=
  {| eff := initial_effects; store := DatabaseManager.empty_database; sqlite_calls := 0 |}.

(** A store that answers every call, and a store that fails at call number
    [n] and at no other. *)
Definition no_sqlite_error (k : nat) : option exn := None.
Definition sqlite_error_at (n k : nat) : option exn :=
  if k =? n then Some (OtherException "sqlite3.OperationalError") else None.

(** Pages all of whose URLs [urljoin] accepts, and pages on which it
    rejects the reference '//['. *)
Definition all_urls_valid (url : string) : bool := false.
Definition bracket_invalid (url : string) : bool := bool_decide (url = "//[").

(** A programme record of the LSE with the given code and name. *)
Definition sample_course (code name : string) : Course.t :=
  {| Course.degree_course_code := code;
     Course.degree_course_name := name;
     Course.degree_course_language := "English";
     Course.degree_course_period_years := 3;
     Course.degree_course_type := "Bachelor's Degree";
     Course.programme_access := "Competitive selection";
     Course.academic_year := "2025/2026";
     Course.course_area := LSEScraper._determine_area name;
     Course.remote_mode := "In-person";
     Course.tuition_fees := "£9,250 (UK), £26,328 (International)";
     Course.website_university := LSEScraper.base_url;
     Course.website_course := LSEScraper.base_url;
     Course.university_id := LSEScraper.university_id |}.

(** ** Further vocabulary *)

(** A word: not empty, no white space. *)
Definition is_word (w : string) : Prop := w <> "" /\ PyStr.no_space w = true.

(** Every white space character of [s] is a plain space followed by a
    character that is not white space. *)
Fixpoint single_spaced (s : string) : bool :=
  match s with
  | EmptyString => true
  | String c s' =>
      (if PyStr.is_space c
       then bool_decide (c = " "%char) &&
            match s' with
            | EmptyString => false
            | String d _ => negb (PyStr.is_space d)
            end
       else true)
      && single_spaced s'
  end.

(** Normalised text: no white space at either end, and words separated by
    one plain space. *)
Definition normal_text (s : string) : bool :=
  match s with
  | EmptyString => true
  | String c _ => negb (PyStr.is_space c)
  end && single_spaced s.

(** The degree levels and durations each scraper assigns. *)
Definition original_lse_levels : list (string * Z) :=
  [("Bachelor's Degree", 3%Z); ("Master's Degree", 1%Z); ("Other", 1%Z)].
Definition bologna_levels : list (string * Z) :=
  [("Bachelor's Degree", 3%Z); ("Master's Degree", 2%Z)].

(** A record as a scraper builds it: a degree level and duration of the
    scraper's list [levels], the institution [uid], the subject area that
    [determine_area] gives for the record's own name, and a normalised
    name. *)
Definition scraped_record (levels : list (string * Z)) (uid : string)
  (determine_area : string -> string) (c : Course.t) : Prop :=
  (Course.degree_course_type c, Course.degree_course_period_years c) ∈ levels /\
  Course.university_id c = uid /\
  Course.course_area c = determine_area (Course.degree_course_name c) /\
  normal_text (Course.degree_course_name c) = true.

(** The state after one more reading of the clock. *)
Definition tick (s : effects) : effects :=
  {| clock_reads := S (clock_reads s); requests := requests s |}.

(** The request [fetch_page] sends for [url]. *)
Definition request_for (selenium_ready : bool) (url : string) : request :=
  if selenium_ready then DriverGet url else SessionGet url.

(** Records of the Bologna scraper and of the original LSE scraper. *)
Definition bologna_record : Course.t -> Prop :=
  scraped_record bologna_levels "UNIBO" BolognaScraper._determine_area.
Definition original_lse_record : Course.t -> Prop :=
  scraped_record original_lse_levels "LSE" LSEScraper._determine_area.

(** The scan of the enhanced LSE scraper has found nothing since the state
    [s]: its list is empty, no request has been sent since, and the clock
    has not gone back. *)
Definition nothing_found (s : effects) (st : effects * list Course.t) : Prop :=
  st.2 = [] /\ requests st.1 = requests s /\ clock_reads s <= clock_reads st.1.

(** The browser requests for the first [n] of the candidate URLs [infos]. *)
Definition candidate_requests (urljoin : string -> string -> string)
  (infos : list LSEScraperFix.url_info) (n : nat) : list request :=
  (fun info => DriverGet (urljoin LSEScraperFix.base_url (LSEScraperFix.url info)))
    <$> take n infos.

(** The codes of a list of course records. *)
Definition codes (courses : list Course.t) : list string :=
  Course.degree_course_code <$> courses.

(** The record at position [i] of [courses] is the last one of the list
    with its code. *)
Definition last_with_code (courses : list Course.t) (i : nat) (c : Course.t) : Prop :=
  courses !! i = Some c /\
  forall (j : nat) (c' : Course.t),
    i < j -> courses !! j = Some c' ->
    Course.degree_course_code c' <> Course.degree_course_code c.

(** The number of rows of [degree_courses] in the subject area [a]. *)
Definition rows_in_area (db : DatabaseManager.database) (a : string) : nat :=
  length (filter (fun c => Course.course_area (DatabaseManager.c_columns c) = a)
                 (DatabaseManager.select_all (DatabaseManager.degree_courses db))).

(** The display names of the institutions of the store, one per row. *)
Definition institution_names (db : DatabaseManager.database) : list string :=
  (fun u => University.university_name (DatabaseManager.u_columns u))
    <$> DatabaseManager.select_all (DatabaseManager.universities db).

(** A clock whose sub-second part comes round again every second. *)
Definition wrapping_microsecond (k : nat) : N := (N.of_nat k mod 1000000)%N.

(** The sum of the counts of a grouping of [get_statistics]. *)
Definition counted (groups : gmap string nat) : nat :=
  sum_list (map_to_list groups).*2.

(** The store [db'] has every row key of [db] in the two tables that are
    written, and the two other tables as they are in [db]. *)
Definition keeps_rows (db db' : DatabaseManager.database) : Prop :=
  dom (DatabaseManager.universities db) ⊆ dom (DatabaseManager.universities db') /\
  dom (DatabaseManager.degree_courses db) ⊆ dom (DatabaseManager.degree_courses db') /\
  DatabaseManager.learning_modules db' = DatabaseManager.learning_modules db /\
  DatabaseManager.admission_requirements db' = DatabaseManager.admission_requirements db.

(** What one scrape by [sc] can make of the store [db]: nothing, the
    institution row of [sc], or that row and the programmes of a list that
    [get_courses] returned. *)
Definition scrape_stores (sc : scraper) (db db' : DatabaseManager.database) : Prop :=
  db' = db \/
  (exists t : string, db' = DatabaseManager.save_university t (get_university_info sc) db) \/
  (exists (t : string) (now : nat -> string) (l : list Course.t) (s s' : effects),
      get_courses sc s = (Return l, s') /\
      db' = DatabaseManager.save_courses now l
              (DatabaseManager.save_university t (get_university_info sc) db)).

(** Every programme of the store refers to an institution of the store. *)
Definition referential_integrity (db : DatabaseManager.database) : Prop :=
  forall (code : string) (row : DatabaseManager.course_row),
    DatabaseManager.degree_courses db !! code = Some row ->
    is_Some (DatabaseManager.universities db
               !! Course.university_id (DatabaseManager.c_columns row)).

(** The records that the scraper returns carry the identifier of the
    scraper's own institution. *)
Definition own_records (sc : scraper) : Prop :=
  forall (s s' : effects) (l : list Course.t),
    get_courses sc s = (Return l, s') ->
    Forall (fun c => Course.university_id c
                     = University.university_id (get_university_info sc)) l.

(** [pre] is the text of [s] before the first occurrence of [sub], and
    [post] the text after that occurrence. *)
Definition first_occurrence (sub s pre post : string) : Prop :=
  s = pre +:+ sub +:+ post /\
  forall p q : string, s = p +:+ sub +:+ q -> String.length pre <= String.length p.

(** No character of [s] is a digit. *)
Fixpoint no_digit (s : string) : bool :=
  match s with
  | EmptyString => true
  | String c s' => negb (PyStr.is_digit c) && no_digit s'
  end.

(** Every character of [s] is a digit. *)
Fixpoint all_digits (s : string) : bool :=
  match s with
  | EmptyString => true
  | String c s' => PyStr.is_digit c && all_digits s'
  end.

(** [s] does not go on with a digit. *)
Definition no_leading_digit (s : string) : bool :=
  match s with
  | EmptyString => true
  | String c _ => negb (PyStr.is_digit c)
  end.

(** [s.partition(sub)] of Python when [sub] occurs in [s]: the text before
    the first occurrence of [sub] and the text after it. *)
Fixpoint partition (sub s : string) : option (string * string) :=
  match FixLSEScraper.strip_prefix sub s with
  | Some post => Some (EmptyString, post)
  | None =>
      match s with
      | EmptyString => None
      | String c s' =>
          match partition sub s' with
          | Some (pre, post) => Some (String c pre, post)
          | None => None
          end
      end
  end.

(** A replacement text for the patch: the header of the class followed by
    a body in which the word [class] does not occur. *)
Definition class_text (repl : string) : Prop :=
  exists new_body : string,
    repl = FixLSEScraper.class_header +:+ new_body /\
    PyStr.contains "class" new_body = false.

Definition newline : string := String (ascii_of_N 10) EmptyString.

(** A module in the layout of [university_scraper.py]: the class of the
    LSE, whose body names the keyword argument [class_], between two other
    classes. *)
Definition sample_module : string :=
  "class BolognaScraper(UniversityScraper):" +:+ newline +:+
  "    pass" +:+ newline +:+
  "class LSEScraper(UniversityScraper):" +:+ newline +:+
  "    def get_courses(self):" +:+ newline +:+
  "        return soup.find_all('div', class_='programme-item')" +:+ newline +:+
  "class DatabaseManager:" +:+ newline +:+
  "    pass" +:+ newline.

Definition sample_new_class : string :=
  "class LSEScraper(UniversityScraper):" +:+ newline +:+
  "    def get_courses(self):" +:+ newline +:+
  "        return self._fallback_extraction()" +:+ newline.

(** * Properties *)

(** ** Python strings *)

Section PyStrFacts.
Import PyStr.

Lemma append_nil_l (s : string) : "" +:+ s = s.
Proof. reflexivity. Qed.

Lemma append_cons (c : ascii) (a b : string) : String c a +:+ b = String c (a +:+ b).
Proof. reflexivity. Qed.

Lemma append_nil_r (s : string) : s +:+ "" = s.
Proof. induction s as [|c s IH]; [reflexivity | by rewrite append_cons, IH]. Qed.

Lemma append_assoc (a b c : string) : (a +:+ b) +:+ c = a +:+ b +:+ c.
Proof. induction a as [|x a IH]; [reflexivity | by rewrite !append_cons, IH]. Qed.

Lemma startswith_spec (s p : string) :
  startswith s p = true <-> exists post, s = p +:+ post.
Proof.
  revert s. induction p as [|a p IH]; intros s; simpl.
  - split; [intros _; by exists s | done].
  - destruct s as [|b s].
    + split; [done | intros [post H]; discriminate H].
    + destruct (decide (a = b)) as [->|Hne].
      * rewrite IH. split; intros [post H]; exists post;
          rewrite ?append_cons in *; congruence.
      * split; [done | intros [post H]; rewrite append_cons in H; congruence].
Qed.

Lemma contains_spec (sub s : string) :
  contains sub s = true <-> occurs_in sub s.
Proof.
  unfold occurs_in. induction s as [|c s IH]; simpl.
  - rewrite orb_false_r, startswith_spec. split.
    + intros [post H]. by exists "", post.
    + intros (pre & post & H). destruct pre; [by exists post | discriminate H].
  - rewrite orb_true_iff, startswith_spec, IH. split.
    + intros [[post H] | (pre & post & H)].
      * by exists "", post.
      * exists (String c pre), post. by rewrite append_cons, H.
    + intros (pre & post & H). destruct pre as [|x pre].
      * left. by exists post.
      * right. exists pre, post. rewrite append_cons in H. congruence.
Qed.

Lemma contains_cons (w : string) (c : ascii) (s : string) :
  contains w (String c s) = startswith (String c s) w || contains w s.
Proof. reflexivity. Qed.

Lemma contains_nil_r (w : string) : w <> "" -> contains w "" = false.
Proof. destruct w; [done | reflexivity]. Qed.

Lemma startswith_space (w s : string) (sp : ascii) :
  w <> "" -> no_space w = true -> is_space sp = true ->
  startswith (String sp s) w = false.
Proof.
  intros Hne Hw Hsp. destruct w as [|c w]; [done|]. simpl in *.
  apply andb_true_iff in Hw as [Hc _].
  destruct (decide (c = sp)) as [->|]; [|done].
  rewrite Hsp in Hc. discriminate Hc.
Qed.

(** A word without white space that is a prefix of [a] followed by a white
    space is a prefix of [a]. *)
Lemma startswith_before_space (w a b : string) (sp : ascii) :
  w <> "" -> no_space w = true -> is_space sp = true ->
  startswith (a +:+ String sp b) w = startswith a w.
Proof.
  intros Hne Hw Hsp. revert w Hne Hw.
  induction a as [|x a IH]; intros w Hne Hw.
  - rewrite append_nil_l, startswith_space by done. by destruct w.
  - destruct w as [|c w]; [done|]. rewrite append_cons. simpl in *.
    apply andb_true_iff in Hw as [_ Hw].
    destruct (decide (c = x)); [|done].
    destruct w as [|d w]; [by destruct a | by apply IH].
Qed.

Lemma contains_around_space (w a b : string) (sp : ascii) :
  w <> "" -> no_space w = true -> is_space sp = true ->
  contains w (a +:+ String sp b) = contains w a || contains w b.
Proof.
  intros Hne Hw Hsp. induction a as [|x a IH].
  - rewrite append_nil_l, contains_cons.
    by rewrite startswith_space, contains_nil_r.
  - pose proof (startswith_before_space w (String x a) b sp Hne Hw Hsp) as H.
    rewrite append_cons in *. rewrite !contains_cons, IH, H. by rewrite orb_assoc.
Qed.

Lemma split_cons (c : ascii) (s : string) :
  split (String c s) =
  if is_space c then split s
  else match s with
       | EmptyString => [String c EmptyString]
       | String d _ =>
           if is_space d then String c EmptyString :: split s
           else match split s with
                | w :: ws => String c w :: ws
                | [] => [String c EmptyString]
                end
       end.
Proof. reflexivity. Qed.

(** The first word of a string that starts with a character that is not
    white space: the string is that word followed by nothing or by a white
    space. *)
Lemma split_head (d : ascii) (s : string) :
  is_space d = false ->
  exists w0 ws rest,
    split (String d s) = w0 :: ws /\ String d s = w0 +:+ rest /\
    (rest = "" \/ exists sp r, rest = String sp r /\ is_space sp = true).
Proof.
  revert d. induction s as [|e s IH]; intros d Hd.
  - exists (String d ""), [], "". simpl. rewrite Hd. auto.
  - rewrite split_cons, Hd. destruct (is_space e) eqn:He.
    + exists (String d ""), (split (String e s)), (String e s).
      repeat split; eauto.
    + destruct (IH e He) as (w0 & ws & rest & Hs & Hd' & Hrest).
      rewrite Hs. exists (String d w0), ws, rest.
      repeat split; [by rewrite append_cons, <- Hd' | done].
Qed.

(** A word without white space occurs in a string exactly when it occurs in
    one of the words of the string. *)
Lemma contains_split (w s : string) :
  w <> "" -> no_space w = true ->
  contains w s = existsb (contains w) (split s).
Proof.
  intros Hne Hw. induction s as [|c s IH].
  - by rewrite contains_nil_r.
  - rewrite contains_cons, split_cons. destruct (is_space c) eqn:Hc.
    { by rewrite startswith_space. }
    destruct s as [|d s].
    { cbn [existsb]. by rewrite contains_cons, !contains_nil_r, !orb_false_r. }
    destruct (is_space d) eqn:Hd.
    { cbn [existsb]. rewrite <- IH, (contains_cons w c ""), (contains_nil_r w Hne).
      change (String c (String d s)) with (String c "" +:+ String d s).
      rewrite startswith_before_space by done.
      by rewrite !orb_false_r. }
    destruct (split_head d s Hd) as (w0 & ws & rest & Hs & Hd' & Hrest).
    rewrite Hs in IH |- *. cbn [existsb] in IH |- *.
    rewrite contains_cons with (s:=w0), IH, orb_assoc. f_equal. f_equal.
    rewrite Hd'. destruct Hrest as [->|(sp & r & -> & Hsp)].
    + by rewrite append_nil_r.
    + rewrite <- append_cons. by apply startswith_before_space.
Qed.

Lemma contains_join (w : string) (ws : list string) :
  w <> "" -> no_space w = true ->
  contains w (join " " ws) = existsb (contains w) ws.
Proof.
  intros Hne Hw. induction ws as [|x [|y ws] IH].
  - by apply contains_nil_r.
  - simpl. by rewrite orb_false_r.
  - change (join " " (x :: y :: ws)) with (x +:+ String " " (join " " (y :: ws))).
    rewrite contains_around_space by done. by rewrite IH.
Qed.

(** [clean_text] keeps the occurrences of a word without white space, and
    adds none. *)
Lemma clean_text_contains (w text : string) :
  w <> "" -> no_space w = true ->
  contains w (UniversityScraper.clean_text text) = contains w text.
Proof.
  intros Hne Hw. unfold UniversityScraper.clean_text.
  destruct text as [|c text]; [reflexivity|].
  cbn [truthy negb]. by rewrite contains_join, <- contains_split.
Qed.

Lemma any_in_clean_text (ws : list string) (text : string) :
  Forall (fun w => w <> "" /\ no_space w = true) ws ->
  any_in ws (UniversityScraper.clean_text text) = any_in ws text.
Proof.
  unfold any_in. induction 1 as [|w ws [Hne Hw] _ IH]; [reflexivity|].
  cbn [existsb]. by rewrite clean_text_contains, IH.
Qed.

Example split_example :
  split "  BSc   Economics and	Law " = ["BSc"; "Economics"; "and"; "Law"].
Proof. reflexivity. Qed.

Example clean_text_example :
  UniversityScraper.clean_text "  MSc   Data  Science " = "MSc Data Science" /\
  UniversityScraper.clean_text "   " = "".
Proof. split; reflexivity. Qed.

Example contains_example :
  contains "MA" "BSc MAths" = true /\ contains "MA" "BSc Management" = false.
Proof. split; reflexivity. Qed.

Example upper_example : upper "International Relations 2" = "INTERNATIONAL RELATIONS 2".
Proof. reflexivity. Qed.

End PyStrFacts.

(** ** Subject areas *)

Section AreaFacts.
Import PyStr.

Lemma upper_app (a b : string) : upper (a +:+ b) = upper a +:+ upper b.
Proof.
  induction a as [|c a IH]; [reflexivity|].
  rewrite append_cons. simpl. by rewrite IH, append_cons.
Qed.

(** [upper] maps character by character, so a split of the upper-case form
    comes from a split of the string. *)
Lemma upper_split (s x y : string) :
  upper s = x +:+ y -> exists a b, s = a +:+ b /\ upper a = x /\ upper b = y.
Proof.
  revert s. induction x as [|c x IH]; intros s H.
  - by exists "", s.
  - destruct s as [|d s]; [discriminate H|].
    rewrite append_cons in H. simpl in H. injection H as Hc H.
    destruct (IH s H) as (a & b & -> & Ha & Hb).
    exists (String d a), b. rewrite append_cons. simpl. by rewrite Hc, Ha.
Qed.

(** The test of the source, on upper-case forms, is the case-insensitive
    substring test of the specification. *)
Lemma contains_upper_ci (kw name : string) :
  contains (upper kw) (upper name) = true <-> ci_substring kw name.
Proof.
  rewrite contains_spec. unfold occurs_in, ci_substring. split.
  - intros (pre' & post' & H).
    apply upper_split in H as (pre & r & -> & Hpre & Hr).
    apply upper_split in Hr as (mid & post & -> & Hmid & Hpost).
    by exists pre, mid, post.
  - intros (pre & mid & post & -> & Hmid).
    exists (upper pre), (upper post). by rewrite !upper_app, Hmid.
Qed.

Lemma keywords_match (keywords : list string) (name : string) :
  existsb (fun keyword => contains (upper keyword) (upper name)) keywords = true
  <-> area_matches keywords name.
Proof.
  unfold area_matches. rewrite existsb_exists. split.
  - intros (kw & Hin & H). exists kw. by rewrite list_elem_of_In, <- contains_upper_ci.
  - intros (kw & Hin & H). exists kw. by rewrite <- list_elem_of_In, contains_upper_ci.
Qed.

Lemma scan_areas_first_match (areas : list (string * list string)) (name : string) :
  first_match areas name (scan_areas areas (upper name)).
Proof.
  induction areas as [|[area keywords] rest IH]; simpl.
  - right. split; [|done]. intros a k Hin. by apply elem_of_nil in Hin.
  - destruct (existsb _ keywords) eqn:Hk.
    + left. exists 0, area, keywords. apply keywords_match in Hk.
      split; [done|]. split; [done|]. split; [intros; lia | done].
    + assert (~ area_matches keywords name) as Hno.
      { rewrite <- keywords_match, Hk. done. }
      destruct IH as [(i & a & k & Hi & Hm & Hfirst & ->) | [Hnone ->]].
      * left. exists (S i), a, k. split; [done|]. split; [done|]. split; [|done].
        intros [|j] a' k' Hlt Hj; simpl in Hj.
        -- by injection Hj as <- <-.
        -- apply (Hfirst j a' k'); [lia | done].
      * right. split; [|done]. intros a k [Heq|Hin]%elem_of_cons.
        -- by injection Heq as -> ->.
        -- by apply (Hnone a k).
Qed.

Lemma first_match_earlier_wins (areas : list (string * list string)) (name r : string) :
  NoDup areas.*1 -> first_match areas name r -> earlier_wins areas name r.
Proof.
  intros Hnd Hfm i j a b ki kj Hlt Hi Hj Hmi Hmj ->.
  destruct Hfm as [(p & area & k & Hp & Hm & Hfirst & Heq) | [Hnone _]].
  - subst area.
    assert (p = j) as ->.
    { apply (NoDup_lookup _ p j b Hnd); rewrite list_lookup_fmap.
      - by rewrite Hp. - by rewrite Hj. }
    by apply (Hfirst i a ki).
  - apply (Hnone b kj); [|done]. by apply list_elem_of_lookup_2 in Hj.
Qed.

(** C9. Subject-area assignment is first-match-wins in table order: for
    both scrapers and every course name, [_determine_area] returns the first
    area of the table one of whose keywords is a case-insensitive substring
    of the name, and 'Other' when no keyword matches; when the keywords of
    two areas both match, the later area is not the answer. *)
Theorem determine_area_first_match_wins :
  forall course_name : string,
    first_match LSEScraper.areas course_name (LSEScraper._determine_area course_name) /\
    earlier_wins LSEScraper.areas course_name (LSEScraper._determine_area course_name) /\
    first_match BolognaScraper.areas course_name
      (BolognaScraper._determine_area course_name) /\
    earlier_wins BolognaScraper.areas course_name
      (BolognaScraper._determine_area course_name).
Proof.
  intros course_name.
  pose proof (scan_areas_first_match LSEScraper.areas course_name) as HL.
  pose proof (scan_areas_first_match BolognaScraper.areas course_name) as HB.
  repeat split; try done.
  - apply first_match_earlier_wins; [compute_done | done].
  - apply first_match_earlier_wins; [compute_done | done].
Qed.

(** The order of the table decides, not the order or the length of the
    keywords in the name. *)
Example determine_area_order_examples :
  LSEScraper._determine_area "MSc Finance and Economics" = "Economics" /\
  LSEScraper._determine_area "BSc International Relations and Economic History" = "Economics" /\
  LSEScraper._determine_area "MSc Social Data Science" = "Social Sciences" /\
  LSEScraper._determine_area "BSc Geography" = "Other" /\
  BolognaScraper._determine_area "Law and Economics" = "Economics" /\
  BolognaScraper._determine_area "Business Law" = "Economics".
Proof. repeat split; reflexivity. Qed.

End AreaFacts.

(** ** The course constructors of the two LSE scrapers *)

Ltac unfold_monad :=
  unfold mbind, St_bind, bind, mret, St_ret, ret, raise, lift, try_except,
    now_microsecond, send in *.

Section CourseConstructor.
Import PyStr LSEScraperFix.

Variable urljoin : string -> string -> string.
Variable invalid_url : string -> bool.
Variable microsecond : nat -> N.

Lemma truthy_true (s : string) : truthy s = true <-> s <> "".
Proof. destruct s; simpl; split; congruence. Qed.


Lemma create_course_empty (link prog_type : string) (s : effects) :
  _create_course_from_text urljoin invalid_url microsecond "" link prog_type s
  = (Return None, s).
Proof. reflexivity. Qed.

(** The run of the constructor on a text that is not empty: [ValueError]
    from [urljoin] on a link it rejects, and otherwise [AttributeError]
    from the call of [_determine_area], after the clock has been read for
    the code. *)
Lemma create_course_run (text link prog_type : string) (s : effects) :
  text <> "" ->
  _create_course_from_text urljoin invalid_url microsecond text link prog_type s
  = if truthy link && negb (startswith link "http") && invalid_url link
    then (Raise (OtherException "ValueError"), s)
    else (Raise (OtherException "AttributeError"),
          {| clock_reads := S (clock_reads s); requests := requests s |}).
Proof.
  intros Hne. apply truthy_true in Hne.
  unfold _create_course_from_text. rewrite Hne. cbn [negb].
  destruct (course_type_years _ prog_type) as [course_type years].
  unfold urljoin_href, _determine_area.
  destruct (truthy link && negb (startswith link "http")); cbn [andb].
  - destruct (invalid_url link); unfold_monad; reflexivity.
  - unfold_monad. reflexivity.
Qed.

Lemma course_type_years_cases (text prog_type : string) :
  course_type_years text prog_type = ("Bachelor's Degree", 3%Z) \/
  course_type_years text prog_type = ("Master's Degree", 1%Z) \/
  course_type_years text prog_type = ("Doctoral Degree", 4%Z).
Proof.
  unfold course_type_years.
  destruct (_ || _); [auto|]. destruct (contains "LLM" text); [auto|].
  destruct (contains "PhD" text); auto.
Qed.

(** The run of the constructor of the original LSE scraper on an item with
    a heading, when [urljoin] accepts the reference of its link. *)
Lemma parse_course_item_run (item : element) (title_elem : tag) (s : effects) :
  el_find ["h2"; "h3"; "h4"] item = Some title_elem ->
  (forall link, el_find ["a"] item = Some link -> invalid_url (get_href link) = false) ->
  let name := UniversityScraper.clean_text (tag_text title_elem) in
  exists c : Course.t,
    LSEScraper._parse_course_item urljoin invalid_url microsecond item s
    = (Return (Some c), {| clock_reads := S (clock_reads s); requests := requests s |}) /\
    Course.degree_course_name c = name /\
    (Course.degree_course_type c, Course.degree_course_period_years c)
    = (if contains "BSc" name || contains "BA" name then ("Bachelor's Degree", 3%Z)
       else if contains "MSc" name || contains "MA" name then ("Master's Degree", 1%Z)
       else ("Other", 1%Z)) /\
    Course.degree_course_code c
    = "LSE_" +:+ upper (take 4 name) +:+ "_" +:+ of_N (microsecond (clock_reads s)).
Proof.
  intros Htitle Hvalid name. unfold LSEScraper._parse_course_item. rewrite Htitle.
  fold name. destruct (if contains "BSc" name || contains "BA" name then _ else _)
    as [course_type years] eqn:Hty.
  unfold urljoin_href.
  destruct (el_find ["a"] item) as [link|] eqn:Hlink.
  - rewrite (Hvalid link eq_refl). unfold_monad. eexists. split; [reflexivity|].
    split; [reflexivity|].
    cbn [Course.degree_course_type Course.degree_course_period_years
         Course.degree_course_code]. by rewrite <- Hty.
  - unfold_monad. eexists. split; [reflexivity|]. split; [reflexivity|].
    cbn [Course.degree_course_type Course.degree_course_period_years
         Course.degree_course_code]. by rewrite <- Hty.
Qed.

(** A reference that [urljoin] rejects: the handler returns [None], and the
    clock has not been read. *)
Lemma parse_course_item_invalid (item : element) (title_elem link : tag) (s : effects) :
  el_find ["h2"; "h3"; "h4"] item = Some title_elem ->
  el_find ["a"] item = Some link -> invalid_url (get_href link) = true ->
  LSEScraper._parse_course_item urljoin invalid_url microsecond item s = (Return None, s).
Proof.
  intros Htitle Hlink Hinvalid. unfold LSEScraper._parse_course_item.
  rewrite Htitle, Hlink. unfold urljoin_href. rewrite Hinvalid.
  destruct (if contains "BSc" _ || contains "BA" _ then _ else _) as [course_type years].
  unfold_monad. reflexivity.
Qed.

End CourseConstructor.

Section CourseClassification.
Import PyStr LSEScraperFix.

(** The abbreviations of the constructor are words without white space. *)
Lemma abbreviations_clean (text : string) :
  any_in ["MSc"; "MA"; "MRes"; "MPhil"] (UniversityScraper.clean_text text)
  = any_in ["MSc"; "MA"; "MRes"; "MPhil"] text /\
  contains "LLM" (UniversityScraper.clean_text text) = contains "LLM" text /\
  contains "PhD" (UniversityScraper.clean_text text) = contains "PhD" text.
Proof.
  split; [|split].
  - apply any_in_clean_text. repeat constructor; done.
  - by apply clean_text_contains.
  - by apply clean_text_contains.
Qed.

Lemma occurs_nonempty (w text : string) : w <> "" -> occurs_in w text -> text <> "".
Proof.
  intros Hw (pre & post & ->) H.
  destruct pre; [destruct w; [done | discriminate H] | discriminate H].
Qed.

(** C1 (amended). Degree-level classification from the course name.

    The constructor of the original LSE scraper, [_parse_course_item],
    takes no tag. For an item with a heading and a link reference that
    [urljoin] accepts it returns a record, and: a heading in which 'BSc' or
    'BA' occurs gives a bachelor's degree of 3 years; otherwise a heading
    in which 'MSc' or 'MA' occurs gives a master's degree of 1 year; every
    other heading, one with 'PhD' included, gives 'Other' and 1 year.

    The constructor of the enhanced scraper, [_create_course_from_text],
    assigns to the cleaned text, before it builds the record: a master's
    degree of 1 year when 'MSc' occurs, under every tag; a doctoral degree
    of 4 years when 'PhD' occurs, the tag is not 'graduate' and none of
    'MSc', 'MA', 'MRes', 'MPhil', 'LLM' occurs; a bachelor's degree of 3
    years when none of these six occurs and the tag is not 'graduate'; and
    a master's degree of 1 year under the tag 'graduate', whatever the
    text. *)
Theorem degree_level_classification :
  forall (urljoin : string -> string -> string) (invalid_url : string -> bool)
         (microsecond : nat -> N),
    (forall (item : element) (title_elem : tag) (s : effects),
        el_find ["h2"; "h3"; "h4"] item = Some title_elem ->
        (forall link, el_find ["a"] item = Some link -> invalid_url (get_href link) = false) ->
        let name := tag_text title_elem in
        let out := LSEScraper._parse_course_item urljoin invalid_url microsecond item s in
        (any_in ["BSc"; "BA"] name = true -> classified out "Bachelor's Degree" 3) /\
        (any_in ["BSc"; "BA"] name = false -> any_in ["MSc"; "MA"] name = true ->
         classified out "Master's Degree" 1) /\
        (any_in ["BSc"; "BA"; "MSc"; "MA"] name = false -> classified out "Other" 1)) /\
    (forall text prog_type : string,
        let level := course_type_years (UniversityScraper.clean_text text) prog_type in
        (occurs_in "MSc" text -> level = ("Master's Degree", 1%Z)) /\
        (occurs_in "PhD" text -> prog_type <> "graduate" ->
         any_in ["MSc"; "MA"; "MRes"; "MPhil"; "LLM"] text = false ->
         level = ("Doctoral Degree", 4%Z)) /\
        (prog_type <> "graduate" ->
         any_in ["MSc"; "MA"; "MRes"; "MPhil"; "LLM"; "PhD"] text = false ->
         level = ("Bachelor's Degree", 3%Z)) /\
        (prog_type = "graduate" -> level = ("Master's Degree", 1%Z))).
Proof.
  intros urljoin invalid_url microsecond. split.
  - intros item title_elem s Htitle Hvalid name out.
    destruct (parse_course_item_run urljoin invalid_url microsecond item title_elem s
                Htitle Hvalid) as (c & Hc & _ & Hty & _).
    assert (forall ty yrs,
              (Course.degree_course_type c, Course.degree_course_period_years c) = (ty, yrs) ->
              classified out ty yrs) as Hout.
    { intros ty yrs [= H1 H2]. exists c. eexists. split; [exact Hc | done]. }
    assert (any_in ["BSc"; "BA"] (UniversityScraper.clean_text name) = any_in ["BSc"; "BA"] name)
      as Hb by (apply any_in_clean_text; repeat constructor; done).
    assert (any_in ["MSc"; "MA"] (UniversityScraper.clean_text name) = any_in ["MSc"; "MA"] name)
      as Hm by (apply any_in_clean_text; repeat constructor; done).
    unfold any_in in Hb, Hm. cbn [existsb] in Hb, Hm. rewrite !orb_false_r in Hb, Hm.
    fold name in Hty. rewrite Hb, Hm in Hty. clear Hb Hm.
    unfold any_in. cbn [existsb]. rewrite !orb_false_r.
    split; [|split].
    + intros H. apply Hout. by rewrite Hty, H.
    + intros H1 H2. apply Hout. by rewrite Hty, H1, H2.
    + intros H. apply Hout. rewrite Hty.
      apply orb_false_iff in H as [H1 H]. apply orb_false_iff in H as [H2 H].
      by rewrite H1, H2, H.
  - intros text prog_type level. subst level.
    destruct (abbreviations_clean text) as (Hm & Hl & Hp).
    unfold course_type_years. rewrite Hm, Hl, Hp. clear Hm Hl Hp.
    unfold any_in. cbn [existsb].
    split; [|split; [|split]].
    + intros Hocc. apply contains_spec in Hocc. rewrite Hocc. by rewrite orb_true_r.
    + intros Hocc Htag Hnone. apply contains_spec in Hocc.
      rewrite bool_decide_eq_false_2 by done.
      repeat (apply orb_false_iff in Hnone as [? Hnone]).
      by repeat match goal with H : contains _ text = _ |- _ => rewrite H; clear H end.
    + intros Htag Hnone.
      rewrite bool_decide_eq_false_2 by done.
      repeat (apply orb_false_iff in Hnone as [? Hnone]).
      by repeat match goal with H : contains _ text = _ |- _ => rewrite H; clear H end.
    + intros Htag. by rewrite bool_decide_eq_true_2.
Qed.

(** The cases of the classification at concrete names. *)
Lemma degree_level_classification_witness :
  classified (LSEScraper._parse_course_item sample_urljoin all_urls_valid sample_clock
                (heading_item "BSc Economics") initial_effects) "Bachelor's Degree" 3 /\
  classified (LSEScraper._parse_course_item sample_urljoin all_urls_valid sample_clock
                (heading_item "MSc Finance") initial_effects) "Master's Degree" 1 /\
  classified (LSEScraper._parse_course_item sample_urljoin all_urls_valid sample_clock
                (heading_item "Diploma in Accounting") initial_effects) "Other" 1 /\
  course_type_years (UniversityScraper.clean_text "PhD Economics") "general"
  = ("Doctoral Degree", 4%Z) /\
  course_type_years (UniversityScraper.clean_text "Diploma in Accounting") "graduate"
  = ("Master's Degree", 1%Z).
Proof.
  destruct (degree_level_classification sample_urljoin all_urls_valid sample_clock)
    as [Horiginal Henhanced].
  split; [|split; [|split; [|split]]].
  - apply (Horiginal (heading_item "BSc Economics")
             {| tag_name := "h3"; tag_text := "BSc Economics"; tag_href := None |});
      [reflexivity | discriminate | reflexivity].
  - apply (Horiginal (heading_item "MSc Finance")
             {| tag_name := "h3"; tag_text := "MSc Finance"; tag_href := None |});
      [reflexivity | discriminate | reflexivity | reflexivity].
  - apply (Horiginal (heading_item "Diploma in Accounting")
             {| tag_name := "h3"; tag_text := "Diploma in Accounting"; tag_href := None |});
      [reflexivity | discriminate | reflexivity].
  - apply (Henhanced "PhD Economics" "general");
      [by exists "", " Economics" | discriminate | reflexivity].
  - apply (Henhanced "Diploma in Accounting" "graduate"). reflexivity.
Defined.

(** C1, as stated, fails: the constructor of the original LSE scraper
    returns, for a heading in which 'PhD' occurs, a record of level 'Other'
    and 1 year, not a doctoral degree of 4 years. *)
Lemma original_parser_phd_counterexample :
  let out := LSEScraper._parse_course_item sample_urljoin all_urls_valid sample_clock
               (heading_item "PhD Economics") initial_effects in
  occurs_in "PhD" "PhD Economics" /\
  classified out "Other" 1 /\
  ~ classified out "Doctoral Degree" 4.
Proof.
  split; [by exists "", " Economics"|]. split.
  - eexists. eexists. split; [lazy; reflexivity | done].
  - intros (c & s' & Hout & Hty & _). vm_compute in Hout.
    injection Hout as <- _. discriminate Hty.
Qed.

(** The original constructor tests the bachelor's abbreviations first, and
    a reference that [urljoin] rejects costs the record. *)
Example parse_course_item_examples :
  classified (LSEScraper._parse_course_item sample_urljoin all_urls_valid sample_clock
                (heading_item "Executive MBA and MSc") initial_effects)
    "Bachelor's Degree" 3 /\
  LSEScraper._parse_course_item sample_urljoin bracket_invalid sample_clock
    {| el_tag := {| tag_name := "div"; tag_text := "MSc Finance"; tag_href := None |};
       el_descendants := [ {| tag_name := "h3"; tag_text := "MSc Finance"; tag_href := None |};
                           {| tag_name := "a"; tag_text := "more"; tag_href := Some "//[" |} ] |}
    initial_effects
  = (Return None, initial_effects).
Proof.
  split; [eexists; eexists; split; [lazy; reflexivity | done] | reflexivity].
Qed.

(** The level that the enhanced constructor assigns under the tag
    'graduate', and to a name with both 'MPhil' and 'PhD'. *)
Example course_type_years_examples :
  course_type_years "PhD Economics" "graduate" = ("Master's Degree", 1%Z) /\
  course_type_years "MPhil/PhD Economics" "general" = ("Master's Degree", 1%Z) /\
  course_type_years "LLB Laws" "undergraduate" = ("Bachelor's Degree", 3%Z).
Proof. repeat split. Qed.

(** C10. [_create_course_from_text] returns no record, whatever its
    arguments: [None] for the empty text, as the claim says, and for every
    other text an exception derived from [Exception], where the claim says
    a record. For a link that it hands to [urljoin] and that [urljoin]
    rejects this is [ValueError]; otherwise it is [AttributeError], from
    the call of [self._determine_area], which the class does not define,
    after the level, the duration and the code have been computed. So it
    is for 'BSc Economics' with no link. *)
Theorem create_course_never_returns_a_record :
  (forall (urljoin : string -> string -> string) (invalid_url : string -> bool)
          (microsecond : nat -> N) (text link prog_type : string) (s : effects),
      match _create_course_from_text urljoin invalid_url microsecond text link prog_type s with
      | (Return None, s') => text = "" /\ s' = s
      | (Return (Some _), _) => False
      | (Raise e, s') =>
          text <> "" /\
          ((e = OtherException "ValueError" /\ invalid_url link = true /\ s' = s) \/
           (e = OtherException "AttributeError" /\
            s' = {| clock_reads := S (clock_reads s); requests := requests s |}))
      end) /\
  _create_course_from_text sample_urljoin all_urls_valid sample_clock
    "BSc Economics" "" "undergraduate" initial_effects
  = (Raise (OtherException "AttributeError"), {| clock_reads := 1; requests := [] |}).
Proof.
  split; [|reflexivity].
  intros urljoin invalid_url microsecond text link prog_type s.
  destruct (decide (text = "")) as [->|Hne].
  - by rewrite create_course_empty.
  - rewrite create_course_run by done.
    destruct (truthy link && negb (startswith link "http")); cbn [andb].
    + destruct (invalid_url link) eqn:Hinv; (split; [done|]); [left|right]; done.
    + split; [done|]. by right.
Qed.

(** A link that starts with 'http' is not handed to [urljoin], whether it
    is absolute or not; a relative link is, and may be rejected. *)
Example create_course_link_examples :
  _create_course_from_text sample_urljoin bracket_invalid sample_clock
    "BSc Economics" "//[" "undergraduate" initial_effects
  = (Raise (OtherException "ValueError"), initial_effects) /\
  _create_course_from_text sample_urljoin bracket_invalid sample_clock
    "BSc Economics" "http-guide/x" "undergraduate" initial_effects
  = (Raise (OtherException "AttributeError"), {| clock_reads := 1; requests := [] |}).
Proof. split; reflexivity. Qed.

End CourseClassification.

(** ** Computations *)

Section MonadFacts.
Context {S : Type}.

Lemma bind_run {A B : Type} (m : St S A) (f : A -> St S B) (s : S) :
  (m ≫= f) s = match m s with
                | (Return a, s') => f a s'
                | (Raise e, s') => (Raise e, s')
                end.
Proof. reflexivity. Qed.

Lemma ret_run {A : Type} (a : A) (s : S) : (ret a : St S A) s = (Return a, s).
Proof. reflexivity. Qed.

Lemma no_Exception_ret {A : Type} (a : A) : propagates_no_Exception (ret a : St S A).
Proof. intros s s' e H. discriminate H. Qed.

Lemma no_Exception_bind {A B : Type} (m : St S A) (f : A -> St S B) :
  propagates_no_Exception m -> (forall a, propagates_no_Exception (f a)) ->
  propagates_no_Exception (m ≫= f).
Proof.
  intros Hm Hf s s' e. rewrite bind_run.
  destruct (m s) as [[a|e0] s0] eqn:Hms.
  - apply Hf.
  - intros [= <- <-]. by apply (Hm s s0).
Qed.

Lemma no_Exception_try_except {A : Type} (m : St S A) (handler : exn -> St S A) :
  (forall e, propagates_no_Exception (handler e)) ->
  propagates_no_Exception (try_except m handler).
Proof.
  intros Hh s s' e. unfold try_except.
  destruct (m s) as [[a|e0] s0]; [discriminate|].
  destruct (is_Exception e0) eqn:He0.
  - apply Hh.
  - by intros [= <- <-].
Qed.

Lemma no_Exception_for_each {A T : Type} (xs : list A) (body : A -> T -> St S T) (acc : T) :
  (forall x a, propagates_no_Exception (body x a)) ->
  propagates_no_Exception (for_each xs body acc).
Proof.
  intros Hb. revert acc. induction xs as [|x xs IH]; intros acc; simpl.
  - apply no_Exception_ret.
  - apply no_Exception_bind; auto.
Qed.

Lemma no_Exception_for_each_break {A T : Type} (xs : list A)
  (body : A -> T -> St S (flow T)) (acc : T) :
  (forall x a, propagates_no_Exception (body x a)) ->
  propagates_no_Exception (for_each_break xs body acc).
Proof.
  intros Hb. revert acc. induction xs as [|x xs IH]; intros acc; simpl.
  - apply no_Exception_ret.
  - apply no_Exception_bind; [auto|]. intros [a|a]; [apply IH | apply no_Exception_ret].
Qed.

Lemma always_returns_no_Exception {A : Type} (m : St S A) :
  always_returns m -> propagates_no_Exception m.
Proof. intros Hm s s' e H. destruct (Hm s) as (a & s0 & Ha). congruence. Qed.

Lemma always_returns_ret {A : Type} (a : A) : always_returns (ret a : St S A).
Proof. intros s. by exists a, s. Qed.

Lemma always_returns_bind {A B : Type} (m : St S A) (f : A -> St S B) :
  always_returns m -> (forall a, always_returns (f a)) -> always_returns (m ≫= f).
Proof.
  intros Hm Hf s. rewrite bind_run. destruct (Hm s) as (a & s0 & ->). apply Hf.
Qed.

Lemma always_returns_for_each {A T : Type} (xs : list A) (body : A -> T -> St S T) (acc : T) :
  (forall x a, always_returns (body x a)) -> always_returns (for_each xs body acc).
Proof.
  intros Hb. revert acc. induction xs as [|x xs IH]; intros acc; simpl.
  - apply always_returns_ret.
  - apply always_returns_bind; auto.
Qed.

Lemma always_returns_for_each_break {A T : Type} (xs : list A)
  (body : A -> T -> St S (flow T)) (acc : T) :
  (forall x a, always_returns (body x a)) -> always_returns (for_each_break xs body acc).
Proof.
  intros Hb. revert acc. induction xs as [|x xs IH]; intros acc; simpl.
  - apply always_returns_ret.
  - apply always_returns_bind; [auto|]. intros [a|a]; [apply IH | apply always_returns_ret].
Qed.


End MonadFacts.


(** ** Duplicate removal *)

Section RemoveDuplicates.
Import LSEScraperFix.




(** A list of pairwise distinct names, none empty, goes through the filter
    unchanged. *)
Lemma remove_duplicates_loop_id (courses unique_courses : list Course.t) (seen : gset string) :
  NoDup (names courses) ->
  (forall n, n ∈ names courses -> n <> "" /\ n ∉ seen) ->
  (foldl remove_duplicates_step (seen, unique_courses) courses).2 = unique_courses ++ courses.
Proof.
  revert seen unique_courses.
  induction courses as [|c courses IH]; intros seen unique_courses Hnd Hfresh.
  { by rewrite app_nil_r. }
  cbn [foldl]. unfold remove_duplicates_step at 2.
  apply NoDup_cons in Hnd as [Hc Hnd].
  destruct (Hfresh (Course.degree_course_name c)) as [Hne Hns]; [by left|].
  apply truthy_true in Hne. rewrite Hne, bool_decide_eq_true_2 by done. cbn [andb].
  rewrite IH, <- app_assoc; [done..|].
  intros n Hn. destruct (Hfresh n) as [? ?]; [by right|].
  split; [done|]. apply not_elem_of_union. split; [|done].
  apply not_elem_of_singleton. intros ->. by apply Hc.
Qed.

Lemma remove_duplicates_id (courses : list Course.t) :
  NoDup (names courses) -> "" ∉ names courses -> remove_duplicates courses = courses.
Proof.
  intros Hnd Hne. unfold remove_duplicates.
  rewrite remove_duplicates_loop_id; [done..|].
  intros n Hn. split; [by intros -> | set_solver].
Qed.





End RemoveDuplicates.

(** ** The course lists of the scrapers *)

Section GetCourses.
Variable urljoin : string -> string -> string.
Variable invalid_url : string -> bool.
Variable microsecond : nat -> N.
Variable session_get : string -> result UniversityScraper.response.
Variable driver_get : string -> result string.
Variable BeautifulSoup : string -> result soup.
Variable selenium_ready : bool.

Lemma always_returns_try_except {S A : Type} (m : St S A) (handler : exn -> St S A) :
  always_returns m -> always_returns (try_except m handler).
Proof. intros Hm s. unfold try_except. destruct (Hm s) as (a & s' & ->). eauto. Qed.

Lemma append_course_returns (m : M (option Course.t)) (courses : list Course.t) :
  always_returns m ->
  always_returns (course ← m; ret (append_if courses course) : M (list Course.t)).
Proof. intros Hm. apply always_returns_bind; [done|]. intros a. apply always_returns_ret. Qed.

Lemma fetch_page_no_Exception (url : string) :
  propagates_no_Exception
    (UniversityScraper.fetch_page session_get driver_get BeautifulSoup selenium_ready url).
Proof.
  unfold UniversityScraper.fetch_page.
  apply no_Exception_try_except. intros e. apply no_Exception_ret.
Qed.

(** The constructors of the two scrapers of [university_scraper.py] always
    return: what their [try] block can raise, the [ValueError] of
    [urljoin], is caught. *)
Lemma bologna_parse_returns (item : element) (degree_type : string) :
  always_returns
    (BolognaScraper._parse_course_item urljoin invalid_url microsecond item degree_type).
Proof.
  intros s. unfold BolognaScraper._parse_course_item, urljoin_href.
  destruct (bool_decide (tag_name (el_tag item) = "a")).
  - destruct (invalid_url (get_href (el_tag item))); unfold_monad;
      [eauto | destruct (bool_decide (degree_type = "first_cycle")); eauto].
  - destruct (el_find ["a"] item) as [link|]; [|unfold_monad; eauto].
    destruct (invalid_url (get_href link)); unfold_monad;
      [eauto | destruct (bool_decide (degree_type = "first_cycle")); eauto].
Qed.

Lemma lse_parse_returns (item : element) :
  always_returns (LSEScraper._parse_course_item urljoin invalid_url microsecond item).
Proof.
  intros s. unfold LSEScraper._parse_course_item, urljoin_href.
  destruct (el_find _ item) as [title_elem|]; [|unfold_monad; eauto].
  destruct (if _ || _ then _ else _) as [course_type years].
  destruct (el_find ["a"] item) as [link|]; [|unfold_monad; eauto].
  destruct (invalid_url (get_href link)); unfold_monad; eauto.
Qed.


Lemma items_loop_no_Exception (parse : element -> M (option Course.t))
  (items : list element) (courses : list Course.t) :
  (forall item, always_returns (parse item)) ->
  propagates_no_Exception
    (for_each items
       (fun item courses => course_data ← parse item; ret (append_if courses course_data))
       courses).
Proof.
  intros Hp. apply always_returns_no_Exception, always_returns_for_each.
  intros x a. by apply append_course_returns.
Qed.


End GetCourses.



(** ** Outcomes of computations *)

Section Outcomes.
Context {W : Type}.

Lemma outcome_ret {A : Type} (Post : A -> W -> Prop) (Exc : exn -> W -> Prop) (a : A) (s : W) :
  Post a s -> outcome Post Exc (ret a) s.
Proof. done. Qed.

Lemma outcome_bind {A B : Type} (Post : B -> W -> Prop) (Exc : exn -> W -> Prop)
  (m : St W A) (f : A -> St W B) (s : W) :
  outcome (fun a s' => outcome Post Exc (f a) s') Exc m s ->
  outcome Post Exc (m ≫= f) s.
Proof. unfold outcome. rewrite bind_run. by destruct (m s) as [[a|e] s']. Qed.

Lemma outcome_try_except {A : Type} (Post : A -> W -> Prop) (Exc : exn -> W -> Prop)
  (m : St W A) (handler : exn -> St W A) (s : W) :
  outcome Post
    (fun e s' => if is_Exception e then outcome Post Exc (handler e) s' else Exc e s') m s ->
  outcome Post Exc (try_except m handler) s.
Proof.
  unfold outcome, try_except. destruct (m s) as [[a|e] s']; [done|].
  by destruct (is_Exception e).
Qed.

Lemma outcome_weaken {A : Type} (Post Post' : A -> W -> Prop) (Exc Exc' : exn -> W -> Prop)
  (m : St W A) (s : W) :
  (forall a s', Post a s' -> Post' a s') -> (forall e s', Exc e s' -> Exc' e s') ->
  outcome Post Exc m s -> outcome Post' Exc' m s.
Proof. unfold outcome. intros HP HE. destruct (m s) as [[a|e] s']; auto. Qed.

Lemma outcome_for_each {A T : Type} (I : T -> W -> Prop) (Exc : exn -> W -> Prop)
  (xs : list A) (body : A -> T -> St W T) (acc : T) (s : W) :
  (forall x a t, I a t -> outcome I Exc (body x a) t) ->
  I acc s -> outcome I Exc (for_each xs body acc) s.
Proof.
  intros Hb. revert acc s. induction xs as [|x xs IH]; intros acc s Hinv; cbn [for_each].
  - by apply outcome_ret.
  - apply outcome_bind. eapply outcome_weaken; [| |by apply Hb]; [|done].
    intros a s' Ha. by apply IH.
Qed.

Lemma outcome_for_each_break {A T : Type} (I : T -> W -> Prop) (Exc : exn -> W -> Prop)
  (xs : list A) (body : A -> T -> St W (flow T)) (acc : T) (s : W) :
  (forall x a t, I a t ->
     outcome (fun r t' => match r with Continue a' | Break a' => I a' t' end) Exc
       (body x a) t) ->
  I acc s -> outcome I Exc (for_each_break xs body acc) s.
Proof.
  intros Hb. revert acc s. induction xs as [|x xs IH]; intros acc s Hinv;
    cbn [for_each_break].
  - by apply outcome_ret.
  - apply outcome_bind. eapply outcome_weaken; [| |by apply Hb]; [|done].
    intros [a|a] s' Ha; [by apply IH|by apply outcome_ret].
Qed.

Lemma outcome_on_effects {A : Type} (Post : A -> effects * list Course.t -> Prop)
  (Exc : exn -> effects * list Course.t -> Prop) (m : M A) (st : effects * list Course.t) :
  outcome (fun a s' => Post a (s', st.2)) (fun e s' => Exc e (s', st.2)) m st.1 ->
  outcome Post Exc (on_effects m) st.
Proof. unfold outcome, on_effects. by destruct (m st.1) as [[a|e] s']. Qed.

Lemma outcome_lift {A : Type} (Post : A -> effects * list Course.t -> Prop)
  (Exc : exn -> effects * list Course.t -> Prop) (r : result A)
  (st : effects * list Course.t) :
  match r with
  | Return a => Post a st
  | Raise e => Exc e st
  end ->
  outcome Post Exc (on_effects (lift r)) st.
Proof. unfold outcome, on_effects, lift. by destruct st, r. Qed.

End Outcomes.

(** ** The enhanced LSE scraper *)

Section EnhancedScraper.
Import PyStr LSEScraperFix.
Variable urljoin : string -> string -> string.
Variable invalid_url : string -> bool.
Variable microsecond : nat -> N.
Variable driver_get : string -> result string.
Variable BeautifulSoup : string -> result soup.
Variable selenium_ready : bool.

(** The constructor returns no record: [None] for the empty text, and an
    exception for every other text. *)
Lemma create_course_outcome (text link prog_type : string) (s : effects) :
  outcome (fun course s' => course = None /\ s' = s)
    (fun e s' => is_Exception e = true /\ requests s' = requests s /\
                 clock_reads s <= clock_reads s')
    (_create_course_from_text urljoin invalid_url microsecond text link prog_type) s.
Proof.
  unfold outcome. destruct (decide (text = "")) as [->|Hne].
  - by rewrite create_course_empty.
  - rewrite create_course_run by done.
    destruct (truthy link && negb (startswith link "http") && invalid_url link);
      cbn [requests clock_reads]; repeat split; lia.
Qed.

Lemma nothing_found_refl (s : effects) : nothing_found s (s, []).
Proof. by repeat split. Qed.

Lemma append_nothing (s : effects) (st : effects * list Course.t) (m : M (option Course.t)) :
  nothing_found s st ->
  outcome (fun course s' => course = None /\ s' = st.1)
    (fun e s' => is_Exception e = true /\ requests s' = requests st.1 /\
                 clock_reads st.1 <= clock_reads s') m st.1 ->
  outcome (fun _ st' => nothing_found s st')
    (fun e st' => is_Exception e = true /\ nothing_found s st')
    (course ← on_effects m; courses_append course) st.
Proof.
  intros (Hl & Hreq & Hclock) Hm. apply outcome_bind, outcome_on_effects.
  eapply outcome_weaken; [| |exact Hm].
  - intros course s' [-> ->]. unfold outcome, courses_append. cbn [append_if fst snd].
    destruct st as [s1 l]. by repeat split.
  - intros e s' (He & Hreq' & Hclock'). split; [done|].
    split; [done|]. cbn [fst]. split; [congruence|lia].
Qed.

Lemma scan_links_outcome (page : soup) (prog_type : string) (s : effects)
  (st : effects * list Course.t) :
  nothing_found s st ->
  outcome (fun _ st' => nothing_found s st')
    (fun e st' => is_Exception e = true /\ nothing_found s st')
    (scan_links urljoin invalid_url microsecond page prog_type) st.
Proof.
  intros Hst. unfold scan_links.
  apply outcome_for_each with (I := fun _ st' => nothing_found s st'); [|done].
  intros link [] t Ht.
  destruct (_ && _); [|by apply outcome_ret].
  destruct (any_in _ _); [|by apply outcome_ret].
  apply append_nothing; [done|]. apply create_course_outcome.
Qed.

(** The handler of [_extract_course_from_element] turns every exception of
    the constructor into [None]. *)
Lemma extract_course_outcome (elem : element) (s : effects) :
  outcome (fun course s' => course = None /\ requests s' = requests s /\
                            clock_reads s <= clock_reads s')
    (fun _ _ => False)
    (_extract_course_from_element urljoin invalid_url microsecond elem) s.
Proof.
  unfold _extract_course_from_element. apply outcome_try_except.
  destruct (find_name _ elem) as [name|]; [|by apply outcome_ret].
  destruct (negb (truthy name)); [by apply outcome_ret|].
  eapply outcome_weaken; [| |apply create_course_outcome].
  - by intros course s' [-> ->].
  - intros e s' (-> & Hreq & Hclock). by apply outcome_ret.
Qed.

Lemma scan_selectors_outcome (page : soup) (sels : list string) (s : effects)
  (st : effects * list Course.t) :
  nothing_found s st ->
  outcome (fun _ st' => nothing_found s st') (fun _ _ => False)
    (scan_selectors urljoin invalid_url microsecond page sels) st.
Proof.
  intros Hst. unfold scan_selectors.
  apply outcome_for_each_break with (I := fun _ st' => nothing_found s st'); [|done].
  intros selector [] t Ht. apply outcome_bind.
  eapply outcome_weaken;
    [| |apply outcome_for_each with (I := fun _ st' => nothing_found s st')
                                    (Exc := fun _ _ => False); [|exact Ht]].
  - intros [] t' Ht'. apply outcome_bind. unfold outcome at 1, courses_now.
    by destruct (t'.2).
  - done.
  - intros elem [] t1 (Hl & Hreq & Hclock). apply outcome_bind, outcome_on_effects.
    eapply outcome_weaken; [| |apply extract_course_outcome]; [|done].
    intros course s' (-> & Hreq' & Hclock').
    unfold outcome, courses_append. cbn [append_if fst snd].
    split; [done|]. cbn [fst]. split; [congruence|lia].
Qed.

(** The scan of the candidate pages: as the list stays empty, no page ends
    the loop, and every candidate is asked for when a browser session is
    ready. *)
Lemma scan_loop_outcome (infos : list url_info) (st : effects * list Course.t) :
  st.2 = [] ->
  outcome
    (fun _ st' =>
       st'.2 = [] /\ clock_reads st.1 <= clock_reads st'.1 /\
       requests st'.1
       = requests st.1 ++ (if selenium_ready
                           then candidate_requests urljoin infos (length infos) else []))
    (fun e st' =>
       is_Exception e = false /\ selenium_ready = true /\
       clock_reads st.1 <= clock_reads st'.1 /\
       exists n : nat,
         1 <= n <= length infos /\
         requests st'.1 = requests st.1 ++ candidate_requests urljoin infos n)
    (for_each_break infos
       (fun url_info _ =>
          let url := urljoin base_url (url url_info) in
          (if selenium_ready then
             try_except
               (on_effects (send (DriverGet url));;
                html ← on_effects (lift (driver_get url));
                page ← on_effects (lift (BeautifulSoup html));
                if bool_decide (type url_info ∈ ["undergraduate"; "graduate"])
                then scan_links urljoin invalid_url microsecond page (type url_info)
                else scan_selectors urljoin invalid_url microsecond page
                       (selectors url_info))
               (fun e => ret tt)
           else ret tt);;
          courses ← courses_now;
          if 5 <=? length courses then ret (Break tt) else ret (Continue tt))
       tt) st.
Proof.
  revert st. induction infos as [|info infos IH]; intros [s l] Hl; cbn [snd fst] in *;
    subst l; cbn [for_each_break].
  - apply outcome_ret. cbn [fst snd]. split; [done|]. split; [lia|].
    unfold candidate_requests. destruct selenium_ready; by rewrite app_nil_r.
  - set (r := DriverGet (urljoin base_url (url info))).
    set (s1 := {| clock_reads := clock_reads s; requests := requests s ++ [r] |}).
    apply outcome_bind. cbv zeta. apply outcome_bind.
    apply outcome_weaken with
      (Post := fun (_ : unit) st' =>
                 st'.2 = [] /\ clock_reads s <= clock_reads st'.1 /\
                 requests st'.1 = requests s ++ (if selenium_ready then [r] else []))
      (Exc := fun e st' =>
                is_Exception e = false /\ selenium_ready = true /\
                clock_reads s <= clock_reads st'.1 /\
                requests st'.1 = requests s ++ [r]).
    + intros [] [s2 l2] (Hl2 & Hclock2 & Hreq2). cbn [fst snd] in *. subst l2.
      apply outcome_bind. unfold outcome at 1, courses_now. cbn [snd length Nat.leb].
      unfold outcome at 1. rewrite ret_run.
      specialize (IH (s2, []) eq_refl).
      eapply outcome_weaken; [| |exact IH]; cbn [fst snd].
      * intros [] st' (Hl' & Hclock' & Hreq'). split; [done|]. split; [lia|].
        rewrite Hreq', Hreq2, <- app_assoc. f_equal. unfold candidate_requests.
        by destruct selenium_ready.
      * intros e st' (He & Hsel & Hclock' & n & Hn & Hreq').
        split; [done|]. split; [done|]. split; [lia|].
        exists (S n). cbn [length]. split; [lia|].
        rewrite Hreq', Hreq2, Hsel, <- app_assoc. done.
    + intros e st' (He & Hsel & Hclock' & Hreq'). split; [done|]. split; [done|].
      split; [done|]. exists 1. cbn [length]. split; [lia|]. done.
    + destruct selenium_ready.
      * apply outcome_try_except, outcome_bind.
        unfold outcome at 1, on_effects, send. cbn [fst snd]. fold r. fold s1.
        assert (forall (e : exn) (st' : effects * list Course.t),
                  nothing_found s1 st' ->
                  if is_Exception e
                  then outcome
                         (fun (_ : unit) st' =>
                            st'.2 = [] /\ clock_reads s <= clock_reads st'.1 /\
                            requests st'.1 = requests s ++ [r])
                         (fun e st' =>
                            is_Exception e = false /\ true = true /\
                            clock_reads s <= clock_reads st'.1 /\
                            requests st'.1 = requests s ++ [r])
                         (ret tt) st'
                  else is_Exception e = false /\ true = true /\
                       clock_reads s <= clock_reads st'.1 /\
                       requests st'.1 = requests s ++ [r]) as Hhandler.
        { intros e st' (Hl' & Hreq' & Hclock'). destruct (is_Exception e) eqn:He.
          - apply outcome_ret. by repeat split.
          - by repeat split. }
        assert (forall st' : effects * list Course.t,
                  nothing_found s1 st' ->
                  st'.2 = [] /\ clock_reads s <= clock_reads st'.1 /\
                  requests st'.1 = requests s ++ [r]) as Hdone.
        { intros st' (Hl' & Hreq' & Hclock'). by repeat split. }
        apply outcome_bind, outcome_lift.
        destruct (driver_get _) as [html|e];
          [|by apply Hhandler, nothing_found_refl].
        apply outcome_bind, outcome_lift.
        destruct (BeautifulSoup html) as [page|e];
          [|by apply Hhandler, nothing_found_refl].
        destruct (bool_decide _).
        -- eapply outcome_weaken;
             [| |apply (scan_links_outcome page (type info) s1), nothing_found_refl].
           ++ intros [] st'. apply Hdone.
           ++ intros e st' [He Hst']. specialize (Hhandler e st' Hst').
              by rewrite He in *.
        -- eapply outcome_weaken;
             [| |apply (scan_selectors_outcome page (selectors info) s1),
                  nothing_found_refl]; [|done].
           intros [] st'. apply Hdone.
      * apply outcome_ret. cbn [fst snd]. by rewrite app_nil_r.
Qed.

Lemma fallback_run (s : effects) :
  _fallback_extraction urljoin invalid_url microsecond s
  = (Raise (OtherException "AttributeError"), tick s).
Proof.
  unfold _fallback_extraction, known_programmes. cbn [for_each].
  rewrite bind_run, bind_run. by rewrite create_course_run.
Qed.

(** What [get_courses] comes to: the scan leaves its list empty, and the
    first entry of the catalogue raises. *)
Lemma get_courses_outcome (s : effects) :
  outcome (fun _ _ => False)
    (fun e s' =>
       (e = OtherException "AttributeError" /\
        clock_reads s < clock_reads s' /\
        requests s' = requests s ++ (if selenium_ready
                                     then candidate_requests urljoin urls_to_try 3 else []))
       \/
       (is_Exception e = false /\ selenium_ready = true /\
        exists n : nat,
          1 <= n <= 3 /\
          requests s' = requests s ++ candidate_requests urljoin urls_to_try n))
    (get_courses urljoin invalid_url microsecond driver_get BeautifulSoup selenium_ready) s.
Proof.
  unfold outcome, get_courses.
  pose proof (scan_loop_outcome urls_to_try (s, []) eq_refl) as Hscan.
  unfold outcome in Hscan. fold (scan_urls urljoin invalid_url microsecond driver_get
                                   BeautifulSoup selenium_ready) in Hscan.
  destruct (scan_urls _ _ _ _ _ _ (s, [])) as [[[]|e] [s1 l]]; cbn [fst snd] in *.
  - destruct Hscan as (-> & Hclock & Hreq). rewrite bind_run, fallback_run.
    left. split; [done|]. unfold tick. cbn [clock_reads requests]. split; [lia|done].
  - destruct Hscan as (He & Hsel & Hclock & n & Hn & Hreq). right. eauto.
Qed.

(** C4. Fallback activation. The fallback of the enhanced LSE scraper
    returns no record: the constructor it calls for the first entry of the
    catalogue asks for [_determine_area], which the class does not have,
    and the [AttributeError] leaves [_fallback_extraction] and
    [get_courses], neither of which catches it. As the scan of the pages
    meets the same error behind its handlers, it finds nothing, so
    [get_courses] never returns: it raises this [AttributeError], or what
    the browser raised that is not derived from [Exception]. *)
Theorem fallback_raises_AttributeError :
  (forall s : effects,
      _fallback_extraction urljoin invalid_url microsecond s
      = (Raise (OtherException "AttributeError"), tick s)) /\
  (forall s : effects,
      match get_courses urljoin invalid_url microsecond driver_get BeautifulSoup
              selenium_ready s with
      | (Return _, _) => False
      | (Raise e, _) => e = OtherException "AttributeError" \/ is_Exception e = false
      end) /\
  get_courses sample_urljoin all_urls_valid sample_clock no_driver parse_duplicate_links
    false initial_effects
  = (Raise (OtherException "AttributeError"), {| clock_reads := 1; requests := [] |}).
Proof.
  split; [|split].
  - intros s. unfold _fallback_extraction, known_programmes. cbn [for_each].
    rewrite bind_run, bind_run. by rewrite create_course_run.
  - intros s. pose proof (get_courses_outcome s) as H. unfold outcome in H.
    destruct (get_courses _ _ _ _ _ _ s) as [[l|e] s']; [done|].
    destruct H as [[-> _]|[He _]]; auto.
  - vm_compute. reflexivity.
Qed.

(** X2. The extraction from an element of the search page returns no record
    and raises nothing: without a valid heading it returns [None] at once,
    and with one the handler turns the exception of the constructor into
    [None], after the clock was read unless [urljoin] rejected the link. *)
Theorem extract_course_returns_None :
  forall (elem : element) (s : effects),
    _extract_course_from_element urljoin invalid_url microsecond elem s
    = (Return None,
       match find_name ["h3"; "h2"; "h4"; "a"] elem with
       | None => s
       | Some name =>
           let link := match el_find_a_href elem with
                       | Some link_elem => get_href link_elem
                       | None => ""
                       end in
           if truthy link && negb (startswith link "http") && invalid_url link
           then s else tick s
       end).
Proof.
  intros elem s. unfold _extract_course_from_element, try_except.
  destruct (find_name _ elem) as [name|] eqn:Hname; [|done].
  assert (name <> "") as Hne.
  { clear -Hname. revert Hname. generalize ["h3"; "h2"; "h4"; "a"].
    intros tags. induction tags as [|t tags IH]; [done|]. cbn [find_name].
    destruct (el_find [t] elem) as [name_elem|]; [|done].
    destruct (_is_valid_course_name _) eqn:Hvalid; [|done].
    intros [= <-] Hempty. by rewrite Hempty in Hvalid. }
  apply truthy_true in Hne as Htruthy. rewrite Htruthy. cbn [negb].
  rewrite create_course_run by done. cbv zeta.
  by destruct (truthy _ && negb _ && invalid_url _).
Qed.

(** X6. The requests of the enhanced LSE scraper. When [get_courses] ends with
    its [AttributeError], the browser has been asked for the three
    candidate pages, in order, if a session was ready, and for nothing
    without one; no HTTP request has been sent, and the clock has been
    read. When the browser raises what is not derived from [Exception],
    the pages asked for are the first candidates up to that page. *)
Theorem enhanced_scraper_effects :
  forall s : effects,
    match get_courses urljoin invalid_url microsecond driver_get BeautifulSoup
            selenium_ready s with
    | (Return _, _) => False
    | (Raise e, s') =>
        exists n : nat,
          n <= length urls_to_try /\
          requests s' = requests s ++ candidate_requests urljoin urls_to_try n /\
          (selenium_ready = false -> n = 0) /\
          (selenium_ready = true -> 1 <= n) /\
          (is_Exception e = true ->
           e = OtherException "AttributeError" /\
           clock_reads s < clock_reads s' /\
           (selenium_ready = true -> n = length urls_to_try))
    end.
Proof.
  intros s. pose proof (get_courses_outcome s) as H. unfold outcome in H.
  destruct (get_courses _ _ _ _ _ _ s) as [[l|e] s']; [done|].
  destruct H as [(-> & Hclock & Hreq)|(He & Hsel & n & Hn & Hreq)].
  - destruct selenium_ready.
    + exists 3. cbn [length urls_to_try]. repeat split; try done; lia.
    + exists 0. rewrite Hreq. cbn [length urls_to_try]. repeat split; try done; lia.
  - exists n. cbn [length urls_to_try]. rewrite Hsel.
    repeat split; try done; try lia; congruence.
Qed.

End EnhancedScraper.

(** A run of the enhanced scraper with a browser session on listing pages
    with programme links: each of the two listing pages costs one reading
    of the clock, for the code of a record that is never built, and so
    does the fallback, which ends the run. *)
Example get_courses_live_example :
  LSEScraperFix.get_courses sample_urljoin all_urls_valid sample_clock browser_ok
    parse_programme_links true initial_effects
  = (Raise (OtherException "AttributeError"),
     {| clock_reads := 3;
        requests :=
          [ DriverGet "https://www.lse.ac.uk/study-at-lse/undergraduate/degree-programmes-2025";
            DriverGet "https://www.lse.ac.uk/study-at-lse/graduate/taught-programmes-2025";
            DriverGet "https://www.lse.ac.uk/programmes/search-courses" ] |}).
Proof. vm_compute. reflexivity. Qed.

(** ** The store *)

Section StoreFacts.
Import DatabaseManager.

Lemma select_all_length {V : Type} (table : gmap string V) :
  length (select_all table) = size table.
Proof.
  unfold select_all. rewrite length_fmap. apply length_map_to_list.
Qed.

Lemma filter_none {A : Type} (P : A -> Prop) `{!forall x, Decision (P x)} (l : list A) :
  (forall x, x ∈ l -> ~ P x) -> filter P l = [].
Proof.
  induction l as [|x l IH]; intros Hl; [done|].
  rewrite filter_cons_False by (apply Hl; by left).
  apply IH. intros y Hy. apply Hl. by right.
Qed.

(** A primary key holds at most one row: the rows under [k] are the row
    that the table maps [k] to. *)
Lemma rows_with_key_lookup {V : Type} (k : string) (table : gmap string V) (v : V) :
  table !! k = Some v -> rows_with_key k table = [v].
Proof.
  intros Hk. unfold rows_with_key.
  assert (filter (fun kv : string * V => kv.1 = k) (map_to_list table) ≡ₚ [(k, v)]) as Hp.
  { rewrite <- (map_to_list_delete table k v Hk).
    rewrite filter_cons_True by done.
    rewrite filter_none; [done|].
    intros [k' v'] Hin%elem_of_map_to_list Heq. simpl in Heq. subst k'.
    by rewrite lookup_delete_eq in Hin. }
  apply Permutation_singleton_r in Hp. by rewrite Hp.
Qed.

Lemma rows_with_key_none {V : Type} (k : string) (table : gmap string V) :
  table !! k = None -> rows_with_key k table = [].
Proof.
  intros Hk. unfold rows_with_key.
  rewrite filter_none; [done|].
  intros [k' v'] Hin%elem_of_map_to_list Heq. simpl in Heq. subst k'.
  congruence.
Qed.

(** *** Saving twice *)

Lemma save_university_twice (t1 t2 : string) (u : University.t) (db : database) :
  save_university t2 u (save_university t1 u db) = save_university t2 u db.
Proof. unfold save_university. simpl. by rewrite insert_insert_eq. Qed.

(** The table after the loop of [save_courses]: a code of the list maps to
    a row of the list, every other code is as before. *)
Lemma insert_courses_lookup_other (now : nat -> string) (i : nat) (courses : list Course.t)
  (table : gmap string course_row) (code : string) :
  code ∉ Course.degree_course_code <$> courses ->
  insert_courses now i courses table !! code = table !! code.
Proof.
  revert i table. induction courses as [|c courses IH]; intros i table Hnot; [done|].
  cbn [insert_courses]. rewrite fmap_cons, not_elem_of_cons in Hnot. destruct Hnot as [Hc Hnot].
  rewrite IH by done. by rewrite lookup_insert_ne.
Qed.

Lemma insert_courses_lookup_saved (now : nat -> string) (i : nat) (courses : list Course.t)
  (table : gmap string course_row) (c : Course.t) :
  c ∈ courses ->
  exists row : course_row,
    insert_courses now i courses table !! Course.degree_course_code c = Some row /\
    Course.degree_course_code (c_columns row) = Course.degree_course_code c /\
    c_columns row ∈ courses.
Proof.
  revert c i table. induction courses as [|c0 courses IH]; intros c i table Hin.
  { by apply elem_of_nil in Hin. }
  cbn [insert_courses].
  destruct (decide (Course.degree_course_code c ∈ Course.degree_course_code <$> courses))
    as [Hlater|Hlast].
  - apply list_elem_of_fmap in Hlater as (c' & Hcode & Hc').
    destruct (IH c' (S i) (<[Course.degree_course_code c0 :=
                              {| c_columns := c0; c_last_updated := now i |}]> table) Hc')
      as (row & Hrow & Hcol & Hmem).
    exists row. rewrite Hcode. split; [done|]. split; [done | by right].
  - rewrite insert_courses_lookup_other by done.
    apply elem_of_cons in Hin as [->|Hin].
    + rewrite lookup_insert_eq. eexists. split; [done|]. split; [done | by left].
    + exfalso. apply Hlast. apply list_elem_of_fmap. eauto.
Qed.

(** The first pass leaves no trace once the same list is saved again. *)
Lemma insert_courses_absorbs (now : nat -> string) (i : nat) (courses : list Course.t)
  (table table' : gmap string course_row) :
  (forall code, code ∉ Course.degree_course_code <$> courses ->
                table !! code = table' !! code) ->
  insert_courses now i courses table = insert_courses now i courses table'.
Proof.
  revert i table table'. induction courses as [|c courses IH]; intros i table table' Hagree.
  - apply map_eq. intros code. apply Hagree. rewrite fmap_nil. apply not_elem_of_nil.
  - cbn [insert_courses]. apply IH. intros code Hnot.
    destruct (decide (Course.degree_course_code c = code)) as [<-|Hne].
    + by rewrite !lookup_insert_eq.
    + rewrite !lookup_insert_ne by done. apply Hagree.
      rewrite fmap_cons, not_elem_of_cons. auto.
Qed.

Lemma save_courses_twice (n1 n2 : nat -> string) (courses : list Course.t) (db : database) :
  save_courses n2 courses (save_courses n1 courses db) = save_courses n2 courses db.
Proof.
  unfold save_courses. simpl. f_equal.
  apply insert_courses_absorbs. intros code Hnot.
  by apply insert_courses_lookup_other.
Qed.

End StoreFacts.

Section StoreClaims.
Import DatabaseManager.

Lemma insert_courses_ext (n1 n2 : nat -> string) (i : nat) (courses : list Course.t)
  (table : gmap string course_row) :
  (forall j, n1 j = n2 j) ->
  insert_courses n1 i courses table = insert_courses n2 i courses table.
Proof.
  intros Hn. revert i table. induction courses as [|c courses IH]; intros i table; [done|].
  cbn [insert_courses]. by rewrite Hn, IH.
Qed.

(** C5 (amended). Saving twice: for every institution record and every
    list of programme records, saving a second time leaves exactly one row
    under each saved identifier, and the state is the state after a single
    save made at the time of the second one; it is the state after the first
    save when both saves read the same time, and differs from it in the
    [last_updated] column of the saved rows otherwise. *)
Theorem save_twice_is_save_once :
  forall (t1 t2 : string) (n1 n2 : nat -> string) (u : University.t)
         (courses : list Course.t) (db : database),
    let db_u := save_university t2 u (save_university t1 u db) in
    let db_c := save_courses n2 courses (save_courses n1 courses db) in
    db_u = save_university t2 u db /\
    rows_with_key (University.university_id u) (universities db_u)
    = [{| u_columns := u; u_last_updated := t2 |}] /\
    size (universities db_u) = size (universities (save_university t1 u db)) /\
    db_c = save_courses n2 courses db /\
    (forall c, c ∈ courses ->
       exists row,
         rows_with_key (Course.degree_course_code c) (degree_courses db_c) = [row] /\
         Course.degree_course_code (c_columns row) = Course.degree_course_code c /\
         c_columns row ∈ courses) /\
    (t1 = t2 -> db_u = save_university t1 u db) /\
    ((forall i, n1 i = n2 i) -> db_c = save_courses n1 courses db).
Proof.
  intros t1 t2 n1 n2 u courses db db_u db_c. subst db_u db_c.
  rewrite save_university_twice, save_courses_twice.
  split; [done|]. split; [|split; [|split; [done|split; [|split]]]].
  - apply rows_with_key_lookup. cbn. apply lookup_insert_eq.
  - cbn [save_university universities]. by rewrite !map_size_insert.
  - intros c Hc.
    destruct (insert_courses_lookup_saved n2 0 courses (degree_courses db) c Hc)
      as (row & Hrow & Hcode & Hmem).
    exists row. split; [|done]. by apply rows_with_key_lookup.
  - by intros ->.
  - intros Hn. unfold save_courses. f_equal. symmetry. by apply insert_courses_ext.
Qed.

(** Saving the LSE record and one programme twice at the same second. *)
Lemma save_twice_same_second_witness :
  let u := LSEScraper.get_university_info in
  let c := sample_course "LSE_BSC_1" "BSc Economics" in
  let t := sample_timestamp 0 in
  save_university t u (save_university t u empty_database)
  = save_university t u empty_database /\
  save_courses (fun _ => t) [c] (save_courses (fun _ => t) [c] empty_database)
  = save_courses (fun _ => t) [c] empty_database /\
  rows_with_key "LSE"
    (universities (save_university t u (save_university t u empty_database)))
  = [{| u_columns := u; u_last_updated := t |}].
Proof.
  intros u c t.
  destruct (save_twice_is_save_once t t (fun _ => t) (fun _ => t) u [c] empty_database)
    as (_ & Hone & _ & _ & _ & Hu & Hc).
  split; [by apply Hu|]. split; [by apply Hc | exact Hone].
Defined.

(** C5, as stated, fails when the clock of the store has moved between the
    two saves: the row saved twice carries the time of the second save. *)
Lemma save_twice_later_counterexample :
  let u := LSEScraper.get_university_info in
  save_university (sample_timestamp 1) u
    (save_university (sample_timestamp 0) u empty_database)
  <> save_university (sample_timestamp 0) u empty_database.
Proof.
  intros u H.
  apply (f_equal (fun db => u_last_updated <$> universities db !! "LSE")) in H.
  unfold save_university in H. cbn [universities] in H.
  change (University.university_id u) with "LSE" in H.
  rewrite !lookup_insert_eq in H. discriminate H.
Qed.

(** *** Statistics *)

Lemma dict_loop_other {V : Type} (rows : list (string * V)) (d : gmap string V) (k : string) :
  k ∉ rows.*1 ->
  foldl (fun d kv => <[kv.1 := kv.2]> d) d rows !! k = d !! k.
Proof.
  revert d. induction rows as [|[k' v'] rows IH]; intros d Hk; [done|].
  rewrite fmap_cons, not_elem_of_cons in Hk. destruct Hk as [Hne Hk].
  cbn [foldl]. rewrite IH by done. by apply lookup_insert_ne.
Qed.

(** [dict] on rows with pairwise distinct keys: every row is found. *)
Lemma dict_lookup {V : Type} (rows : list (string * V)) (k : string) (v : V) :
  NoDup rows.*1 -> (k, v) ∈ rows -> dict rows !! k = Some v.
Proof.
  unfold dict. generalize (∅ : gmap string V).
  induction rows as [|[k' v'] rows IH]; intros d Hnd Hin.
  { by apply elem_of_nil in Hin. }
  rewrite fmap_cons in Hnd. apply NoDup_cons in Hnd as [Hk' Hnd].
  cbn [foldl]. apply elem_of_cons in Hin as [[= -> ->]|Hin].
  - rewrite dict_loop_other by done. apply lookup_insert_eq.
  - by apply IH.
Qed.

Lemma select_all_insert_fresh {V : Type} (table : gmap string V) (k : string) (v : V) :
  table !! k = None -> select_all (<[k := v]> table) ≡ₚ v :: select_all table.
Proof.
  intros Hk. unfold select_all. by rewrite map_to_list_insert.
Qed.

Lemma select_all_empty {V : Type} : select_all (∅ : gmap string V) = [].
Proof. unfold select_all. by rewrite map_to_list_empty. Qed.

(** C6 (amended). Statistics: on a fresh store, after saving two
    institutions [U1] and [U2] with different identifiers and different
    display names and three programmes with different codes that reference
    [U1], [get_statistics] reports 2 institutions, 3 programmes, and a
    grouping, keyed by display name, in which the name of [U1] has 3 and
    the name of [U2] has 0. *)
Theorem statistics_after_two_institutions :
  forall (t1 t2 : string) (now : nat -> string) (U1 U2 : University.t)
         (c1 c2 c3 : Course.t),
    University.university_id U1 <> University.university_id U2 ->
    University.university_name U1 <> University.university_name U2 ->
    NoDup (Course.degree_course_code <$> [c1; c2; c3]) ->
    Forall (fun c => Course.university_id c = University.university_id U1) [c1; c2; c3] ->
    let db := save_courses now [c1; c2; c3]
                (save_university t2 U2 (save_university t1 U1 empty_database)) in
    let stats := get_statistics db in
    stat_universities stats = 2 /\
    stat_courses stats = 3 /\
    by_university stats !! University.university_name U1 = Some 3 /\
    by_university stats !! University.university_name U2 = Some 0.
Proof.
  intros t1 t2 now U1 U2 c1 c2 c3 Hid Hname Hcodes Hrefs db stats.
  apply NoDup_cons in Hcodes as [H1 Hcodes]. apply NoDup_cons in Hcodes as [H2 _].
  rewrite !not_elem_of_cons in H1. rewrite not_elem_of_cons in H2.
  destruct H1 as (H12 & H13 & _). destruct H2 as (H23 & _).
  apply Forall_cons in Hrefs as [Hr1 Hrefs]. apply Forall_cons in Hrefs as [Hr2 Hrefs].
  apply Forall_cons in Hrefs as [Hr3 _].
  set (r1 := {| u_columns := U1; u_last_updated := t1 |}).
  set (r2 := {| u_columns := U2; u_last_updated := t2 |}).
  assert (select_all (universities db) ≡ₚ [r2; r1]) as Hunis.
  { subst db. cbn [save_courses save_university universities empty_database].
    rewrite select_all_insert_fresh.
    2:{ rewrite lookup_insert_ne by done. apply lookup_empty. }
    rewrite select_all_insert_fresh by apply lookup_empty.
    by rewrite select_all_empty. }
  set (k1 := {| c_columns := c1; c_last_updated := now 0 |}).
  set (k2 := {| c_columns := c2; c_last_updated := now 1 |}).
  set (k3 := {| c_columns := c3; c_last_updated := now 2 |}).
  assert (select_all (degree_courses db) ≡ₚ [k3; k2; k1]) as Hcourses.
  { subst db.
    cbn [save_courses save_university degree_courses empty_database insert_courses].
    rewrite select_all_insert_fresh.
    2:{ rewrite !lookup_insert_ne by done. apply lookup_empty. }
    rewrite select_all_insert_fresh.
    2:{ rewrite !lookup_insert_ne by done. apply lookup_empty. }
    rewrite select_all_insert_fresh by apply lookup_empty.
    by rewrite select_all_empty. }
  assert (course_count db (University.university_id U1) = 3) as Hcount1.
  { unfold course_count. rewrite Hcourses.
    rewrite !filter_cons_True by done. done. }
  assert (course_count db (University.university_id U2) = 0) as Hcount2.
  { unfold course_count. rewrite Hcourses.
    rewrite !filter_cons_False by (cbn; congruence). done. }
  subst stats. unfold get_statistics.
  cbn [stat_universities stat_courses by_university].
  split; [by rewrite (Permutation_length Hunis)|].
  split; [by rewrite (Permutation_length Hcourses)|].
  set (row := fun u : university_row =>
                (University.university_name (u_columns u),
                 course_count db (University.university_id (u_columns u)))).
  assert (row <$> select_all (universities db) ≡ₚ [row r2; row r1]) as Hrows.
  { by rewrite Hunis. }
  assert (NoDup (row <$> select_all (universities db)).*1) as Hnd.
  { rewrite Hrows. cbn. apply NoDup_cons. split; [|apply NoDup_singleton].
    rewrite list_elem_of_singleton. congruence. }
  split.
  - apply dict_lookup; [done|]. rewrite Hrows. subst row. cbn. rewrite Hcount1.
    right. by left.
  - apply dict_lookup; [done|]. rewrite Hrows. subst row. cbn. rewrite Hcount2.
    by left.
Qed.

(** C7. Export round trip: for every store, the document written by
    [export_to_json] and read back has a [universities] list and a
    [courses] list whose lengths are the institution count and the
    programme count that [get_statistics] reports for that store, which are
    the numbers of rows of the two tables. *)
Theorem export_round_trip_counts :
  forall (export_date output_file : string) (db : database) (files : gmap string json),
    exists doc : json,
      json_load output_file (export_to_json export_date output_file db files) = Some doc /\
      member_length "universities" doc = Some (stat_universities (get_statistics db)) /\
      member_length "courses" doc = Some (stat_courses (get_statistics db)) /\
      stat_universities (get_statistics db) = size (universities db) /\
      stat_courses (get_statistics db) = size (degree_courses db).
Proof.
  intros export_date output_file db files.
  exists (export_data export_date db).
  split.
  - unfold json_load, export_to_json. apply lookup_insert_eq.
  - unfold member_length, member, export_data; simpl.
    rewrite !length_fmap. repeat split; auto using select_all_length.
Qed.

Example export_example :
  let db := save_courses sample_timestamp
              [ sample_course "LSE_BSC_1" "BSc Economics";
                sample_course "LSE_BSC_2" "BSc Finance" ]
              (save_university (sample_timestamp 0) LSEScraper.get_university_info
                 empty_database) in
  (json_load "data/exports/json/university_data.json"
     (export_to_json "2025-09-01T12:00:00" "data/exports/json/university_data.json" db ∅)
   ≫= member_length "courses") = Some 2.
Proof. vm_compute. reflexivity. Qed.

(** The LSE with three programmes and Bologna with none. *)
Lemma statistics_after_two_institutions_witness :
  let db := save_courses sample_timestamp
              [ sample_course "LSE_BSC_1" "BSc Economics";
                sample_course "LSE_BSC_2" "BSc Finance";
                sample_course "LSE_MSC_3" "MSc Data Science" ]
              (save_university (sample_timestamp 1) BolognaScraper.get_university_info
                 (save_university (sample_timestamp 0) LSEScraper.get_university_info
                    empty_database)) in
  stat_universities (get_statistics db) = 2 /\
  stat_courses (get_statistics db) = 3 /\
  by_university (get_statistics db) !! "London School of Economics and Political Science"
  = Some 3 /\
  by_university (get_statistics db) !! "Università di Bologna" = Some 0.
Proof.
  apply (statistics_after_two_institutions
           (sample_timestamp 0) (sample_timestamp 1) sample_timestamp
           LSEScraper.get_university_info BolognaScraper.get_university_info
           (sample_course "LSE_BSC_1" "BSc Economics")
           (sample_course "LSE_BSC_2" "BSc Finance")
           (sample_course "LSE_MSC_3" "MSc Data Science")).
  - discriminate.
  - discriminate.
  - apply (bool_decide_unpack _). vm_compute. exact I.
  - repeat constructor.
Defined.

(** The grouping by institution is keyed by display name: two institutions
    with one name share one entry. *)
Example by_university_shared_name_example :
  let db := save_university (sample_timestamp 1) lse_namesake
              (save_university (sample_timestamp 0) LSEScraper.get_university_info
                 empty_database) in
  stat_universities (get_statistics db) = 2 /\
  size (by_university (get_statistics db)) = 1.
Proof. vm_compute. split; reflexivity. Qed.

(** C6, as stated, fails for two institutions that share a display name:
    the grouping has one entry for the name, which cannot be 3 for the
    first institution and 0 or absent for the second. *)
Lemma statistics_shared_name_counterexample :
  let db := save_courses sample_timestamp
              [ sample_course "LSE_BSC_1" "BSc Economics";
                sample_course "LSE_BSC_2" "BSc Finance";
                sample_course "LSE_MSC_3" "MSc Data Science" ]
              (save_university (sample_timestamp 1) lse_namesake
                 (save_university (sample_timestamp 0) LSEScraper.get_university_info
                    empty_database)) in
  let stats := get_statistics db in
  University.university_id LSEScraper.get_university_info
  <> University.university_id lse_namesake /\
  Forall (fun c => Course.university_id c
                   = University.university_id LSEScraper.get_university_info)
    [ sample_course "LSE_BSC_1" "BSc Economics";
      sample_course "LSE_BSC_2" "BSc Finance";
      sample_course "LSE_MSC_3" "MSc Data Science" ] /\
  stat_universities stats = 2 /\
  stat_courses stats = 3 /\
  size (by_university stats) = 1 /\
  ~ (by_university stats !! University.university_name LSEScraper.get_university_info
     = Some 3 /\
     (by_university stats !! University.university_name lse_namesake = Some 0 \/
      by_university stats !! University.university_name lse_namesake = None)).
Proof.
  intros db stats. split; [discriminate|]. split; [repeat constructor|].
  split; [vm_compute; reflexivity|]. split; [vm_compute; reflexivity|].
  split; [vm_compute; reflexivity|].
  change (University.university_name lse_namesake)
    with (University.university_name LSEScraper.get_university_info).
  intros [H3 [H0|H0]]; rewrite H3 in H0; discriminate H0.
Qed.

End StoreClaims.

(** ** Fetching a page *)

Section FetchPage.
Import UniversityScraper.




(** Whatever the outside world answers, [fetch_page] sends one request and
    propagates nothing that [except Exception] catches. *)
Lemma fetch_page_one_request (session_get : string -> result response)
  (driver_get : string -> result string) (BeautifulSoup : string -> result soup)
  (selenium_ready : bool) (url : string) (s : effects) :
  exists r : request,
    snd (fetch_page session_get driver_get BeautifulSoup selenium_ready url s)
    = {| clock_reads := clock_reads s; requests := requests s ++ [r] |}.
Proof.
  unfold fetch_page. unfold_monad. destruct selenium_ready; cbn.
  - exists (DriverGet url). destruct (driver_get url) as [html|e].
    + destruct (BeautifulSoup html) as [page|e]; [done|]. by destruct (is_Exception e).
    + by destruct (is_Exception e).
  - exists (SessionGet url). destruct (session_get url) as [r|e].
    + unfold raise_for_status. destruct (_ && _); [done|].
      cbn. destruct (BeautifulSoup (content r)) as [page|e]; [done|].
      by destruct (is_Exception e).
    + by destruct (is_Exception e).
Qed.

End FetchPage.

(** ** The orchestrator *)

Section Orchestrator.
Import DatabaseManager.
Variable CURRENT_TIMESTAMP : nat -> string.
Variable sqlite3_error : nat -> option exn.

Lemma call_outcome {A : Type} (Post : A -> world -> Prop) (Exc : exn -> world -> Prop)
  (m : M A) (w : world) :
  outcome
    (fun a e => Post a {| eff := e; store := store w; sqlite_calls := sqlite_calls w |})
    (fun x e => Exc x {| eff := e; store := store w; sqlite_calls := sqlite_calls w |})
    m (eff w) ->
  outcome Post Exc (call m) w.
Proof. unfold outcome, call. by destruct (m (eff w)) as [[a|e] e']. Qed.

Lemma sqlite_call_outcome (Post : unit -> world -> Prop) (Exc : exn -> world -> Prop)
  (w : world) :
  (forall w', eff w' = eff w -> store w' = store w -> Post tt w') ->
  (forall e w', (exists n, sqlite3_error n = Some e) ->
                eff w' = eff w -> store w' = store w -> Exc e w') ->
  outcome Post Exc (sqlite_call sqlite3_error) w.
Proof.
  intros HP HE. unfold outcome, sqlite_call.
  destruct (sqlite3_error (sqlite_calls w)) as [e|] eqn:Herr; [|by apply HP].
  apply HE; [by eexists|done..].
Qed.

Lemma with_connection_outcome {A : Type} (Post : A -> world -> Prop)
  (Exc : exn -> world -> Prop) (body : W A) (w : world) :
  outcome Post
    (fun e w' => Exc e {| eff := eff w'; store := store w; sqlite_calls := sqlite_calls w' |})
    (sqlite_call sqlite3_error ≫= fun _ => body) w ->
  outcome Post Exc (with_connection sqlite3_error body) w.
Proof.
  unfold outcome, with_connection.
  by destruct ((sqlite_call sqlite3_error ≫= fun _ => body) w) as [[a|e] w'].
Qed.

(** [save_university]: the row is there when the call returns; a failure
    of the connection, of the statement or of the commit leaves the store
    as it was. *)
Lemma db_save_university_outcome (uni_info : University.t) (w : world) :
  outcome
    (fun _ w' =>
       store w' = save_university (CURRENT_TIMESTAMP (clock_reads (eff w))) uni_info (store w)
       /\ requests (eff w') = requests (eff w))
    (fun e w' => store w' = store w /\ requests (eff w') = requests (eff w) /\
                 exists n, sqlite3_error n = Some e)
    (db_save_university CURRENT_TIMESTAMP sqlite3_error uni_info) w.
Proof.
  unfold db_save_university, execute_insert_university.
  apply with_connection_outcome, outcome_bind, sqlite_call_outcome;
    [|intros e w1 Herr He Hs; cbn; by rewrite He].
  intros w1 He1 Hs1. apply outcome_bind, outcome_bind, sqlite_call_outcome;
    [|intros e w2 Herr He Hs; cbn; by rewrite He, He1].
  intros w2 He2 Hs2. unfold outcome at 1, upsert_university.
  apply sqlite_call_outcome; cbn.
  - intros w3 -> ->. cbn. by rewrite He2, He1, Hs2, Hs1.
  - intros e w3 Herr -> _. cbn. by rewrite He2, He1.
Qed.

Lemma insert_courses_shift (now : nat -> string) (i : nat) (courses : list Course.t)
  (table : gmap string course_row) :
  insert_courses now (S i) courses table
  = insert_courses (fun j => now (S j)) i courses table.
Proof.
  revert i table. induction courses as [|c courses IH]; intros i table; [done|].
  cbn [insert_courses]. by rewrite IH.
Qed.

(** The statements of [save_courses], before the commit. *)
Lemma insert_loop_outcome (courses : list Course.t) (w : world) :
  outcome
    (fun _ w' =>
       store w' = save_courses (fun i => CURRENT_TIMESTAMP (clock_reads (eff w) + i)) courses
                    (store w)
       /\ requests (eff w') = requests (eff w))
    (fun e w' => requests (eff w') = requests (eff w) /\
                 exists n, sqlite3_error n = Some e)
    (for_each courses
       (fun course _ => execute_insert_course CURRENT_TIMESTAMP sqlite3_error course) tt) w.
Proof.
  revert w. induction courses as [|c courses IH]; intros w; cbn [for_each].
  - apply outcome_ret. by destruct (store w).
  - apply outcome_bind. unfold execute_insert_course.
    apply outcome_bind, sqlite_call_outcome; [|intros e w1 Herr He Hs; by rewrite He].
    intros w1 He1 Hs1. unfold outcome at 1, upsert_course.
    eapply outcome_weaken; [| |apply IH]; cbn.
    + intros [] w' [Hstore Hreq]. rewrite Hreq, He1. split; [|done].
      rewrite Hstore, Hs1, He1. unfold save_courses. cbn. f_equal.
      rewrite insert_courses_shift, Nat.add_0_r. apply insert_courses_ext.
      intros j. f_equal. lia.
    + intros e w' [Hreq Herr]. by rewrite Hreq, He1.
Qed.

(** [save_courses]: all the rows or none. *)
Lemma db_save_courses_outcome (courses : list Course.t) (w : world) :
  outcome
    (fun _ w' =>
       store w' = save_courses (fun i => CURRENT_TIMESTAMP (clock_reads (eff w) + i)) courses
                    (store w)
       /\ requests (eff w') = requests (eff w))
    (fun e w' => store w' = store w /\ requests (eff w') = requests (eff w) /\
                 exists n, sqlite3_error n = Some e)
    (db_save_courses CURRENT_TIMESTAMP sqlite3_error courses) w.
Proof.
  unfold db_save_courses.
  apply with_connection_outcome, outcome_bind, sqlite_call_outcome;
    [|intros e w1 Herr He Hs; cbn; by rewrite He].
  intros w1 He1 Hs1. apply outcome_bind.
  eapply outcome_weaken; [| |apply insert_loop_outcome]; cbn.
  - intros [] w2 [Hstore Hreq]. apply sqlite_call_outcome; cbn.
    + intros w3 -> ->. by rewrite Hstore, Hreq, He1, Hs1.
    + intros e w3 Herr -> _. by rewrite Hreq, He1.
  - intros e w2 [Hreq Herr]. by rewrite Hreq, He1.
Qed.

Lemma scrape_university_run (sc : scraper) (w w1 : world) (e : exn) :
  is_Exception e = true ->
  scrape_body CURRENT_TIMESTAMP sqlite3_error sc w = (Raise e, w1) ->
  scrape_university CURRENT_TIMESTAMP sqlite3_error sc w = (Return tt, w1).
Proof. intros He Hbody. unfold scrape_university, try_except. by rewrite Hbody, He. Qed.

Lemma scrape_university_no_Exception (sc : scraper) :
  propagates_no_Exception (scrape_university CURRENT_TIMESTAMP sqlite3_error sc).
Proof.
  unfold scrape_university. apply no_Exception_try_except.
  intros e. apply no_Exception_ret.
Qed.

(** The loop of [main] goes on to the remaining institutions once the
    scrape of the first one has returned, normally or through the
    handler. *)
Lemma main_loop_continues (universities : list string) (uni_name : string) (sc : scraper)
  (rest : list (string * scraper)) (w w' : world) :
  uni_name ∈ universities ->
  scrape_university CURRENT_TIMESTAMP sqlite3_error sc w = (Return tt, w') ->
  main_loop CURRENT_TIMESTAMP sqlite3_error universities ((uni_name, sc) :: rest) w
  = main_loop CURRENT_TIMESTAMP sqlite3_error universities rest w'.
Proof.
  intros Hin Hrun. unfold main_loop. cbn [for_each]. rewrite bind_run.
  rewrite bool_decide_eq_false_2 by (intros H; by apply H). by rewrite Hrun.
Qed.

(** The store after the [try] block, by the stage that the block has
    reached. *)
Lemma scrape_body_stages (sc : scraper) (w : world) :
  match scrape_body CURRENT_TIMESTAMP sqlite3_error sc w with
  | (r, w1) =>
      match (call (setup_selenium sc)
             ≫= fun _ => db_save_university CURRENT_TIMESTAMP sqlite3_error
                           (get_university_info sc)) w with
      | (Raise _, _) => store w1 = store w /\ exists e, r = Raise e
      | (Return _, w0) =>
          (exists t, store w0 = save_university t (get_university_info sc) (store w)) /\
          match r with
          | Raise _ => store w1 = store w0
          | Return _ =>
              exists (now : nat -> string) (l : list Course.t) (s s' : effects),
                get_courses sc s = (Return l, s') /\
                store w1 = save_courses now l (store w0)
          end
      end
  end.
Proof.
  unfold scrape_body. rewrite !bind_run.
  assert (outcome (fun _ w' => store w' = store w) (fun _ w' => store w' = store w)
            (call (setup_selenium sc)) w) as Hsetup.
  { apply call_outcome. unfold outcome.
    by destruct (setup_selenium sc (eff w)) as [[a|e0] e1]. }
  unfold outcome in Hsetup.
  destruct (call (setup_selenium sc) w) as [[[]|e0] w0] eqn:Hcall.
  2:{ split; [done|by eexists]. }
  rename Hsetup into Hs0. cbv zeta. rewrite bind_run.
  pose proof (db_save_university_outcome (get_university_info sc) w0) as Hsave.
  unfold outcome in Hsave.
  destruct (db_save_university _ _ _ w0) as [[[]|e1] w2].
  2:{ destruct Hsave as [Hs2 _]. split; [congruence|by eexists]. }
  destruct Hsave as [Hs2 _]. rewrite bind_run.
  assert (exists t, store w2 = save_university t (get_university_info sc) (store w)) as Ht
    by (eexists; by rewrite Hs2, Hs0).
  unfold call at 1.
  destruct (get_courses sc (eff w2)) as [[courses|e2] e3] eqn:Hcourses; [|done].
  destruct courses as [|c courses].
  - rewrite ret_run. split; [done|]. exists (fun _ => ""), [], (eff w2), e3.
    split; [done|]. cbn. by destruct (store w2).
  - pose proof (db_save_courses_outcome (c :: courses)
                  {| eff := e3; store := store w2; sqlite_calls := sqlite_calls w2 |})
      as Hsc.
    unfold outcome in Hsc.
    destruct (db_save_courses _ _ _ _) as [[[]|e4] w4].
    + destruct Hsc as [Hs4 _]. split; [done|].
      eexists _, (c :: courses), (eff w2), e3. split; [done|]. exact Hs4.
    + by destruct Hsc as [Hs4 _].
Qed.

End Orchestrator.

Section OrchestratorClaims.
Import DatabaseManager.

(** C3 (amended). Failure of one institution in the orchestrator: when the
    [try] block of a configured institution raises an exception derived
    from [Exception], the orchestrator catches it and goes on with the
    remaining institutions. The programmes saved before are left as they
    were, and so are the modules and the requirements. The institution row
    is left as it was when the failure comes before [save_university] has
    committed; when it comes later, in [get_courses] or in [save_courses],
    the row has already been replaced by the record of
    [get_university_info], stamped with the time of the save. *)
Theorem scrape_failure_is_contained :
  forall (CURRENT_TIMESTAMP : nat -> string) (sqlite3_error : nat -> option exn)
         (universities : list string) (uni_name : string) (sc : scraper)
         (rest : list (string * scraper)) (w w1 : world) (e : exn),
    uni_name ∈ universities ->
    is_Exception e = true ->
    scrape_body CURRENT_TIMESTAMP sqlite3_error sc w = (Raise e, w1) ->
    scrape_university CURRENT_TIMESTAMP sqlite3_error sc w = (Return tt, w1) /\
    main_loop CURRENT_TIMESTAMP sqlite3_error universities ((uni_name, sc) :: rest) w
    = main_loop CURRENT_TIMESTAMP sqlite3_error universities rest w1 /\
    degree_courses (store w1) = degree_courses (store w) /\
    learning_modules (store w1) = learning_modules (store w) /\
    admission_requirements (store w1) = admission_requirements (store w) /\
    match (call (setup_selenium sc)
           ≫= fun _ => db_save_university CURRENT_TIMESTAMP sqlite3_error
                         (get_university_info sc)) w with
    | (Raise _, _) => store w1 = store w
    | (Return _, w0) =>
        exists t : string,
          DatabaseManager.universities (store w1)
          = <[University.university_id (get_university_info sc) :=
                {| u_columns := get_university_info sc; u_last_updated := t |}]>
              (DatabaseManager.universities (store w))
    end.
Proof.
  intros CURRENT_TIMESTAMP sqlite3_error universities uni_name sc rest w w1 e Hin He Hbody.
  pose proof (scrape_university_run CURRENT_TIMESTAMP sqlite3_error sc w w1 e He Hbody)
    as Hrun.
  split; [exact Hrun|]. split; [by apply main_loop_continues|].
  pose proof (scrape_body_stages CURRENT_TIMESTAMP sqlite3_error sc w) as Hstages.
  rewrite Hbody in Hstages.
  destruct ((call (setup_selenium sc) ≫= _) w) as [[[]|e0] w0].
  - destruct Hstages as [[t Hs0] Hs1]. rewrite Hs1, Hs0. cbn.
    repeat split. by exists t.
  - destruct Hstages as [Hs1 _]. by rewrite Hs1.
Qed.

(** The scrape of Bologna on a store that does not exist yet, with a store
    that fails once: at the statement of [save_university], and at the
    first statement of [save_courses]. *)
Lemma scrape_failure_is_contained_witness :
  let sc := bologna sample_urljoin all_urls_valid sample_clock first_page_only no_driver
              parse_duplicate_links false false in
  (exists w1 : world,
     scrape_university sample_timestamp (sqlite_error_at 1) sc initial_world
     = (Return tt, w1) /\
     main_loop sample_timestamp (sqlite_error_at 1) ["bologna"] [("bologna", sc)]
       initial_world
     = main_loop sample_timestamp (sqlite_error_at 1) ["bologna"] [] w1 /\
     degree_courses (store w1) = degree_courses (store initial_world) /\
     learning_modules (store w1) = learning_modules (store initial_world) /\
     admission_requirements (store w1) = admission_requirements (store initial_world) /\
     store w1 = store initial_world) /\
  (exists w1 : world,
     scrape_university sample_timestamp (sqlite_error_at 4) sc initial_world
     = (Return tt, w1) /\
     main_loop sample_timestamp (sqlite_error_at 4) ["bologna"] [("bologna", sc)]
       initial_world
     = main_loop sample_timestamp (sqlite_error_at 4) ["bologna"] [] w1 /\
     degree_courses (store w1) = degree_courses (store initial_world) /\
     learning_modules (store w1) = learning_modules (store initial_world) /\
     admission_requirements (store w1) = admission_requirements (store initial_world) /\
     exists t : string,
       DatabaseManager.universities (store w1)
       = <[ "UNIBO" := {| u_columns := BolognaScraper.get_university_info;
                          u_last_updated := t |}]>
           (DatabaseManager.universities (store initial_world))).
Proof.
  intros sc. split.
  - eexists.
    apply (scrape_failure_is_contained sample_timestamp (sqlite_error_at 1) ["bologna"]
             "bologna" sc [] initial_world _ (OtherException "sqlite3.OperationalError")).
    + by left.
    + reflexivity.
    + vm_compute. reflexivity.
  - eexists.
    apply (scrape_failure_is_contained sample_timestamp (sqlite_error_at 4) ["bologna"]
             "bologna" sc [] initial_world _ (OtherException "sqlite3.OperationalError")).
    + by left.
    + reflexivity.
    + vm_compute. reflexivity.
Defined.

(** C3, as stated, fails for the institution row: on a store without the
    institution, a scrape of Bologna in which the first statement of
    [save_courses] fails leaves the institution row in the store. *)
Lemma failed_scrape_saves_institution_counterexample :
  let sc := bologna sample_urljoin all_urls_valid sample_clock first_page_only no_driver
              parse_duplicate_links false false in
  exists w1 : world,
    scrape_body sample_timestamp (sqlite_error_at 4) sc initial_world
    = (Raise (OtherException "sqlite3.OperationalError"), w1) /\
    scrape_university sample_timestamp (sqlite_error_at 4) sc initial_world
    = (Return tt, w1) /\
    DatabaseManager.universities (store initial_world) !! "UNIBO" = None /\
    DatabaseManager.universities (store w1) !! "UNIBO"
    = Some {| u_columns := BolognaScraper.get_university_info;
              u_last_updated := "2025-09-01 12:00:00" |} /\
    degree_courses (store w1) = ∅ /\
    store w1 <> store initial_world.
Proof.
  intros sc. eexists. split; [vm_compute; reflexivity|].
  split; [vm_compute; reflexivity|]. split; [reflexivity|].
  split; [vm_compute; reflexivity|]. split; [vm_compute; reflexivity|].
  intros H. apply (f_equal (fun db => DatabaseManager.universities db !! "UNIBO")) in H.
  vm_compute in H. discriminate H.
Qed.

End OrchestratorClaims.

(** ** Text normalisation *)

Section CleanText.
Import PyStr UniversityScraper.

(** The words of a string are words. *)
Lemma split_words (s : string) : Forall is_word (split s).
Proof.
  induction s as [|c s IH]; [constructor|].
  rewrite split_cons. destruct (is_space c) eqn:Hc; [done|].
  assert (is_word (String c "")) as Hone.
  { split; [done|]. simpl. by rewrite Hc. }
  destruct s as [|d s]; [by apply Forall_singleton|].
  destruct (is_space d) eqn:Hd; [by apply Forall_cons|].
  destruct (split (String d s)) as [|w ws]; [by apply Forall_singleton|].
  apply Forall_cons in IH as [[Hne Hw] Hws].
  apply Forall_cons. split; [|done]. split; [done|]. simpl. by rewrite Hc, Hw.
Qed.

(** A word followed by white space is the first word. *)
Lemma split_word_then_space (w rest : string) (sp : ascii) :
  is_word w -> is_space sp = true ->
  split (w +:+ String sp rest) = w :: split rest.
Proof.
  intros [Hne Hw] Hsp. induction w as [|c w IH]; [done|].
  simpl in Hw. apply andb_true_iff in Hw as [Hc Hw]. apply negb_true_iff in Hc.
  rewrite append_cons, split_cons, Hc. destruct w as [|d w].
  - rewrite append_nil_l, Hsp. by rewrite split_cons, Hsp.
  - rewrite append_cons. pose proof Hw as Hw'. simpl in Hw.
    apply andb_true_iff in Hw as [Hd _]. apply negb_true_iff in Hd. rewrite Hd.
    rewrite <- append_cons, IH by done. done.
Qed.

Lemma split_word (w : string) : is_word w -> split w = [w].
Proof.
  intros [Hne Hw]. induction w as [|c w IH]; [done|].
  simpl in Hw. apply andb_true_iff in Hw as [Hc Hw]. apply negb_true_iff in Hc.
  rewrite split_cons, Hc. destruct w as [|d w]; [done|].
  pose proof Hw as Hw'. simpl in Hw.
  apply andb_true_iff in Hw as [Hd _]. apply negb_true_iff in Hd. rewrite Hd.
  by rewrite IH.
Qed.

(** Joining words with one space and splitting again gives the words
    back. *)
Lemma split_join (ws : list string) : Forall is_word ws -> split (join " " ws) = ws.
Proof.
  induction ws as [|w [|y ws] IH]; intros Hws; [done| |].
  - apply Forall_cons in Hws as [Hw _]. by apply split_word.
  - apply Forall_cons in Hws as [Hw Hws].
    change (join " " (w :: y :: ws)) with (w +:+ String " " (join " " (y :: ws))).
    rewrite split_word_then_space by done. by rewrite IH.
Qed.

Lemma single_spaced_word (w : string) : no_space w = true -> single_spaced w = true.
Proof.
  induction w as [|c w IH]; [done|]. simpl. intros [Hc Hw]%andb_true_iff.
  apply negb_true_iff in Hc. rewrite Hc. by apply IH.
Qed.

Lemma single_spaced_app (w t : string) (d : ascii) :
  no_space w = true -> is_space d = false -> single_spaced (String d t) = true ->
  single_spaced (w +:+ String " " (String d t)) = true.
Proof.
  intros Hw Hd Ht. induction w as [|c w IH].
  - rewrite append_nil_l. cbn [single_spaced]. cbn [single_spaced] in Ht.
    rewrite Hd in *. by rewrite Ht.
  - simpl in Hw. apply andb_true_iff in Hw as [Hc Hw]. apply negb_true_iff in Hc.
    rewrite append_cons. cbn [single_spaced]. rewrite Hc. by apply IH.
Qed.

Lemma join_words_head (w : string) (ws : list string) :
  is_word w ->
  exists (c : ascii) (t : string), join " " (w :: ws) = String c t /\ is_space c = false.
Proof.
  intros [Hne Hw]. destruct w as [|c w]; [done|].
  simpl in Hw. apply andb_true_iff in Hw as [Hc _]. apply negb_true_iff in Hc.
  destruct ws as [|y ws].
  - by exists c, w.
  - exists c, (w +:+ String " " (join " " (y :: ws))). split; [|done].
    change (join " " (String c w :: y :: ws))
      with (String c w +:+ String " " (join " " (y :: ws))).
    by rewrite append_cons.
Qed.

Lemma normal_join (ws : list string) :
  Forall is_word ws -> normal_text (join " " ws) = true.
Proof.
  intros Hws. unfold normal_text. apply andb_true_iff. split.
  - destruct ws as [|w ws]; [done|]. apply Forall_cons in Hws as [Hw _].
    destruct (join_words_head w ws Hw) as (c & t & -> & Hc). by rewrite Hc.
  - induction ws as [|w [|y ws] IH]; [done| |].
    + apply Forall_cons in Hws as [[_ Hw] _]. by apply single_spaced_word.
    + apply Forall_cons in Hws as [[_ Hw] Hws].
      change (join " " (w :: y :: ws)) with (w +:+ String " " (join " " (y :: ws))).
      pose proof Hws as Hws'. apply Forall_cons in Hws' as [Hy _].
      destruct (join_words_head y ws Hy) as (d & t & Hj & Hd).
      specialize (IH Hws). rewrite Hj in IH |- *. by apply single_spaced_app.
Qed.

Lemma join_cons_head (c : ascii) (w : string) (ws : list string) :
  join " " (String c w :: ws) = String c (join " " (w :: ws)).
Proof. destruct ws as [|y ws]; [done|]. cbn [join]. by rewrite append_cons. Qed.

(** On a single-spaced text, joining the words gives the text back, but
    for one leading space. *)
Lemma join_split_single_spaced (s : string) :
  single_spaced s = true ->
  join " " (split s)
  = match s with
    | EmptyString => EmptyString
    | String c s' => if is_space c then s' else s
    end.
Proof.
  induction s as [|c s IH]; [done|].
  cbn [single_spaced]. rewrite split_cons. destruct (is_space c) eqn:Hc.
  - intros [[_ Hnext]%andb_true_iff Hs]%andb_true_iff.
    destruct s as [|d s]; [done|]. apply negb_true_iff in Hnext.
    rewrite IH by done. by rewrite Hnext.
  - cbn [andb]. intros Hs. destruct s as [|d s]; [done|].
    specialize (IH Hs). destruct (is_space d) eqn:Hd.
    + cbn [single_spaced] in Hs. rewrite Hd in Hs.
      apply andb_true_iff in Hs as [[Hsp Hnext]%andb_true_iff _].
      apply bool_decide_eq_true in Hsp. subst d.
      destruct s as [|e s]; [done|].
      destruct (split (String " " (String e s))) as [|w0 ws]; [discriminate IH|].
      change (join " " (String c "" :: w0 :: ws))
        with (String c "" +:+ String " " (join " " (w0 :: ws))).
      by rewrite IH.
    + destruct (split_head d s Hd) as (w0 & ws & rest & Hsplit & _).
      rewrite Hsplit in IH |- *. by rewrite join_cons_head, IH.
Qed.

Lemma clean_text_join (text : string) : clean_text text = join " " (split text).
Proof. by destruct text. Qed.

Lemma clean_text_normal (text : string) : normal_text (clean_text text) = true.
Proof. rewrite clean_text_join. apply normal_join, split_words. Qed.

Lemma clean_text_idempotent (text : string) :
  clean_text (clean_text text) = clean_text text.
Proof. rewrite !clean_text_join. by rewrite split_join by apply split_words. Qed.

(** X1. [clean_text] normalises: its result has no white space at either end
    and single plain spaces between words; cleaning again changes nothing;
    the words are those of the argument; and the texts it leaves as they
    are, are exactly the normalised ones. *)
Theorem clean_text_normalises :
  forall text : string,
    normal_text (clean_text text) = true /\
    clean_text (clean_text text) = clean_text text /\
    split (clean_text text) = split text /\
    (clean_text text = text <-> normal_text text = true).
Proof.
  intros text. rewrite !clean_text_join.
  pose proof (split_words text) as Hws.
  split; [by apply normal_join|]. split; [by rewrite split_join|].
  split; [by apply split_join|]. split.
  - intros <-. by apply normal_join.
  - unfold normal_text. intros [Hhead Hs]%andb_true_iff.
    rewrite join_split_single_spaced by done.
    destruct text as [|c text]; [done|]. apply negb_true_iff in Hhead. by rewrite Hhead.
Qed.

Example clean_text_normalises_example :
  clean_text "	 BSc   Accounting
 and  Finance " = "BSc Accounting and Finance" /\
  normal_text "BSc Accounting and Finance" = true /\
  normal_text "BSc  Accounting" = false /\
  normal_text " BSc" = false /\
  normal_text "BSc	Accounting" = false.
Proof. repeat split; reflexivity. Qed.

End CleanText.

(** ** Invariants of loops *)

Section LoopInvariants.
Context {W A T : Type}.

Lemma for_each_invariant (Inv : T -> W -> Prop) (xs : list A) (body : A -> T -> St W T)
  (acc r : T) (s s' : W) :
  (forall x a t a' t', Inv a t -> body x a t = (Return a', t') -> Inv a' t') ->
  Inv acc s -> for_each xs body acc s = (Return r, s') -> Inv r s'.
Proof.
  intros Hb. revert acc s. induction xs as [|x xs IH]; intros acc s Hinv; simpl.
  - by intros [= <- <-].
  - rewrite bind_run. destruct (body x acc s) as [[a|e] s0] eqn:Hx; [|discriminate].
    apply IH. by apply (Hb x acc s).
Qed.

Lemma for_each_break_invariant (Inv : T -> W -> Prop) (xs : list A)
  (body : A -> T -> St W (flow T)) (acc r : T) (s s' : W) :
  (forall x a t a' t', Inv a t -> body x a t = (Return (Continue a'), t') -> Inv a' t') ->
  (forall x a t a' t', Inv a t -> body x a t = (Return (Break a'), t') -> Inv a' t') ->
  Inv acc s -> for_each_break xs body acc s = (Return r, s') -> Inv r s'.
Proof.
  intros Hc Hb. revert acc s. induction xs as [|x xs IH]; intros acc s Hinv; simpl.
  - by intros [= <- <-].
  - rewrite bind_run. destruct (body x acc s) as [[[a|a]|e] s0] eqn:Hx; [| |discriminate].
    + apply IH. by apply (Hc x acc s).
    + intros [= <- <-]. by apply (Hb x acc s).
Qed.

End LoopInvariants.

Section Inversion.
Context {W A B : Type}.

Lemma bind_returns (m : St W A) (f : A -> St W B) (s s' : W) (b : B) :
  (m ≫= f) s = (Return b, s') ->
  exists (a : A) (s0 : W), m s = (Return a, s0) /\ f a s0 = (Return b, s').
Proof.
  rewrite bind_run. destruct (m s) as [[a|e] s0]; [|discriminate]. eauto.
Qed.

Lemma try_except_returns (m : St W A) (handler : exn -> St W A) (s s' : W) (a : A) :
  try_except m handler s = (Return a, s') ->
  m s = (Return a, s') \/
  exists (e : exn) (s0 : W),
    m s = (Raise e, s0) /\ is_Exception e = true /\ handler e s0 = (Return a, s').
Proof.
  unfold try_except. destruct (m s) as [[a0|e] s0]; [by left|].
  destruct (is_Exception e) eqn:He; [|discriminate]. right. by exists e, s0.
Qed.

End Inversion.

(** ** The scrapers of [university_scraper.py] *)

Section ListingScrapers.
Import PyStr UniversityScraper.
Variable urljoin : string -> string -> string.
Variable invalid_url : string -> bool.
Variable microsecond : nat -> N.
Variable session_get : string -> result response.
Variable driver_get : string -> result string.
Variable BeautifulSoup : string -> result soup.
Variable selenium_ready : bool.

(** [fetch_page] sends one request, whatever comes back. *)
Lemma fetch_page_effects (url : string) (s s' : effects) (r : result (option soup)) :
  fetch_page session_get driver_get BeautifulSoup selenium_ready url s = (r, s') ->
  s' = {| clock_reads := clock_reads s;
          requests := requests s ++ [request_for selenium_ready url] |}.
Proof.
  unfold fetch_page, request_for. unfold_monad. destruct selenium_ready; cbn.
  - destruct (driver_get url) as [html|e].
    + destruct (BeautifulSoup html) as [page|e]; [by intros [= _ <-]|].
      by destruct (is_Exception e); intros [= _ <-].
    + by destruct (is_Exception e); intros [= _ <-].
  - destruct (session_get url) as [resp|e].
    + unfold raise_for_status. destruct (_ && _); [by intros [= _ <-]|].
      cbn. destruct (BeautifulSoup (content resp)) as [page|e]; [by intros [= _ <-]|].
      by destruct (is_Exception e); intros [= _ <-].
    + by destruct (is_Exception e); intros [= _ <-].
Qed.

(** The outcome of the record constructors. *)
Lemma bologna_parse_outcome (item : element) (degree_type : string) (s : effects) :
  match BolognaScraper._parse_course_item urljoin invalid_url microsecond item degree_type s with
  | (Return (Some c), s') => bologna_record c /\ s' = tick s
  | (Return None, s') => s' = s
  | (Raise _, _) => False
  end.
Proof.
  assert (forall (name url : string) (ty : string) (yrs : Z) (code : string)
                 (c : Course.t),
             (ty, yrs) ∈ bologna_levels ->
             c = {| Course.degree_course_code := code;
                    Course.degree_course_name := clean_text name;
                    Course.degree_course_language := "English";
                    Course.degree_course_period_years := yrs;
                    Course.degree_course_type := ty;
                    Course.programme_access := "Open access";
                    Course.academic_year := "2025/2026";
                    Course.course_area := BolognaScraper._determine_area (clean_text name);
                    Course.remote_mode := "In-person";
                    Course.tuition_fees := "€2,925 - €3,295";
                    Course.website_university := BolognaScraper.base_url;
                    Course.website_course := url;
                    Course.university_id := BolognaScraper.university_id |} ->
             bologna_record c) as Hrecord.
  { intros name url ty yrs code c Hlevel ->. split; [exact Hlevel|].
    split; [done|]. split; [done|]. apply clean_text_normal. }
  assert (("Bachelor's Degree", 3%Z) ∈ bologna_levels /\
          ("Master's Degree", 2%Z) ∈ bologna_levels) as [Hb Hm].
  { unfold bologna_levels. rewrite !elem_of_cons. auto. }
  unfold BolognaScraper._parse_course_item, urljoin_href.
  destruct (bool_decide (tag_name (el_tag item) = "a")).
  - destruct (invalid_url (get_href (el_tag item))); unfold_monad; [done|].
    destruct (bool_decide (degree_type = "first_cycle"));
      (split; [|reflexivity]);
      (eapply Hrecord; [|reflexivity]; first [exact Hb|exact Hm]).
  - destruct (el_find ["a"] item) as [link|]; [|by unfold_monad].
    destruct (invalid_url (get_href link)); unfold_monad; [done|].
    destruct (bool_decide (degree_type = "first_cycle"));
      (split; [|reflexivity]);
      (eapply Hrecord; [|reflexivity]; first [exact Hb|exact Hm]).
Qed.

Lemma lse_parse_outcome (item : element) (s : effects) :
  match LSEScraper._parse_course_item urljoin invalid_url microsecond item s with
  | (Return (Some c), s') => original_lse_record c /\ s' = tick s
  | (Return None, s') => s' = s
  | (Raise _, _) => False
  end.
Proof.
  unfold LSEScraper._parse_course_item, urljoin_href.
  destruct (el_find ["h2"; "h3"; "h4"] item) as [title_elem|]; [|by unfold_monad].
  set (name := clean_text (tag_text title_elem)).
  assert (forall ty yrs,
             (if contains "BSc" name || contains "BA" name then ("Bachelor's Degree", 3%Z)
              else if contains "MSc" name || contains "MA" name then ("Master's Degree", 1%Z)
                   else ("Other", 1%Z)) = (ty, yrs) ->
             (ty, yrs) ∈ original_lse_levels) as Hlevel.
  { intros ty yrs <-. unfold original_lse_levels. rewrite !elem_of_cons.
    destruct (_ || _); [auto|]. destruct (_ || _); auto. }
  destruct (if contains "BSc" name || contains "BA" name then _ else _)
    as [course_type years].
  specialize (Hlevel course_type years eq_refl).
  destruct (el_find ["a"] item) as [link|].
  - destruct (invalid_url (get_href link)); unfold_monad; [done|]. cbn.
    split; [|done]. split; [exact Hlevel|]. split; [done|]. split; [done|].
    apply clean_text_normal.
  - unfold_monad. cbn. split; [|done]. split; [exact Hlevel|]. split; [done|].
    split; [done|]. apply clean_text_normal.
Qed.

(** The items loop: records of the scraper are added, the requests stay,
    and the clock is read once per record added. *)
Lemma items_loop_effects (P : Course.t -> Prop) (parse : element -> M (option Course.t))
  (items : list element) (courses r : list Course.t) (s s' : effects) :
  (forall item t,
     match parse item t with
     | (Return (Some c), t') => P c /\ t' = tick t
     | (Return None, t') => t' = t
     | (Raise _, _) => False
     end) ->
  Forall P courses ->
  for_each items
    (fun item courses => course_data ← parse item; ret (append_if courses course_data))
    courses s = (Return r, s') ->
  Forall P r /\ requests s' = requests s /\
  clock_reads s' + length courses = clock_reads s + length r.
Proof.
  intros Hparse Hcourses Hrun.
  apply (for_each_invariant
           (fun a t => Forall P a /\ requests t = requests s /\
                       clock_reads t + length courses = clock_reads s + length a))
    in Hrun; [done| |done].
  intros item a t a' t' (Ha & Hreq & Hclock) Hstep.
  apply bind_returns in Hstep as (o & t0 & Hp & Hret).
  injection Hret as <- <-. specialize (Hparse item t). rewrite Hp in Hparse.
  destruct o as [c|].
  - destruct Hparse as [Hc ->]. cbn [append_if tick requests clock_reads].
    rewrite Forall_app, Forall_singleton, length_app. cbn [length].
    split; [done|]. split; [done|]. lia.
  - subst t0. done.
Qed.

(** One listing page of the Bologna site. *)
Lemma bologna_page_step (degree_type url_path : string) (courses r : list Course.t)
  (s s' : effects) :
  Forall bologna_record courses ->
  (page ← fetch_page session_get driver_get BeautifulSoup selenium_ready
            (urljoin BolognaScraper.base_url url_path);
   match page with
   | None => ret courses
   | Some page =>
       for_each
         (firstn 10 (list_or (find_all_class page "div" "course-item")
                             (find_all_a_study_degree page)))
         (fun item courses =>
            course_data ← BolognaScraper._parse_course_item urljoin invalid_url microsecond item
                            degree_type;
            ret (append_if courses course_data))
         courses
   end) s = (Return r, s') ->
  Forall bologna_record r /\
  requests s'
  = requests s ++ [request_for selenium_ready (urljoin BolognaScraper.base_url url_path)] /\
  clock_reads s' + length courses = clock_reads s + length r.
Proof.
  intros Hcourses Hrun.
  apply bind_returns in Hrun as (page & s0 & Hfetch & Hrun).
  apply fetch_page_effects in Hfetch. subst s0.
  destruct page as [page|].
  - apply (items_loop_effects bologna_record) in Hrun as (Hr & Hreq & Hclock); [done| |done].
    intros item t. apply bologna_parse_outcome.
  - by injection Hrun as <- <-.
Qed.

(** Neither scraper propagates an exception derived from [Exception]. *)
Lemma listing_scrapers_safe (s : effects) :
  match BolognaScraper.get_courses urljoin invalid_url microsecond session_get driver_get
          BeautifulSoup selenium_ready s with
  | (Return _, _) => True
  | (Raise e, _) => is_Exception e = false
  end /\
  match LSEScraper.get_courses urljoin invalid_url microsecond session_get driver_get
          BeautifulSoup selenium_ready s with
  | (Return _, _) => True
  | (Raise e, _) => is_Exception e = false
  end.
Proof.
  split.
  - destruct (BolognaScraper.get_courses _ _ _ _ _ _ _ s) as [[l|e] s'] eqn:Hrun; [done|].
    revert Hrun. unfold BolognaScraper.get_courses.
    apply no_Exception_for_each. intros [degree_type url_path] a.
    apply no_Exception_bind; [apply fetch_page_no_Exception|].
    intros [page|]; [|apply no_Exception_ret].
    apply items_loop_no_Exception. intros item. apply bologna_parse_returns.
  - destruct (LSEScraper.get_courses _ _ _ _ _ _ _ s) as [[l|e] s'] eqn:Hrun; [done|].
    revert Hrun. unfold LSEScraper.get_courses.
    apply no_Exception_bind; [apply fetch_page_no_Exception|].
    intros [page|]; [|apply no_Exception_ret].
    apply items_loop_no_Exception. intros item. apply lse_parse_returns.
Qed.

Lemma bologna_records (s s' : effects) (l : list Course.t) :
  BolognaScraper.get_courses urljoin invalid_url microsecond session_get driver_get
    BeautifulSoup selenium_ready s = (Return l, s') ->
  Forall bologna_record l.
Proof.
  intros Hrun. unfold BolognaScraper.get_courses in Hrun.
  apply (for_each_invariant (fun a _ => Forall bologna_record a)) in Hrun; [done| |done].
  intros [degree_type url_path] a t a' t' Ha Hstep.
  by apply bologna_page_step in Hstep as [? _].
Qed.

Lemma original_lse_records (s s' : effects) (l : list Course.t) :
  LSEScraper.get_courses urljoin invalid_url microsecond session_get driver_get
    BeautifulSoup selenium_ready s = (Return l, s') ->
  Forall original_lse_record l.
Proof.
  intros Hrun. unfold LSEScraper.get_courses in Hrun.
  apply bind_returns in Hrun as (page & s0 & _ & Hrun).
  destruct page as [page|]; [|by injection Hrun as <- <-].
  apply (items_loop_effects original_lse_record) in Hrun as [? _]; [done| |done].
  intros item t. apply lse_parse_outcome.
Qed.

(** X4. The records of the two scrapers of [university_scraper.py]: every
    record that [get_courses] returns carries the scraper's institution, a
    degree level and duration of the scraper's own list (Bologna: bachelor's
    3 or master's 2; LSE: bachelor's 3, master's 1 or 'Other' 1), the
    subject area of its own name, and a normalised name. *)
Theorem listing_scrapers_records :
  forall s : effects,
    match BolognaScraper.get_courses urljoin invalid_url microsecond session_get driver_get
            BeautifulSoup selenium_ready s with
    | (Return l, _) => Forall bologna_record l
    | (Raise e, _) => is_Exception e = false
    end /\
    match LSEScraper.get_courses urljoin invalid_url microsecond session_get driver_get
            BeautifulSoup selenium_ready s with
    | (Return l, _) => Forall original_lse_record l
    | (Raise e, _) => is_Exception e = false
    end.
Proof.
  intros s. pose proof (listing_scrapers_safe s) as [HB HL]. split.
  - destruct (BolognaScraper.get_courses _ _ _ _ _ _ _ s) as [[l|e] s'] eqn:Hrun; [|done].
    by apply bologna_records in Hrun.
  - destruct (LSEScraper.get_courses _ _ _ _ _ _ _ s) as [[l|e] s'] eqn:Hrun; [|done].
    by apply original_lse_records in Hrun.
Qed.

Lemma bologna_effects (s s' : effects) (l : list Course.t) :
  BolognaScraper.get_courses urljoin invalid_url microsecond session_get driver_get
    BeautifulSoup selenium_ready s = (Return l, s') ->
  requests s'
  = requests s ++
    [ request_for selenium_ready
        (urljoin BolognaScraper.base_url "/en/study/first-and-single-cycle-degree");
      request_for selenium_ready
        (urljoin BolognaScraper.base_url "/en/study/second-cycle-degree") ] /\
  clock_reads s' = clock_reads s + length l.
Proof.
  intros Hrun.
  unfold BolognaScraper.get_courses, BolognaScraper.urls in Hrun. cbn [for_each] in Hrun.
  apply bind_returns in Hrun as (a1 & s1 & H1 & Hrun).
  apply bind_returns in Hrun as (a2 & s2 & H2 & Hrun).
  injection Hrun as <- <-.
  apply bologna_page_step in H1 as (Hr1 & Hreq1 & Hclock1); [|done].
  apply bologna_page_step in H2 as (Hr2 & Hreq2 & Hclock2); [|done].
  rewrite Hreq2, Hreq1, <- app_assoc. cbn [length] in Hclock1.
  split; [done | lia].
Qed.

Lemma original_lse_effects (s s' : effects) (l : list Course.t) :
  LSEScraper.get_courses urljoin invalid_url microsecond session_get driver_get
    BeautifulSoup selenium_ready s = (Return l, s') ->
  requests s'
  = requests s ++
    [ request_for selenium_ready (urljoin LSEScraper.base_url "/programmes/search-courses") ] /\
  clock_reads s' = clock_reads s + length l.
Proof.
  intros Hrun. unfold LSEScraper.get_courses in Hrun.
  apply bind_returns in Hrun as (page & s0 & Hfetch & Hrun).
  apply fetch_page_effects in Hfetch. subst s0.
  destruct page as [page|].
  - apply (items_loop_effects original_lse_record) in Hrun as (_ & Hreq & Hclock);
      [| intros item t; apply lse_parse_outcome | done].
    cbn [length requests clock_reads] in Hreq, Hclock. split; [done | lia].
  - injection Hrun as <- <-. cbn. split; [done | lia].
Qed.

(** X5. The effects of the two scrapers of [university_scraper.py]: a scrape
    that returns has sent one request per listing URL, in order, two for
    Bologna and one for the LSE, through the browser when the session is
    ready and through the HTTP session otherwise, and has read the clock
    once per record returned. *)
Theorem listing_scrapers_effects :
  forall s : effects,
    match BolognaScraper.get_courses urljoin invalid_url microsecond session_get driver_get
            BeautifulSoup selenium_ready s with
    | (Return l, s') =>
        requests s'
        = requests s ++
          [ request_for selenium_ready
              (urljoin BolognaScraper.base_url "/en/study/first-and-single-cycle-degree");
            request_for selenium_ready
              (urljoin BolognaScraper.base_url "/en/study/second-cycle-degree") ] /\
        clock_reads s' = clock_reads s + length l
    | (Raise e, _) => is_Exception e = false
    end /\
    match LSEScraper.get_courses urljoin invalid_url microsecond session_get driver_get
            BeautifulSoup selenium_ready s with
    | (Return l, s') =>
        requests s'
        = requests s ++
          [ request_for selenium_ready
              (urljoin LSEScraper.base_url "/programmes/search-courses") ] /\
        clock_reads s' = clock_reads s + length l
    | (Raise e, _) => is_Exception e = false
    end.
Proof.
  intros s. pose proof (listing_scrapers_safe s) as [HB HL]. split.
  - destruct (BolognaScraper.get_courses _ _ _ _ _ _ _ s) as [[l|e] s'] eqn:Hrun; [|done].
    by apply bologna_effects.
  - destruct (LSEScraper.get_courses _ _ _ _ _ _ _ s) as [[l|e] s'] eqn:Hrun; [|done].
    by apply original_lse_effects.
Qed.

End ListingScrapers.

Example listing_scrapers_effects_example :
  snd (BolognaScraper.get_courses sample_urljoin all_urls_valid sample_clock first_page_only no_driver
         parse_duplicate_links false initial_effects)
  = {| clock_reads := 2;
       requests :=
         [ SessionGet "https://www.unibo.it/en/study/first-and-single-cycle-degree";
           SessionGet "https://www.unibo.it/en/study/second-cycle-degree" ] |}.
Proof. vm_compute. reflexivity. Qed.

(** ** The store: what a save leaves behind *)

Section StoreContents.
Import DatabaseManager.

Lemma insert_courses_last (now : nat -> string) (courses : list Course.t) (i k : nat)
  (c : Course.t) (table : gmap string course_row) :
  last_with_code courses i c ->
  insert_courses now k courses table !! Course.degree_course_code c
  = Some {| c_columns := c; c_last_updated := now (k + i) |}.
Proof.
  revert i k table. induction courses as [|c0 courses IH]; intros i k table [Hi Hlast].
  { by rewrite lookup_nil in Hi. }
  cbn [insert_courses]. destruct i as [|i].
  - injection Hi as ->. rewrite insert_courses_lookup_other.
    + rewrite Nat.add_0_r. apply lookup_insert_eq.
    + intros Hin. apply list_elem_of_fmap in Hin as (c' & Hcode & Hc').
      apply list_elem_of_lookup in Hc' as [j Hj].
      by apply (Hlast (S j) c'); [lia|..].
  - replace (k + S i) with (S k + i) by lia. apply IH. split; [done|].
    intros j c' Hij Hj. apply (Hlast (S j) c'); [lia|done].
Qed.

Lemma insert_courses_dom (now : nat -> string) (courses : list Course.t) (k : nat)
  (table : gmap string course_row) :
  dom (insert_courses now k courses table) = dom table ∪ list_to_set (codes courses).
Proof.
  revert k table. induction courses as [|c courses IH]; intros k table.
  - cbn. by rewrite union_empty_r_L.
  - cbn [insert_courses]. rewrite IH, dom_insert_L. unfold codes. rewrite fmap_cons.
    cbn [list_to_set]. by rewrite (comm_L (∪) {[_]} (dom table)), (assoc_L (∪)).
Qed.

Lemma size_list_to_set_le (l : list string) :
  size (list_to_set l : gset string) <= length l.
Proof.
  induction l as [|x l IH]; [done|].
  cbn [list_to_set length]. rewrite size_union_alt, size_singleton.
  assert (size (list_to_set l ∖ {[x]} : gset string) <= size (list_to_set l : gset string))
    by (by apply subseteq_size, subseteq_difference_l).
  lia.
Qed.

(** X7. Last write wins: after [save_courses], the row found under the code of
    a saved record holds the last record of the list with that code, stamped
    with the time of its own insert. *)
Theorem save_courses_last_wins :
  forall (now : nat -> string) (courses : list Course.t) (db : database)
         (i : nat) (c : Course.t),
    last_with_code courses i c ->
    degree_courses (save_courses now courses db) !! Course.degree_course_code c
    = Some {| c_columns := c; c_last_updated := now i |}.
Proof.
  intros now courses db i c Hlast. unfold save_courses. cbn [degree_courses].
  by rewrite (insert_courses_last now courses i 0 c).
Qed.

(** X8. The rows after [save_courses]: the codes of the table are the old codes
    and the codes of the saved records; the number of programmes that
    [get_statistics] then reports is the number of those distinct codes,
    whatever the length of the list; the rows under other codes, and the
    count of institutions, are as before. *)
Theorem save_courses_row_count :
  forall (now : nat -> string) (courses : list Course.t) (db : database),
    dom (degree_courses (save_courses now courses db))
    = dom (degree_courses db) ∪ list_to_set (codes courses) /\
    stat_courses (get_statistics (save_courses now courses db))
    = size (dom (degree_courses db) ∪ list_to_set (codes courses) : gset string) /\
    stat_courses (get_statistics (save_courses now courses db))
    <= stat_courses (get_statistics db) + length courses /\
    stat_universities (get_statistics (save_courses now courses db))
    = stat_universities (get_statistics db) /\
    (forall code : string,
        code ∉ codes courses ->
        degree_courses (save_courses now courses db) !! code = degree_courses db !! code).
Proof.
  intros now courses db.
  assert (dom (degree_courses (save_courses now courses db))
          = dom (degree_courses db) ∪ list_to_set (codes courses)) as Hdom
    by apply insert_courses_dom.
  assert (stat_courses (get_statistics (save_courses now courses db))
          = size (dom (degree_courses db) ∪ list_to_set (codes courses) : gset string))
    as Hsize.
  { cbn [get_statistics stat_courses]. by rewrite select_all_length, <- size_dom, Hdom. }
  split; [exact Hdom|]. split; [exact Hsize|]. split; [|split; [done|]].
  - rewrite Hsize. cbn [get_statistics stat_courses].
    rewrite select_all_length, <- size_dom, size_union_alt.
    pose proof (size_list_to_set_le (codes courses)) as Hle.
    unfold codes in Hle at 2. rewrite length_fmap in Hle.
    assert (size (list_to_set (codes courses) ∖ dom (degree_courses db) : gset string)
            <= size (list_to_set (codes courses) : gset string))
      by (by apply subseteq_size, subseteq_difference_l).
    lia.
  - intros code Hcode. by apply insert_courses_lookup_other.
Qed.

Lemma save_courses_last_wins_witness :
  degree_courses
    (save_courses sample_timestamp
       [sample_course "LSE_BSC_1" "BSc Economics"; sample_course "LSE_BSC_1" "BSc Finance"]
       empty_database)
  !! "LSE_BSC_1"
  = Some {| c_columns := sample_course "LSE_BSC_1" "BSc Finance";
            c_last_updated := sample_timestamp 1 |}.
Proof.
  apply (save_courses_last_wins sample_timestamp
           [sample_course "LSE_BSC_1" "BSc Economics"; sample_course "LSE_BSC_1" "BSc Finance"]
           empty_database 1 (sample_course "LSE_BSC_1" "BSc Finance")).
  split; [reflexivity|].
  intros [|[|j]] c' Hlt Hj; [lia|lia|discriminate Hj].
Defined.

(** X9. Two records of the original LSE scraper whose names agree on the
    first four characters, up to case, and that are built at instants with
    the same sub-second part get the same code; saved together they leave
    one row, that of the second. *)
Theorem same_prefix_same_instant_one_row :
  forall (urljoin : string -> string -> string) (invalid_url : string -> bool)
         (microsecond : nat -> N) (item1 item2 : element) (title1 title2 : tag)
         (s1 s2 : effects),
    el_find ["h2"; "h3"; "h4"] item1 = Some title1 ->
    el_find ["h2"; "h3"; "h4"] item2 = Some title2 ->
    (forall link, el_find ["a"] item1 = Some link -> invalid_url (get_href link) = false) ->
    (forall link, el_find ["a"] item2 = Some link -> invalid_url (get_href link) = false) ->
    PyStr.upper (PyStr.take 4 (UniversityScraper.clean_text (tag_text title1)))
    = PyStr.upper (PyStr.take 4 (UniversityScraper.clean_text (tag_text title2))) ->
    microsecond (clock_reads s1) = microsecond (clock_reads s2) ->
    exists (c1 c2 : Course.t) (s1' s2' : effects),
      LSEScraper._parse_course_item urljoin invalid_url microsecond item1 s1
      = (Return (Some c1), s1') /\
      LSEScraper._parse_course_item urljoin invalid_url microsecond item2 s2
      = (Return (Some c2), s2') /\
      Course.degree_course_code c1 = Course.degree_course_code c2 /\
      forall (now : nat -> string) (db : database),
        degree_courses (save_courses now [c1; c2] db) !! Course.degree_course_code c1
        = Some {| c_columns := c2; c_last_updated := now 1 |} /\
        dom (degree_courses (save_courses now [c1; c2] db))
        = dom (degree_courses db) ∪ {[Course.degree_course_code c1]}.
Proof.
  intros urljoin invalid_url microsecond item1 item2 title1 title2 s1 s2
    Ht1 Ht2 Hv1 Hv2 Hprefix Hinstant.
  destruct (parse_course_item_run urljoin invalid_url microsecond item1 title1 s1 Ht1 Hv1)
    as (c1 & Hrun1 & _ & _ & Hcode1).
  destruct (parse_course_item_run urljoin invalid_url microsecond item2 title2 s2 Ht2 Hv2)
    as (c2 & Hrun2 & _ & _ & Hcode2).
  assert (Course.degree_course_code c1 = Course.degree_course_code c2) as Hsame
    by (by rewrite Hcode1, Hcode2, Hprefix, Hinstant).
  exists c1, c2. do 2 eexists. split; [exact Hrun1|]. split; [exact Hrun2|].
  split; [exact Hsame|]. intros now db. split.
  - unfold save_courses. cbn [degree_courses insert_courses].
    rewrite Hsame. apply lookup_insert_eq.
  - unfold save_courses. cbn [degree_courses insert_courses].
    rewrite !dom_insert_L, Hsame, (assoc_L (∪)), union_idemp_L. apply (comm_L (∪)).
Qed.

Lemma same_prefix_same_instant_one_row_witness :
  exists (c1 c2 : Course.t) (s1' s2' : effects),
    LSEScraper._parse_course_item sample_urljoin all_urls_valid wrapping_microsecond
      (heading_item "BSc Economics") {| clock_reads := 5; requests := [] |}
    = (Return (Some c1), s1') /\
    LSEScraper._parse_course_item sample_urljoin all_urls_valid wrapping_microsecond
      (heading_item "BSc Finance") {| clock_reads := N.to_nat 1000005; requests := [] |}
    = (Return (Some c2), s2') /\
    Course.degree_course_code c1 = Course.degree_course_code c2 /\
    forall (now : nat -> string) (db : database),
      degree_courses (save_courses now [c1; c2] db) !! Course.degree_course_code c1
      = Some {| c_columns := c2; c_last_updated := now 1 |} /\
      dom (degree_courses (save_courses now [c1; c2] db))
      = dom (degree_courses db) ∪ {[Course.degree_course_code c1]}.
Proof.
  apply (same_prefix_same_instant_one_row sample_urljoin all_urls_valid wrapping_microsecond
           (heading_item "BSc Economics") (heading_item "BSc Finance")
           {| tag_name := "h3"; tag_text := "BSc Economics"; tag_href := None |}
           {| tag_name := "h3"; tag_text := "BSc Finance"; tag_href := None |}
           {| clock_reads := 5; requests := [] |}
           {| clock_reads := N.to_nat 1000005; requests := [] |}).
  - reflexivity.
  - reflexivity.
  - reflexivity.
  - reflexivity.
  - vm_compute. reflexivity.
  - vm_compute. reflexivity.
Defined.

(** *** The groupings of [get_statistics] *)

Lemma dict_lookup_none {V : Type} (rows : list (string * V)) (k : string) :
  k ∉ rows.*1 -> dict rows !! k = None.
Proof. intros Hk. unfold dict. by rewrite dict_loop_other. Qed.

Lemma area_counts_keys (rows : list course_row) :
  (area_counts rows).*1 = remove_dups ((fun c => Course.course_area (c_columns c)) <$> rows).
Proof.
  unfold area_counts. rewrite <- list_fmap_compose. apply list_fmap_id.
Qed.

Lemma filter_length_zero {A : Type} (P : A -> Prop) `{!forall x, Decision (P x)}
  (l : list A) :
  length (filter P l) = 0 <-> forall x, x ∈ l -> ~ P x.
Proof.
  split.
  - intros Hlen x Hx HP. apply length_zero_iff_nil in Hlen.
    assert (x ∈ filter P l) as Hin by (by apply list_elem_of_filter).
    rewrite Hlen in Hin. by apply elem_of_nil in Hin.
  - intros Hno. by rewrite filter_none.
Qed.

(** [by_university] of [get_statistics]: its keys are the display names of
    the institutions of the store. *)
Lemma by_university_keys (db : database) :
  ((fun u => (University.university_name (u_columns u),
              course_count db (University.university_id (u_columns u))))
     <$> select_all (universities db)).*1
  = institution_names db.
Proof. unfold institution_names. by rewrite <- list_fmap_compose. Qed.

(** X10. [by_university] of [get_statistics] when the institutions of the store
    have pairwise distinct display names: every institution has its entry,
    with the number of programmes that carry its identifier, and no other
    name has one. *)
Theorem by_university_distinct_names :
  forall (db : database),
    NoDup (institution_names db) ->
    forall name : string,
      by_university (get_statistics db) !! name
      = (fun u => course_count db (University.university_id (u_columns u)))
          <$> List.find (fun u => bool_decide (University.university_name (u_columns u) = name))
                        (select_all (universities db)).
Proof.
  intros db Hnd name. cbn [get_statistics by_university].
  destruct (List.find _ _) as [u|] eqn:Hfind.
  - apply find_some in Hfind as [Hu Hname]. apply bool_decide_eq_true in Hname.
    cbn [fmap option_fmap option_map]. apply dict_lookup.
    + by rewrite by_university_keys.
    + apply list_elem_of_fmap. exists u. split; [by rewrite Hname|].
      by apply list_elem_of_In.
  - cbn [fmap option_fmap option_map]. apply dict_lookup_none.
    rewrite by_university_keys. intros Hin.
    apply list_elem_of_fmap in Hin as (u & -> & Hu).
    apply list_elem_of_In in Hu.
    apply (find_none _ _ Hfind) in Hu. by apply bool_decide_eq_false in Hu.
Qed.

Lemma by_university_distinct_names_witness :
  by_university
    (get_statistics
       (save_courses sample_timestamp [sample_course "LSE_BSC_1" "BSc Economics"]
          (save_university "2025-09-01 12:00:00" LSEScraper.get_university_info
             (save_university "2025-09-01 12:00:00" BolognaScraper.get_university_info
                empty_database))))
  !! "London School of Economics and Political Science"
  = Some 1.
Proof.
  rewrite (by_university_distinct_names
             (save_courses sample_timestamp [sample_course "LSE_BSC_1" "BSc Economics"]
                (save_university "2025-09-01 12:00:00" LSEScraper.get_university_info
                   (save_university "2025-09-01 12:00:00" BolognaScraper.get_university_info
                      empty_database)))).
  - vm_compute. reflexivity.
  - vm_compute. apply NoDup_cons. split; [|apply NoDup_singleton].
    rewrite list_elem_of_singleton. discriminate.
Defined.

(** Keys that are pairwise distinct: [dict] holds the rows themselves. *)
Lemma dict_list_to_map {V : Type} (rows : list (string * V)) :
  NoDup rows.*1 -> dict rows = list_to_map rows.
Proof.
  intros Hnd. apply map_eq. intros k.
  destruct (list_to_map rows !! k) as [v|] eqn:Hk.
  - apply elem_of_list_to_map in Hk; [|done]. by apply dict_lookup.
  - apply not_elem_of_list_to_map in Hk. by apply dict_lookup_none.
Qed.

(** Each row is counted in the group of its own area and in no other. *)
Lemma sum_over_areas (rows : list course_row) (areas : list string) :
  NoDup areas ->
  (forall c, c ∈ rows -> Course.course_area (c_columns c) ∈ areas) ->
  sum_list ((fun a => length (filter (fun c => Course.course_area (c_columns c) = a) rows))
              <$> areas)
  = length rows.
Proof.
  intros Hnd. induction rows as [|c rows IH]; intros Hall.
  - clear. induction areas as [|a areas IH]; [done|].
    rewrite fmap_cons. cbn [sum_list]. by rewrite IH.
  - cbn [length]. rewrite <- IH by (intros c' Hc'; apply Hall; by right).
    assert (Course.course_area (c_columns c) ∈ areas) as Hin by (apply Hall; by left).
    clear IH Hall. induction areas as [|a areas IHa]; [by apply elem_of_nil in Hin|].
    apply NoDup_cons in Hnd as [Ha Hnd]. rewrite !fmap_cons. cbn [sum_list].
    destruct (decide (Course.course_area (c_columns c) = a)) as [Heq|Hne].
    + rewrite filter_cons_True by done. cbn [length].
      assert (forall l : list string,
                 Course.course_area (c_columns c) ∉ l ->
                 (fun a0 => length (filter (fun c0 => Course.course_area (c_columns c0) = a0)
                                           (c :: rows))) <$> l
                 = (fun a0 => length (filter (fun c0 => Course.course_area (c_columns c0) = a0)
                                             rows)) <$> l) as Hrest.
      { intros l Hl. apply Forall_fmap_ext, Forall_forall. intros a0 Ha0.
        rewrite filter_cons_False; [done|]. by intros <-. }
      rewrite Hrest by congruence. cbv [id]. lia.
    + rewrite filter_cons_False by done.
      apply elem_of_cons in Hin as [Hin|Hin]; [done|].
      rewrite (IHa Hnd Hin). cbv [id]. lia.
Qed.

(** X11. [by_area] of [get_statistics]: a subject area is a key exactly when
    some row of [degree_courses] has it, its value is the number of those
    rows, and the counts add up to the number of programmes that
    [get_statistics] reports: every programme is counted once. *)
Theorem by_area_counts_rows :
  forall db : database,
    (forall a : string,
        by_area (get_statistics db) !! a
        = if decide (rows_in_area db a = 0) then None else Some (rows_in_area db a)) /\
    counted (by_area (get_statistics db)) = stat_courses (get_statistics db).
Proof.
  intros db. split.
  - intros a. cbn [get_statistics by_area]. unfold rows_in_area.
    set (rows := select_all (degree_courses db)).
    destruct (decide _) as [Hzero|Hpos].
    + apply dict_lookup_none. rewrite area_counts_keys, elem_of_remove_dups.
      intros Hin. apply list_elem_of_fmap in Hin as (c & -> & Hc).
      by apply (proj1 (filter_length_zero _ rows) Hzero c).
    + apply dict_lookup.
      * rewrite area_counts_keys. apply NoDup_remove_dups.
      * unfold area_counts. apply list_elem_of_fmap. exists a. split; [done|].
        apply elem_of_remove_dups, list_elem_of_fmap.
        destruct (filter _ rows) as [|c l] eqn:Hf; [done|].
        assert (c ∈ filter (fun c => Course.course_area (c_columns c) = a) rows) as Hc
          by (rewrite Hf; by left).
        apply list_elem_of_filter in Hc as [Ha Hc]. eauto.
  - cbn [get_statistics by_area stat_courses]. unfold counted.
    set (rows := select_all (degree_courses db)).
    assert (NoDup (area_counts rows).*1) as Hnd
      by (rewrite area_counts_keys; apply NoDup_remove_dups).
    rewrite dict_list_to_map by done.
    rewrite (map_to_list_to_map (area_counts rows)) by done.
    unfold area_counts. rewrite <- list_fmap_compose.
    apply (sum_over_areas rows); [apply NoDup_remove_dups|].
    intros c Hc. apply elem_of_remove_dups, list_elem_of_fmap. eauto.
Qed.

End StoreContents.

(** ** The orchestrator: what a run leaves in the store *)

Section OrchestratorRuns.
Import DatabaseManager.
Variable CURRENT_TIMESTAMP : nat -> string.
Variable sqlite3_error : nat -> option exn.

Lemma save_courses_nil (now : nat -> string) (db : database) : save_courses now [] db = db.
Proof. by destruct db. Qed.

(** The store after the [try] block of [main] for one institution and its
    handler: as it was, or with the institution saved, or with the
    institution and then the programmes of [get_courses] saved. *)
Lemma scrape_university_store (sc : scraper) (w : world) :
  scrape_stores sc (store w)
    (store (scrape_university CURRENT_TIMESTAMP sqlite3_error sc w).2).
Proof.
  unfold scrape_university, try_except.
  pose proof (scrape_body_stages CURRENT_TIMESTAMP sqlite3_error sc w) as H.
  destruct (scrape_body CURRENT_TIMESTAMP sqlite3_error sc w) as [r w1].
  destruct ((call (setup_selenium sc) ≫= _) w) as [[[]|e0] w0].
  - destruct H as [[t Hs0] H]. destruct r as [[]|e].
    + destruct H as (now & l & s & s' & Hrun & Hs1). right. right.
      exists t, now, l, s, s'. split; [done|]. cbn [snd]. by rewrite Hs1, Hs0.
    + right. left. exists t. destruct (is_Exception e); cbn [snd ret]; by rewrite H, Hs0.
  - destruct H as [Hs1 [e ->]]. left. by destruct (is_Exception e).
Qed.

(** Opening the store and reading the statistics change no row, whether
    SQLite answers or fails. *)
Lemma db_open_outcome (database : option string) (w : world) :
  outcome (fun _ w' => store w' = store w /\ eff w' = eff w)
    (fun e w' => store w' = store w /\ eff w' = eff w /\
                 (database = None \/ exists n, sqlite3_error n = Some e))
    (db_open sqlite3_error database) w.
Proof.
  unfold db_open. destruct database as [db_path|]; [|by repeat split; auto].
  apply with_connection_outcome.
  do 5 (apply outcome_bind, sqlite_call_outcome;
        [|intros e w1 Herr He Hs; cbn; repeat split; eauto; congruence];
        intros ? ? ?).
  apply outcome_bind. unfold outcome at 1, create_tables, init_database.
  apply sqlite_call_outcome; cbn.
  - intros w9 Heff Hstore. split; congruence.
  - intros e w9 Herr Heff _. repeat split; eauto; congruence.
Qed.

Lemma db_get_statistics_outcome (w : world) :
  outcome (fun stats w' => stats = get_statistics (store w') /\ store w' = store w /\
                           eff w' = eff w)
    (fun e w' => store w' = store w /\ eff w' = eff w /\
                 exists n, sqlite3_error n = Some e)
    (db_get_statistics sqlite3_error) w.
Proof.
  unfold db_get_statistics. apply with_connection_outcome.
  do 5 (apply outcome_bind, sqlite_call_outcome;
        [|intros e w1 Herr He Hs; cbn; repeat split; eauto; congruence];
        intros ? ? ?).
  unfold outcome, select_statistics. repeat split; congruence.
Qed.

Lemma keeps_rows_refl (db : database) : keeps_rows db db.
Proof. by repeat split. Qed.

Lemma keeps_rows_trans (db1 db2 db3 : database) :
  keeps_rows db1 db2 -> keeps_rows db2 db3 -> keeps_rows db1 db3.
Proof.
  intros (H1 & H2 & H3 & H4) (H5 & H6 & H7 & H8).
  split; [by etrans|]. split; [by etrans|]. split; congruence.
Qed.

Lemma keeps_rows_save_university (t : string) (u : University.t) (db : database) :
  keeps_rows db (save_university t u db).
Proof.
  split; [|done]. cbn [save_university universities]. rewrite dom_insert_L.
  apply union_subseteq_r.
Qed.

Lemma keeps_rows_save_courses (now : nat -> string) (l : list Course.t) (db : database) :
  keeps_rows db (save_courses now l db).
Proof.
  split; [done|]. split; [|done]. cbn [save_courses degree_courses].
  rewrite insert_courses_dom. apply union_subseteq_l.
Qed.

Lemma scrape_university_keeps_rows (sc : scraper) (w : world) :
  keeps_rows (store w) (store (scrape_university CURRENT_TIMESTAMP sqlite3_error sc w).2).
Proof.
  destruct (scrape_university_store sc w)
    as [->|[(t & ->)|(t & now & l & s & s' & _ & ->)]].
  - apply keeps_rows_refl.
  - apply keeps_rows_save_university.
  - eapply keeps_rows_trans; [apply keeps_rows_save_university|apply keeps_rows_save_courses].
Qed.

(** A property of the store that the scrape of every institution of the
    table keeps is kept by [main], however it ends. *)
Lemma main_loop_store_invariant (P : database -> Prop) (universities : list string)
  (scrapers : list (string * scraper)) (w : world) :
  Forall (fun p => forall w',
            P (store w') ->
            P (store (scrape_university CURRENT_TIMESTAMP sqlite3_error p.2 w').2))
         scrapers ->
  P (store w) ->
  P (store (main_loop CURRENT_TIMESTAMP sqlite3_error universities scrapers w).2).
Proof.
  intros Hscrapers. unfold main_loop. revert w.
  induction Hscrapers as [|[uni_name sc] scrapers Hsc _ IH]; intros w Hw; [done|].
  cbn [for_each]. rewrite bind_run. destruct (bool_decide _).
  - rewrite ret_run. by apply IH.
  - specialize (Hsc w Hw). cbn [snd] in Hsc.
    destruct (scrape_university _ _ sc w) as [[[]|e] w']; [by apply IH|done].
Qed.

Lemma main_store_invariant (P : database -> Prop) (database : option string)
  (universities : list string) (scrapers : list (string * scraper)) (w : world) :
  Forall (fun p => forall w',
            P (store w') ->
            P (store (scrape_university CURRENT_TIMESTAMP sqlite3_error p.2 w').2))
         scrapers ->
  P (store w) ->
  match main CURRENT_TIMESTAMP sqlite3_error database universities scrapers w with
  | (Return stats, w') => stats = get_statistics (store w') /\ P (store w')
  | (Raise _, w') => P (store w')
  end.
Proof.
  intros Hscrapers Hw. unfold main. rewrite bind_run.
  pose proof (db_open_outcome database w) as Hopen. unfold outcome in Hopen.
  destruct (db_open sqlite3_error database w) as [[[]|e] w0].
  2:{ destruct Hopen as [-> _]. exact Hw. }
  destruct Hopen as [Hs0 _]. rewrite <- Hs0 in Hw. rewrite bind_run.
  pose proof (main_loop_store_invariant P universities scrapers w0 Hscrapers Hw) as Hloop.
  destruct (main_loop _ _ universities scrapers w0) as [[[]|e] w1]; [|exact Hloop].
  cbn [snd] in Hloop.
  pose proof (db_get_statistics_outcome w1) as Hstats. unfold outcome in Hstats.
  destruct (db_get_statistics sqlite3_error w1) as [[stats|e] w2].
  - destruct Hstats as (-> & Hs2 & _). rewrite Hs2. by split.
  - destruct Hstats as (-> & _). exact Hloop.
Qed.

(** X13. A run of [main] only adds to the store, however it ends, and
    whatever SQLite answers: every key of the institutions and of the
    programmes is still there, and the tables of modules and of admission
    requirements are untouched. When [main] returns, the statistics are
    those of the store it leaves. *)
Theorem main_keeps_rows :
  forall (database : option string) (universities : list string)
         (scrapers : list (string * scraper)) (w : world),
    match main CURRENT_TIMESTAMP sqlite3_error database universities scrapers w with
    | (Return stats, w') =>
        stats = get_statistics (store w') /\ keeps_rows (store w) (store w')
    | (Raise e, w') => keeps_rows (store w) (store w')
    end.
Proof.
  intros database universities scrapers w.
  apply (main_store_invariant (keeps_rows (store w))); [|apply keeps_rows_refl].
  apply Forall_forall. intros [uni_name sc] _ w' Hw'.
  eapply keeps_rows_trans; [exact Hw'|apply scrape_university_keeps_rows].
Qed.

(** *** Referential integrity *)

Lemma insert_courses_lookup_cases (now : nat -> string) (i : nat) (courses : list Course.t)
  (table : gmap string course_row) (code : string) (row : course_row) :
  insert_courses now i courses table !! code = Some row ->
  table !! code = Some row \/ c_columns row ∈ courses.
Proof.
  revert i table. induction courses as [|c courses IH]; intros i table Hrow; [by left|].
  cbn [insert_courses] in Hrow. apply IH in Hrow as [Hrow|Hrow].
  - destruct (decide (Course.degree_course_code c = code)) as [<-|Hne].
    + rewrite lookup_insert_eq in Hrow. injection Hrow as <-. right. by left.
    + rewrite lookup_insert_ne in Hrow by done. by left.
  - right. by right.
Qed.

Lemma integrity_save_university (t : string) (u : University.t) (db : database) :
  referential_integrity db -> referential_integrity (save_university t u db).
Proof.
  intros Hdb code row Hrow. cbn [save_university universities degree_courses] in *.
  destruct (decide (University.university_id u = Course.university_id (c_columns row)))
    as [->|Hne].
  - rewrite lookup_insert_eq. eauto.
  - rewrite lookup_insert_ne by done. by apply (Hdb code).
Qed.

Lemma integrity_save_courses (now : nat -> string) (l : list Course.t) (db : database) :
  Forall (fun c => is_Some (universities db !! Course.university_id c)) l ->
  referential_integrity db -> referential_integrity (save_courses now l db).
Proof.
  intros Hl Hdb code row Hrow. cbn [save_courses universities degree_courses] in *.
  apply insert_courses_lookup_cases in Hrow as [Hrow|Hrow].
  - by apply (Hdb code).
  - by apply (proj1 (Forall_forall _ _) Hl).
Qed.

Lemma scrape_university_integrity (sc : scraper) (w : world) :
  own_records sc ->
  referential_integrity (store w) ->
  referential_integrity (store (scrape_university CURRENT_TIMESTAMP sqlite3_error sc w).2).
Proof.
  intros Hown Hw.
  destruct (scrape_university_store sc w)
    as [->|[(t & ->)|(t & now & l & s & s' & Hrun & ->)]].
  - done.
  - by apply integrity_save_university.
  - apply integrity_save_courses; [|by apply integrity_save_university].
    apply Hown in Hrun. eapply Forall_impl; [exact Hrun|].
    intros c ->. cbn [save_university universities]. rewrite lookup_insert_eq. eauto.
Qed.


End OrchestratorRuns.

Section RealScrapers.
Import DatabaseManager.
Variable urljoin : string -> string -> string.
Variable invalid_url : string -> bool.
Variable microsecond : nat -> N.
Variable session_get : string -> result UniversityScraper.response.
Variable driver_get : string -> result string.
Variable BeautifulSoup : string -> result soup.
Variable use_selenium : bool.
Variable chrome_starts : bool.

Lemma scrapers_own_records :
  Forall (fun p => own_records p.2)
    (scrapers urljoin invalid_url microsecond session_get driver_get BeautifulSoup
       use_selenium chrome_starts).
Proof.
  unfold scrapers. apply Forall_cons. split; [|apply Forall_singleton].
  - intros s s' l Hrun. cbn [snd bologna get_courses get_university_info] in *.
    apply bologna_records in Hrun. eapply Forall_impl; [exact Hrun|].
    by intros c (_ & -> & _).
  - intros s s' l Hrun. cbn [snd lse get_courses get_university_info] in *.
    apply original_lse_records in Hrun. eapply Forall_impl; [exact Hrun|].
    by intros c (_ & -> & _).
Qed.


(** X15. Referential integrity is kept by a run of [main] over the scrapers of
    [university_scraper.py]: when every programme of the store refers to an
    institution of the store before the run, every programme does so after
    it, however the run ends and whatever SQLite answers, since each
    scraper saves its institution before its programmes and stamps them
    with its own identifier. *)
Theorem main_keeps_referential_integrity :
  forall (CURRENT_TIMESTAMP : nat -> string) (sqlite3_error : nat -> option exn)
         (database : option string) (universities : list string) (w : world),
    referential_integrity (store w) ->
    referential_integrity
      (store (main CURRENT_TIMESTAMP sqlite3_error database universities
                (scrapers urljoin invalid_url microsecond session_get driver_get
                   BeautifulSoup use_selenium chrome_starts) w).2).
Proof.
  intros CURRENT_TIMESTAMP sqlite3_error database universities w Hw.
  pose proof (main_store_invariant CURRENT_TIMESTAMP sqlite3_error referential_integrity
                database universities
                (scrapers urljoin invalid_url microsecond session_get driver_get
                   BeautifulSoup use_selenium chrome_starts) w) as Hmain.
  destruct (main _ _ _ _ _ w) as [[stats|e] w']; cbn [snd].
  - apply Hmain; [|exact Hw]. eapply Forall_impl; [apply scrapers_own_records|].
    intros [uni_name sc] Hown w0 Hw0. by apply scrape_university_integrity.
  - apply Hmain; [|exact Hw]. eapply Forall_impl; [apply scrapers_own_records|].
    intros [uni_name sc] Hown w0 Hw0. by apply scrape_university_integrity.
Qed.

End RealScrapers.


Lemma main_keeps_referential_integrity_witness :
  referential_integrity
    (store (main sample_timestamp (sqlite_error_at 10) (Some "data/university_data.db")
              ["bologna"; "lse"]
              (scrapers sample_urljoin all_urls_valid sample_clock first_page_only
                 no_driver parse_duplicate_links false false) initial_world).2).
Proof.
  apply (main_keeps_referential_integrity sample_urljoin all_urls_valid sample_clock
           first_page_only no_driver parse_duplicate_links false false sample_timestamp
           (sqlite_error_at 10) (Some "data/university_data.db")
           ["bologna"; "lse"] initial_world).
  intros code row Hrow. cbn in Hrow. by rewrite lookup_empty in Hrow.
Defined.

(** The run of the witness of X14 stores the two institutions and the
    programmes of the first Bologna listing, all of them referring to
    Bologna; when the first statement of [save_courses] fails, the
    institutions are stored without a programme. *)
Example main_run_example :
  let run := fun sqlite3_error =>
    (main sample_timestamp sqlite3_error (Some "data/university_data.db")
       ["bologna"; "lse"]
       (scrapers sample_urljoin all_urls_valid sample_clock first_page_only no_driver
          parse_duplicate_links false false) initial_world) in
  size (DatabaseManager.universities (store (run no_sqlite_error).2)) = 2 /\
  ((fun r => Course.university_id (DatabaseManager.c_columns r))
     <$> DatabaseManager.select_all
           (DatabaseManager.degree_courses (store (run no_sqlite_error).2)))
  = ["UNIBO"; "UNIBO"] /\
  match (run (sqlite_error_at 10)).1 with
  | Return stats =>
      DatabaseManager.stat_universities stats = 2 /\
      DatabaseManager.stat_courses stats = 0
  | Raise _ => False
  end.
Proof. vm_compute. repeat split; reflexivity. Qed.

(** ** [extract_number] *)

Section ExtractNumber.
Import PyStr UniversityScraper.

Lemma leading_digits_all_digits (s : string) : all_digits (leading_digits s) = true.
Proof.
  induction s as [|c s IH]; [done|]. cbn [leading_digits].
  destruct (is_digit c) eqn:Hc; [|done]. cbn [all_digits]. by rewrite Hc.
Qed.

Lemma leading_digits_run (ds post : string) :
  all_digits ds = true -> no_leading_digit post = true ->
  leading_digits (ds +:+ post) = ds.
Proof.
  intros Hds Hpost. induction ds as [|d ds IH].
  - rewrite append_nil_l. destruct post as [|c post]; [done|].
    cbn [no_leading_digit] in Hpost. cbn [leading_digits].
    by apply negb_true_iff in Hpost as ->.
  - cbn [all_digits] in Hds. apply andb_true_iff in Hds as [Hd Hds].
    rewrite append_cons. cbn [leading_digits]. rewrite Hd. by rewrite IH.
Qed.

Lemma is_digit_value (c : ascii) :
  is_digit c = true -> (0 <= Z.of_N (N_of_ascii c) - 48 <= 9)%Z.
Proof.
  unfold is_digit. cbv zeta. intros H. apply andb_true_iff in H as [H1 H2].
  apply N.leb_le in H1, H2. lia.
Qed.

Lemma int_of_digits_nonneg (s : string) (acc : Z) :
  all_digits s = true -> (0 <= acc)%Z -> (acc <= int_of_digits acc s)%Z.
Proof.
  revert acc. induction s as [|c s IH]; intros acc Hs Hacc; [cbn; lia|].
  cbn [all_digits] in Hs. apply andb_true_iff in Hs as [Hc Hs].
  apply is_digit_value in Hc. cbn [int_of_digits].
  etrans; [|apply IH; [done|lia]]. lia.
Qed.

Lemma extract_number_skip (pre rest : string) :
  no_digit pre = true -> extract_number (pre +:+ rest) = extract_number rest.
Proof.
  intros Hpre. induction pre as [|c pre IH]; [by rewrite append_nil_l|].
  cbn [no_digit] in Hpre. apply andb_true_iff in Hpre as [Hc Hpre].
  apply negb_true_iff in Hc. rewrite append_cons. cbn [extract_number].
  rewrite Hc. by apply IH.
Qed.

Lemma extract_number_run (ds post : string) :
  ds <> "" -> all_digits ds = true -> no_leading_digit post = true ->
  extract_number (ds +:+ post)
  = match int ds with
    | Return n => Return (Some n)
    | Raise e => Raise e
    end.
Proof.
  intros Hne Hds Hpost. destruct ds as [|d ds]; [done|].
  pose proof Hds as Hd. cbn [all_digits] in Hd. apply andb_true_iff in Hd as [Hd _].
  rewrite append_cons. cbn [extract_number]. rewrite Hd.
  rewrite <- append_cons. by rewrite leading_digits_run.
Qed.

Lemma leading_digits_length (s : string) :
  String.length (leading_digits s) <= String.length s.
Proof.
  induction s as [|c s IH]; [done|]. cbn [leading_digits].
  destruct (is_digit c); cbn [String.length]; lia.
Qed.

(** X16. [extract_number] returns [None] exactly on a text without a digit, and
    never a negative number; it raises only the [ValueError] of [int], on a
    text of more characters than the limit of [int] on digits. *)
Theorem extract_number_none_without_digit :
  forall text : string,
    match extract_number text with
    | Return None => no_digit text = true
    | Return (Some n) => no_digit text = false /\ (0 <= n)%Z
    | Raise e =>
        no_digit text = false /\ e = OtherException "ValueError" /\
        int_max_str_digits < String.length text
    end.
Proof.
  induction text as [|c text IH]; [done|].
  cbn [extract_number no_digit]. destruct (is_digit c) eqn:Hc.
  - unfold int.
    pose proof (leading_digits_length (String c text)) as Hlen.
    destruct (int_max_str_digits <? _) eqn:Hlimit.
    + apply Nat.ltb_lt in Hlimit. split; [done|]. split; [done|]. lia.
    + split; [done|].
      apply (int_of_digits_nonneg (leading_digits (String c text)) 0); [|done].
      apply leading_digits_all_digits.
  - cbn [negb andb]. destruct (extract_number text) as [[n|]|e]; [done..|].
    destruct IH as (Hno & He & Hlen). split; [done|]. split; [done|].
    cbn [String.length]. lia.
Qed.

(** X17. [extract_number] reads the first run of digits of the text, and the
    whole of it: what comes before has no digit, and what comes after does
    not go on with one. A run of more digits than the limit of [int] makes
    it raise [ValueError]. *)
Theorem extract_number_first_run :
  forall pre ds post : string,
    no_digit pre = true ->
    ds <> "" -> all_digits ds = true ->
    no_leading_digit post = true ->
    extract_number (pre +:+ ds +:+ post)
    = if int_max_str_digits <? String.length ds
      then Raise (OtherException "ValueError")
      else Return (Some (int_of_digits 0 ds)).
Proof.
  intros pre ds post Hpre Hne Hds Hpost.
  rewrite extract_number_skip by done. rewrite extract_number_run by done.
  unfold int. by destruct (int_max_str_digits <? _).
Qed.

(** [int] reads a number as the decimal notation writes it. *)
Lemma int_of_digits_acc (d : Decimal.uint) (acc : positive) :
  int_of_digits (Z.pos acc) (NilEmpty.string_of_uint d) = Z.pos (Pos.of_uint_acc d acc).
Proof.
  revert acc. induction d as [|d IH|d IH|d IH|d IH|d IH|d IH|d IH|d IH|d IH|d IH];
    intros acc; cbn [NilEmpty.string_of_uint int_of_digits Pos.of_uint_acc];
    [done|rewrite <- IH; f_equal; cbn; lia..].
Qed.

Lemma int_of_digits_uint (d : Decimal.uint) :
  int_of_digits 0 (NilEmpty.string_of_uint d) = Z.of_N (N.of_uint d).
Proof.
  unfold N.of_uint.
  induction d as [|d IH|d IH|d IH|d IH|d IH|d IH|d IH|d IH|d IH|d IH];
    cbn [NilEmpty.string_of_uint int_of_digits Pos.of_uint];
    [done|exact IH|cbn [Z.of_N]; rewrite <- int_of_digits_acc; f_equal..].
Qed.

Lemma string_of_uint_digits (d : Decimal.uint) :
  all_digits (NilEmpty.string_of_uint d) = true.
Proof.
  induction d as [|d IH|d IH|d IH|d IH|d IH|d IH|d IH|d IH|d IH|d IH];
    cbn [NilEmpty.string_of_uint all_digits]; [done|exact IH..].
Qed.

Lemma of_N_digits (n : N) : of_N n <> "" /\ all_digits (of_N n) = true.
Proof.
  split; [|apply string_of_uint_digits].
  unfold of_N. destruct n as [|p]; [discriminate|].
  cbn [N.to_uint]. pose proof (DecimalPos.Unsigned.to_uint_nonnil p) as Hp.
  by destruct (Pos.to_uint p).
Qed.

(** X18. [extract_number] reads back a number that an f-string has written into
    a text, as in the codes of the programmes, when no digit comes before
    it and none follows it at once, and when the number has no more digits
    than the limit of [int]. *)
Theorem extract_number_reads_back :
  forall (pre post : string) (n : N),
    no_digit pre = true ->
    no_leading_digit post = true ->
    extract_number (pre +:+ of_N n +:+ post)
    = if int_max_str_digits <? String.length (of_N n)
      then Raise (OtherException "ValueError")
      else Return (Some (Z.of_N n)).
Proof.
  intros pre post n Hpre Hpost.
  destruct (of_N_digits n) as [Hne Hds].
  rewrite extract_number_skip by done. rewrite extract_number_run by done.
  unfold int. destruct (int_max_str_digits <? _); [done|].
  unfold of_N. rewrite int_of_digits_uint. by rewrite DecimalN.Unsigned.of_to.
Qed.

End ExtractNumber.

Lemma extract_number_first_run_witness :
  UniversityScraper.extract_number "Fees: 009250 GBP, 26328 abroad" = Return (Some 9250%Z).
Proof.
  apply (extract_number_first_run "Fees: " "009250" " GBP, 26328 abroad").
  - reflexivity.
  - discriminate.
  - reflexivity.
  - reflexivity.
Defined.

Lemma extract_number_reads_back_witness :
  UniversityScraper.extract_number ("LSE_BSCE_" +:+ PyStr.of_N 418207 +:+ "")
  = Return (Some 418207%Z).
Proof.
  apply (extract_number_reads_back "LSE_BSCE_" "" 418207); reflexivity.
Defined.

(** ** The patch script *)

Section PatchScript.
Import PyStr FixLSEScraper.

Lemma length_append (a b : string) :
  String.length (a +:+ b) = String.length a + String.length b.
Proof. induction a as [|c a IH]; [done|]. rewrite append_cons. cbn [String.length]. lia. Qed.

Lemma strip_prefix_spec (p s r : string) : strip_prefix p s = Some r <-> s = p +:+ r.
Proof.
  revert s. induction p as [|a p IH]; intros s; cbn [strip_prefix].
  - rewrite append_nil_l. split; congruence.
  - destruct s as [|b s]; [by rewrite append_cons|].
    rewrite append_cons. destruct (decide (a = b)) as [->|Hne].
    + rewrite IH. split; congruence.
    + split; congruence.
Qed.

Lemma strip_prefix_startswith (p s : string) :
  startswith s p = true <-> exists r, strip_prefix p s = Some r.
Proof.
  rewrite startswith_spec. split; intros [r Hr]; exists r; by apply strip_prefix_spec.
Qed.

Lemma strip_prefix_none (p s : string) :
  strip_prefix p s = None <-> startswith s p = false.
Proof.
  pose proof (strip_prefix_startswith p s) as H.
  destruct (strip_prefix p s) as [r|], (startswith s p); split; try done.
  - intros _. assert (false = true) as Hf by (apply H; eauto). discriminate Hf.
  - intros _. destruct (proj1 H eq_refl) as [r Hr]. discriminate Hr.
Qed.

Lemma strip_prefix_length (p s r : string) :
  strip_prefix p s = Some r -> String.length s = String.length p + String.length r.
Proof. intros H. apply strip_prefix_spec in H as ->. apply length_append. Qed.

Lemma after_lazy_body_length (s : string) :
  String.length (after_lazy_body s) <= String.length s.
Proof.
  induction s as [|c s IH]; [done|]. cbn [after_lazy_body].
  destruct (startswith _ _); [done|]. cbn [String.length]. lia.
Qed.

(** The length of the text is enough fuel, and more changes nothing. *)
Lemma re_sub_fuel_enough (repl : string) (f1 f2 : nat) (s : string) :
  String.length s <= f1 -> String.length s <= f2 ->
  re_sub_fuel f1 repl s = re_sub_fuel f2 repl s.
Proof.
  revert f2 s. induction f1 as [|f1 IH]; intros f2 s H1 H2.
  - destruct s as [|c s]; [by destruct f2 | cbn in H1; lia].
  - destruct f2 as [|f2]; [destruct s as [|c s]; [done | cbn in H2; lia]|].
    cbn [re_sub_fuel]. destruct s as [|c s]; [done|].
    destruct (strip_prefix class_header (String c s)) as [body|] eqn:Hp.
    + f_equal. apply strip_prefix_length in Hp.
      pose proof (after_lazy_body_length body).
      change (String.length class_header) with 36 in Hp.
      apply IH; lia.
    + f_equal. cbn [String.length] in *. apply IH; lia.
Qed.

Lemma re_sub_nil (repl : string) : re_sub repl "" = "".
Proof. reflexivity. Qed.

(** A character at which no match begins is copied. *)
Lemma re_sub_copy (repl : string) (c : ascii) (s : string) :
  strip_prefix class_header (String c s) = None ->
  re_sub repl (String c s) = String c (re_sub repl s).
Proof.
  intros Hp. unfold re_sub. cbn [String.length re_sub_fuel]. by rewrite Hp.
Qed.

(** A match is replaced, and the search goes on after it. *)
Lemma re_sub_match (repl s body : string) :
  strip_prefix class_header s = Some body ->
  re_sub repl s = repl +:+ re_sub repl (after_lazy_body body).
Proof.
  intros Hp. destruct s as [|c s]; [discriminate Hp|].
  unfold re_sub at 1. cbn [String.length re_sub_fuel]. rewrite Hp. f_equal.
  apply strip_prefix_length in Hp. pose proof (after_lazy_body_length body).
  change (String.length class_header) with 36 in Hp. cbn [String.length] in Hp.
  apply re_sub_fuel_enough; lia.
Qed.

Lemma partition_unfold (sub s : string) :
  partition sub s
  = match strip_prefix sub s with
    | Some post => Some ("", post)
    | None =>
        match s with
        | "" => None
        | String c s' =>
            match partition sub s' with
            | Some (pre, post) => Some (String c pre, post)
            | None => None
            end
        end
    end.
Proof. by destruct s. Qed.

Lemma partition_spec (sub s pre post : string) :
  partition sub s = Some (pre, post) -> s = pre +:+ sub +:+ post.
Proof.
  revert pre. induction s as [|c s IH]; intros pre; rewrite partition_unfold.
  - destruct (strip_prefix sub "") as [r|] eqn:Hp; [|done].
    intros [= <- <-]. by apply strip_prefix_spec in Hp.
  - destruct (strip_prefix sub (String c s)) as [r|] eqn:Hp.
    + intros [= <- <-]. by apply strip_prefix_spec in Hp.
    + destruct (partition sub s) as [[pre' post']|]; [|done].
      intros [= <- <-]. rewrite append_cons. f_equal. by apply IH.
Qed.

(** [partition] finds the first occurrence. *)
Lemma partition_first_occurrence (sub s pre post : string) :
  partition sub s = Some (pre, post) -> first_occurrence sub s pre post.
Proof.
  intros Hpart. split; [by apply partition_spec|].
  revert pre Hpart. induction s as [|c s IH]; intros pre; rewrite partition_unfold.
  - destruct (strip_prefix sub "") as [r|]; [|done]. intros [= <- <-] p q _. cbn. lia.
  - destruct (strip_prefix sub (String c s)) as [r|] eqn:Hp.
    + intros [= <- <-] p q _. cbn. lia.
    + destruct (partition sub s) as [[pre' post']|] eqn:Hs; [|done].
      intros [= <- <-] p q Hpq. destruct p as [|x p].
      * rewrite append_nil_l in Hpq.
        apply strip_prefix_spec in Hpq. congruence.
      * rewrite append_cons in Hpq. injection Hpq as -> Hpq.
        cbn [String.length]. apply le_n_S. by apply (IH pre' eq_refl p q).
Qed.

Lemma partition_none (sub s : string) :
  partition sub s = None -> ~ occurs_in sub s.
Proof.
  induction s as [|c s IH]; rewrite partition_unfold.
  - destruct (strip_prefix sub "") as [r|] eqn:Hp; [done|]. intros _ (pre & post & H).
    destruct pre; [|discriminate H]. rewrite append_nil_l in H.
    apply strip_prefix_spec in H. congruence.
  - destruct (strip_prefix sub (String c s)) as [r|] eqn:Hp; [done|].
    destruct (partition sub s) as [[pre' post']|]; [done|].
    intros _ (pre & post & H). destruct pre as [|x pre].
    + rewrite append_nil_l in H. apply strip_prefix_spec in H. congruence.
    + rewrite append_cons in H. injection H as _ H. apply IH; [done|]. by exists pre, post.
Qed.

(** The patch in one equation: the text before the first header is kept,
    the header and what follows it up to the next [class] are replaced, and
    the search goes on from that [class]. *)
Lemma re_sub_partition (repl content : string) :
  re_sub repl content
  = match partition class_header content with
    | None => content
    | Some (pre, rest) => pre +:+ repl +:+ re_sub repl (after_lazy_body rest)
    end.
Proof.
  induction content as [|c s IH]; [done|]. rewrite partition_unfold.
  destruct (strip_prefix class_header (String c s)) as [body|] eqn:Hp.
  - rewrite append_nil_l. by apply re_sub_match.
  - rewrite re_sub_copy by done. rewrite IH.
    by destruct (partition class_header s) as [[pre rest]|].
Qed.

Lemma after_lazy_body_partition (s : string) :
  after_lazy_body s
  = match partition "class" s with
    | None => ""
    | Some (body, tail) => "class" +:+ tail
    end.
Proof.
  induction s as [|c s IH]; [done|]. rewrite partition_unfold. cbn [after_lazy_body].
  destruct (strip_prefix "class" (String c s)) as [tail|] eqn:Hp.
  - assert (startswith (String c s) "class" = true) as ->
      by (apply strip_prefix_startswith; eauto).
    by apply strip_prefix_spec in Hp.
  - apply strip_prefix_none in Hp. rewrite Hp, IH.
    by destruct (partition "class" s) as [[body tail]|].
Qed.

(** X19. The patch replaces the class header and what follows it up to the
    first later occurrence of the letters [class], wherever they stand, be
    it in the middle of a line: the text from there on is kept and searched
    for further matches. *)
Theorem patch_stops_at_first_class :
  forall repl content pre rest body tail : string,
    partition class_header content = Some (pre, rest) ->
    partition "class" rest = Some (body, tail) ->
    content = pre +:+ class_header +:+ body +:+ "class" +:+ tail /\
    re_sub repl content = pre +:+ repl +:+ re_sub repl ("class" +:+ tail).
Proof.
  intros repl content pre rest body tail Hhead Hbody. split.
  - apply partition_spec in Hhead, Hbody. by rewrite Hhead, Hbody.
  - by rewrite re_sub_partition, Hhead, after_lazy_body_partition, Hbody.
Qed.

(** *** Running the patch twice *)

Lemma startswith_app (p a x : string) :
  String.length p <= String.length a ->
  startswith (a +:+ x) p = startswith a p.
Proof.
  revert a. induction p as [|c p IH]; intros a Hlen; [done|].
  destruct a as [|d a]; [cbn in Hlen; lia|].
  rewrite append_cons. cbn [startswith]. destruct (decide (c = d)); [|done].
  apply IH. cbn [String.length] in Hlen. lia.
Qed.

(** The output of the patch and its input agree as far as the end of the
    first header. *)
Lemma re_sub_shape (repl content : string) :
  class_text repl ->
  re_sub repl content = content \/
  exists pre x y : string,
    content = (pre +:+ class_header) +:+ x /\
    re_sub repl content = (pre +:+ class_header) +:+ y.
Proof.
  intros (new_body & -> & _). rewrite re_sub_partition.
  destruct (partition class_header content) as [[pre rest]|] eqn:Hpart; [|by left].
  right. apply partition_spec in Hpart. exists pre, rest. eexists.
  split; [by rewrite append_assoc|]. by rewrite !append_assoc.
Qed.

Lemma re_sub_keeps_prefix (repl content p : string) :
  class_text repl ->
  String.length p <= String.length class_header ->
  startswith (re_sub repl content) p = startswith content p.
Proof.
  intros Hrepl Hlen.
  destruct (re_sub_shape repl content Hrepl) as [->|(pre & x & y & Hc & ->)]; [done|].
  rewrite Hc.
  rewrite (startswith_app p (pre +:+ class_header) y) by (rewrite length_append; lia).
  by rewrite (startswith_app p (pre +:+ class_header) x) by (rewrite length_append; lia).
Qed.

(** The word [class] has no border: it cannot begin in a text without it
    and end in a following [class]. *)
Lemma startswith_class_border (u y : string) :
  startswith (u +:+ "class" +:+ y) "class" = true ->
  u = "" \/ startswith u "class" = true.
Proof.
  destruct u as [|a1 u]; [by left|]. intros H. right. revert H.
  rewrite append_cons. cbn [startswith]. destruct (decide _) as [<-|]; [|done].
  destruct u as [|a2 u].
  { rewrite append_nil_l. cbn. done. }
  rewrite append_cons. cbn [startswith]. destruct (decide _) as [<-|]; [|done].
  destruct u as [|a3 u].
  { rewrite append_nil_l. cbn. done. }
  rewrite append_cons. cbn [startswith]. destruct (decide _) as [<-|]; [|done].
  destruct u as [|a4 u].
  { rewrite append_nil_l. cbn. done. }
  rewrite append_cons. cbn [startswith]. destruct (decide _) as [<-|]; [|done].
  destruct u as [|a5 u].
  { rewrite append_nil_l. cbn. done. }
  rewrite append_cons. cbn [startswith]. by destruct (decide _) as [<-|].
Qed.

Lemma after_lazy_body_skip (u x : string) :
  contains "class" u = false ->
  x = "" \/ startswith x "class" = true ->
  after_lazy_body (u +:+ x) = x.
Proof.
  intros Hu Hx. induction u as [|a u IH].
  - rewrite append_nil_l. destruct Hx as [->|Hx]; [done|].
    destruct x as [|c x]; [done|]. cbn [after_lazy_body]. by rewrite Hx.
  - rewrite contains_cons in Hu. apply orb_false_iff in Hu as [Ha Hu].
    rewrite append_cons. cbn [after_lazy_body]. rewrite <- append_cons.
    assert (startswith (String a u +:+ x) "class" = false) as ->.
    { destruct Hx as [->|Hx]; [by rewrite append_nil_r|].
      apply startswith_spec in Hx as [y ->].
      destruct (startswith (String a u +:+ "class" +:+ y) "class") eqn:Hs; [|done].
      apply startswith_class_border in Hs as [Hs|Hs]; [discriminate Hs|congruence]. }
    by apply IH.
Qed.

Lemma after_lazy_body_shape (s : string) :
  after_lazy_body s = "" \/ startswith (after_lazy_body s) "class" = true.
Proof.
  induction s as [|c s IH]; [by left|]. cbn [after_lazy_body].
  destruct (startswith (String c s) "class") eqn:Hs; [by right | exact IH].
Qed.

Lemma re_sub_idempotent (repl : string) (n : nat) (content : string) :
  class_text repl ->
  String.length content <= n ->
  re_sub repl (re_sub repl content) = re_sub repl content.
Proof.
  intros Hrepl. revert content. induction n as [|n IH]; intros content Hlen.
  { destruct content; [done | cbn in Hlen; lia]. }
  destruct content as [|c s]; [done|].
  destruct (strip_prefix class_header (String c s)) as [body|] eqn:Hp.
  - rewrite (re_sub_match repl _ body Hp).
    set (X := re_sub repl (after_lazy_body body)).
    assert (X = "" \/ startswith X "class" = true) as HX.
    { unfold X. destruct (after_lazy_body_shape body) as [->|Hs]; [by left|right].
      rewrite re_sub_keeps_prefix; [done|done|cbn; lia]. }
    destruct Hrepl as (new_body & Hnew & Hnone).
    assert (strip_prefix class_header (repl +:+ X) = Some (new_body +:+ X)) as Hm.
    { apply strip_prefix_spec. rewrite Hnew. apply append_assoc. }
    rewrite (re_sub_match repl _ _ Hm).
    rewrite after_lazy_body_skip by done. f_equal.
    unfold X. apply IH.
    apply strip_prefix_length in Hp. pose proof (after_lazy_body_length body).
    change (String.length class_header) with 36 in Hp. cbn [String.length] in *. lia.
  - pose proof (re_sub_keeps_prefix repl (String c s) class_header Hrepl (le_n _)) as Hkeep.
    apply strip_prefix_none in Hp. rewrite Hp in Hkeep.
    rewrite re_sub_copy in Hkeep |- * by (by apply strip_prefix_none).
    apply strip_prefix_none in Hkeep. rewrite (re_sub_copy _ _ _ Hkeep). f_equal.
    apply IH. cbn [String.length] in Hlen. lia.
Qed.

(** X20. Running the patch again changes nothing more, for a replacement text
    that is the class header followed by a body without the word [class],
    as the text of the enhanced class is: the second run finds the new
    class and replaces it by itself. *)
Theorem patch_is_idempotent :
  forall repl content : string,
    class_text repl ->
    re_sub repl (re_sub repl content) = re_sub repl content.
Proof.
  intros repl content Hrepl. by apply (re_sub_idempotent repl (String.length content)).
Qed.

End PatchScript.

Lemma patch_stops_at_first_class_witness :
  FixLSEScraper.re_sub sample_new_class sample_module
  = "class BolognaScraper(UniversityScraper):" +:+ newline +:+
    "    pass" +:+ newline +:+
    sample_new_class +:+
    "class_='programme-item')" +:+ newline +:+
    "class DatabaseManager:" +:+ newline +:+
    "    pass" +:+ newline.
Proof.
  etrans.
  - eapply (patch_stops_at_first_class sample_new_class sample_module).
    + vm_compute. reflexivity.
    + vm_compute. reflexivity.
  - vm_compute. reflexivity.
Defined.

Lemma patch_is_idempotent_witness :
  FixLSEScraper.re_sub sample_new_class
    (FixLSEScraper.re_sub sample_new_class sample_module)
  = FixLSEScraper.re_sub sample_new_class sample_module.
Proof.
  apply (patch_is_idempotent sample_new_class sample_module).
  eexists. split; [reflexivity|]. vm_compute. reflexivity.
Defined.
